(** * f2v2f: codec bridge, job workers and provenance registry

    A shallow embedding of [backend/f2v2f.py] (the ctypes bridge to the
    native codec engine) and of [backend/app.py] (the Flask job manager
    and its SQLite registry), followed by the properties that the
    specification states about them and by further properties of the
    code.

    Conventions.
    - Python [int] is [Z]; the ctypes integer types wrap ([c_uint32],
      [c_uint64], [c_size_t]).
    - Python [float] is IEEE 754 binary64, taken from the standard
      library's executable specification [SpecFloat] (precision 53,
      [emax] 1024).
    - [Optional[str]] is [option string]; SQL [NULL] is [None].
    - A raised exception is a value [Raise e]; state changes made before
      the raise persist, as they do in Python.
    - The native engine, the file system, the clock and the entropy
      behind [uuid4] are the environment: their answers are inputs of
      the model. *)

From Stdlib Require Import ZArith String Ascii List Bool Lia.
From Stdlib Require Import Floats.SpecFloat DecimalString.
From Stdlib Require DecimalZ DecimalPos.
From stdpp Require Import gmap strings list.

Open Scope Z_scope.
Open Scope string_scope.

(* ===================================================================== *)
(** * Python primitives used by the two modules                           *)
(* ===================================================================== *)

Module Py.

(** [x or d] on an [Optional[str]]: [None] and [""] are falsy. *)
Definition or_else (x : option string) (d : string) : string :=
  match x with
  | Some s => if String.eqb s "" then d else s
  | None => d
  end.

(** Truthiness of an [Optional[str]] ([if x:]). *)
Definition truthy (x : option string) : bool :=
  match x with
  | Some s => negb (String.eqb s "")
  | None => false
  end.

(** [str(n)] for an [int]. *)
Definition str_of_int (n : Z) : string := NilZero.string_of_int (Z.to_int n).

(** [int(s)] for a [str], in base 10: white space around the literal is
    dropped, one sign may precede the digits, and single underscores may
    stand between digits; [None] stands for [ValueError]. A string is
    read as a sequence of characters with code points below 256: among
    these the decimal digits are ["0"] to ["9"], and the white space is
    tab to carriage return, the space, U+0085 and U+00A0. (The limit some
    interpreters put on the number of digits is not part of the model.) *)
Definition is_digit (c : ascii) : bool :=
  let n := nat_of_ascii c in ((48 <=? n) && (n <=? 57))%nat.

Definition is_int_space (c : ascii) : bool :=
  let n := nat_of_ascii c in
  ((9 <=? n) && (n <=? 13) || (n =? 32) || (n =? 133) || (n =? 160))%nat.

Fixpoint strip_left (s : string) : string :=
  match s with
  | String c rest => if is_int_space c then strip_left rest else s
  | EmptyString => EmptyString
  end.

Fixpoint strip_right (s : string) : string :=
  match s with
  | EmptyString => EmptyString
  | String c rest =>
      match strip_right rest with
      | EmptyString => if is_int_space c then EmptyString else String c EmptyString
      | r => String c r
      end
  end.

(** The digits of a literal without its underscores; [after_digit] says
    that the character before was a digit, which an underscore needs, as
    it needs a digit after it. *)
Fixpoint digits (after_digit : bool) (s : string) : option string :=
  match s with
  | EmptyString => if after_digit then Some EmptyString else None
  | String c rest =>
      if is_digit c then option_map (String c) (digits true rest)
      else if Ascii.eqb c "_"%char && after_digit then digits false rest
      else None
  end.

Definition nat_literal (s : string) : option Z :=
  match digits false s with
  | Some d => option_map Z.of_uint (NilZero.uint_of_string d)
  | None => None
  end.

Definition int_of_str (s : string) : option Z :=
  match strip_right (strip_left s) with
  | String "+"%char rest => nat_literal rest
  | String "-"%char rest => option_map Z.opp (nat_literal rest)
  | t => nat_literal t
  end.

(** ** ctypes integer conversions *)

Definition c_uint32 (n : Z) : Z := n mod 2 ^ 32.
Definition c_uint64 (n : Z) : Z := n mod 2 ^ 64.
Definition c_size_t (n : Z) : Z := n mod 2 ^ 64.

(** ** binary64 arithmetic *)

Definition prec : Z := 53.
Definition emax : Z := 1024.

(** An [int] as the exact dyadic it denotes (mantissa not yet rounded;
    the operations below round their result). *)
Definition float_of_int (n : Z) : spec_float :=
  match n with
  | Z0 => S754_zero false
  | Zpos p => S754_finite false p 0
  | Zneg p => S754_finite true p 0
  end.

(** [a / b] on two [int]s: the correctly rounded quotient.
    [None] stands for [ZeroDivisionError]. *)
Definition true_div (a b : Z) : option spec_float :=
  if Z.eqb b 0 then None
  else Some (SFdiv prec emax (float_of_int a) (float_of_int b)).

(** [x * n] for a float [x] and a small [int] literal [n]. *)
Definition mul_int (x : spec_float) (n : Z) : spec_float :=
  SFmul prec emax x (binary_normalize prec emax n 0 false).

(** [int(x)]: truncation toward zero; [None] stands for the
    [OverflowError] / [ValueError] on infinities and NaN. *)
Definition int_of_float (x : spec_float) : option Z :=
  match x with
  | S754_zero _ => Some 0
  | S754_finite s m e =>
      let v := match e with
               | Zneg p => Z.shiftr (Zpos m) (Zpos p)
               | _ => Z.shiftl (Zpos m) e
               end in
      Some (if s then - v else v)
  | S754_infinity _ | S754_nan => None
  end.

(** ** pathlib (POSIX flavour) *)

Definition slash : ascii := "/"%char.
Definition dot : ascii := "."%char.

(** [s.split('/')]. *)
Fixpoint split_slash (s : string) : list string :=
  match s with
  | EmptyString => [EmptyString]
  | String c rest =>
      if Ascii.eqb c slash then EmptyString :: split_slash rest
      else match split_slash rest with
           | w :: ws => String c w :: ws
           | [] => [String c EmptyString]
           end
  end.

(** The components pathlib keeps: empty and ["."] ones are dropped. *)
Definition parts (s : string) : list string :=
  List.filter (fun c => negb (String.eqb c "") && negb (String.eqb c ".")) (split_slash s).

(** [Path(s).name]: the final component, [""] when there is none. *)
Definition name (s : string) : string := List.last (parts s) "".

(** [s.rfind('.')]: index of the last dot. *)
Fixpoint rfind_dot (s : string) : option nat :=
  match s with
  | EmptyString => None
  | String c rest =>
      match rfind_dot rest with
      | Some i => Some (S i)
      | None => if Ascii.eqb c dot then Some O else None
      end
  end.

(** The split at the suffix dot: [0 < i < len(name) - 1]. *)
Definition suffix_index (nm : string) : option nat :=
  match rfind_dot nm with
  | Some i => if (0 <? i)%nat && (i <? String.length nm - 1)%nat then Some i else None
  | None => None
  end.

Definition suffix (s : string) : string :=
  let nm := name s in
  match suffix_index nm with
  | Some i => String.substring i (String.length nm - i) nm
  | None => ""
  end.

Definition stem (s : string) : string :=
  let nm := name s in
  match suffix_index nm with
  | Some i => String.substring 0 i nm
  | None => nm
  end.

(** [Path(folder) / child]: an absolute child replaces the folder. *)
Definition joinpath (folder child : string) : string :=
  match child with
  | String c _ => if Ascii.eqb c slash then child else folder ++ "/" ++ child
  | EmptyString => folder
  end.

End Py.

(* ===================================================================== *)
(** * Exceptions, the process state and the effect monad                  *)
(* ===================================================================== *)

(** The exception classes that occur: the bridge's own hierarchy
    ([F2V2FError] and its four subclasses) and the built-in ones. All of
    them derive from [Exception]. *)
Inductive exc_class :=
  | F2V2FError | InvalidInputError | EncodingError | DecodingError | ConfigError
  | RuntimeError | OSError | ArithmeticError | DatabaseError | UnicodeDecodeError.

(** An exception instance; [str(e)] is its message. *)
Record exn := Exn { exn_class : exc_class; exn_msg : string }.

Inductive Res (A : Type) :=
  | Ret (a : A)
  | Raise (e : exn).
Arguments Ret {A} a.
Arguments Raise {A} e.

(** ** app.py: the job entity *)

Inductive JobStatus := PENDING | RUNNING | COMPLETED | FAILED.

(** [JobStatus.value]. *)
Definition status_value (s : JobStatus) : string :=
  match s with
  | PENDING => "pending"
  | RUNNING => "running"
  | COMPLETED => "completed"
  | FAILED => "failed"
  end.

(** The dataclass [Job]. [total_size] is not a dataclass field: the
    worker attaches it at run time, so it is absent ([None]) until then
    ([hasattr(job, 'total_size')] is false). *)
Record Job := mkJob {
  job_id : string;
  operation : string;
  input_file : string;
  output_file : string;
  status : JobStatus;
  progress : Z;
  error_message : option string;
  result_url : option string;
  original_filename : option string;
  total_size : option Z
}.

Definition new_job (id op inp out : string) : Job :=
  mkJob id op inp out PENDING 0 None None None None.

Definition with_status (s : JobStatus) (j : Job) : Job :=
  mkJob (job_id j) (operation j) (input_file j) (output_file j) s (progress j)
        (error_message j) (result_url j) (original_filename j) (total_size j).
Definition with_progress (p : Z) (j : Job) : Job :=
  mkJob (job_id j) (operation j) (input_file j) (output_file j) (status j) p
        (error_message j) (result_url j) (original_filename j) (total_size j).
Definition with_error_message (m : string) (j : Job) : Job :=
  mkJob (job_id j) (operation j) (input_file j) (output_file j) (status j) (progress j)
        (Some m) (result_url j) (original_filename j) (total_size j).
Definition with_result_url (u : string) (j : Job) : Job :=
  mkJob (job_id j) (operation j) (input_file j) (output_file j) (status j) (progress j)
        (error_message j) (Some u) (original_filename j) (total_size j).
Definition with_total_size (n : Z) (j : Job) : Job :=
  mkJob (job_id j) (operation j) (input_file j) (output_file j) (status j) (progress j)
        (error_message j) (result_url j) (original_filename j) (Some n).

(** ** app.py: a row of the SQLite table [files] *)

Record FileRow := mkRow {
  row_id : string;
  row_name : string;
  row_type : string;
  row_size : Z;
  row_created_at : string;
  row_video_url : option string;
  row_original_file : option string;
  row_checksum : option string;
  row_chunk_size : option Z
}.

(** ** The file system *)

(** What the code observes of a file: [stat().st_size] and the SHA-256
    digest that [calculate_checksum] returns. The file system of the
    model is a map from paths to such files. It holds the files the code
    reads and writes itself; the database file [f2v2f.db], which SQLite
    reads and writes on the code's behalf, is not among them: its content
    is the [files] table, kept beside the file system. *)
Record FileData := mkFile { st_size : Z; sha256 : string }.

(** ** f2v2f.py: the native library *)

(** One call across the ctypes boundary, with its arguments (and, for the
    two constructors, the handle that came back; [None] is [NULL]). *)
Inductive LibCall :=
  | f2v2f_encode_create (width height fps chunk_size : Z) (ret : option Z)
  | f2v2f_encode_file (handle : option Z) (input_path output_path : string)
  | f2v2f_encode_free (handle : Z)
  | f2v2f_decode_create_with_params (width height chunk_size : Z) (ret : option Z)
  | f2v2f_decode_file (handle : option Z) (input_path output_path : string)
  | f2v2f_decode_free (handle : Z)
  | f2v2f_get_last_error
  | f2v2f_free_string.

(** The classes [Encoder] and [Decoder]: the session parameters and the
    lazily created handle. *)
Record Encoder := mkEncoder {
  enc_width : Z; enc_height : Z; enc_fps : Z; enc_chunk_size : Z;
  enc_handle : option Z
}.

Record Decoder := mkDecoder {
  dec_width : Z; dec_height : Z; dec_chunk_size : Z;
  dec_handle : option Z
}.

(** ** Logging *)

Inductive LogLevel := INFO | WARNING | ERROR.

(** ** The state a worker thread acts on

    Its job object (shared with the [jobs] dict and hence with the status
    endpoint), every value that object has had ([m_trace], oldest first:
    what a poller can observe), its local [encoder] / [decoder] variable,
    the calls it made into the native library, the file system, the
    [files] table and the log. *)
Record Mem := mkMem {
  m_job : Job;
  m_trace : list Job;
  m_encoder : option Encoder;
  m_decoder : option Decoder;
  m_lib : list LibCall;
  m_fs : gmap string FileData;
  m_files : list FileRow;
  m_log : list (LogLevel * string)
}.

Definition M (A : Type) : Type := Mem -> Res A * Mem.

Definition ret {A} (a : A) : M A := fun m => (Ret a, m).

Definition bind {A B} (c : M A) (k : A -> M B) : M B :=
  fun m => match c m with
           | (Ret a, m') => k a m'
           | (Raise e, m') => (Raise e, m')
           end.

Definition raise {A} (e : exn) : M A := fun m => (Raise e, m).

(** [try: c except Exception as e: h e]. *)
Definition try_except {A} (c : M A) (h : exn -> M A) : M A :=
  fun m => match c m with
           | (Ret a, m') => (Ret a, m')
           | (Raise e, m') => h e m'
           end.

(** [try: c finally: f]; an exception of [f] replaces the pending one. *)
Definition try_finally {A} (c : M A) (f : M unit) : M A :=
  fun m => match c m with
           | (r, m') => match f m' with
                        | (Ret _, m'') => (r, m'')
                        | (Raise e, m'') => (Raise e, m'')
                        end
           end.

Declare Scope py_scope.
Delimit Scope py_scope with py.
Notation "x <- c ;; k" := (bind c (fun x => k))
  (at level 100, c at next level, right associativity) : py_scope.
Notation "c ;; k" := (bind c (fun _ => k))
  (at level 100, right associativity) : py_scope.
Open Scope py_scope.

Definition when_ (b : bool) (c : M unit) : M unit := if b then c else ret tt.

(** *** Primitive actions *)

Definition get_job : M Job := fun m => (Ret (m_job m), m).

(** An assignment to an attribute of the job object. *)
Definition assign (f : Job -> Job) : M unit :=
  fun m => let j := f (m_job m) in
           (Ret tt, mkMem j (m_trace m ++ [j]) (m_encoder m) (m_decoder m)
                          (m_lib m) (m_fs m) (m_files m) (m_log m)).

Definition lib_call (c : LibCall) : M unit :=
  fun m => (Ret tt, mkMem (m_job m) (m_trace m) (m_encoder m) (m_decoder m)
                          (m_lib m ++ [c]) (m_fs m) (m_files m) (m_log m)).

Definition logger (lvl : LogLevel) (msg : string) : M unit :=
  fun m => (Ret tt, mkMem (m_job m) (m_trace m) (m_encoder m) (m_decoder m)
                          (m_lib m) (m_fs m) (m_files m) (m_log m ++ [(lvl, msg)])).

Definition get_encoder : M (option Encoder) := fun m => (Ret (m_encoder m), m).
Definition put_encoder (e : option Encoder) : M unit :=
  fun m => (Ret tt, mkMem (m_job m) (m_trace m) e (m_decoder m)
                          (m_lib m) (m_fs m) (m_files m) (m_log m)).

Definition get_decoder : M (option Decoder) := fun m => (Ret (m_decoder m), m).
Definition put_decoder (d : option Decoder) : M unit :=
  fun m => (Ret tt, mkMem (m_job m) (m_trace m) (m_encoder m) d
                          (m_lib m) (m_fs m) (m_files m) (m_log m)).

Definition get_fs : M (gmap string FileData) := fun m => (Ret (m_fs m), m).
Definition put_fs (fs : gmap string FileData) : M unit :=
  fun m => (Ret tt, mkMem (m_job m) (m_trace m) (m_encoder m) (m_decoder m)
                          (m_lib m) fs (m_files m) (m_log m)).

Definition get_files : M (list FileRow) := fun m => (Ret (m_files m), m).
Definition put_files (rows : list FileRow) : M unit :=
  fun m => (Ret tt, mkMem (m_job m) (m_trace m) (m_encoder m) (m_decoder m)
                          (m_lib m) (m_fs m) rows (m_log m)).

(** *** pathlib on the modelled file system *)

(** [Path(p).stat()]. *)
Definition path_stat (p : string) : M FileData :=
  fs <- get_fs ;;
  match fs !! p with
  | Some f => ret f
  | None => raise (Exn OSError ("[Errno 2] No such file or directory: '" ++ p ++ "'"))
  end.

(** [Path(p).exists()]. *)
Definition path_exists (p : string) : M bool :=
  fs <- get_fs ;;
  ret (bool_decide (is_Some (fs !! p))).

(** [Path(p).unlink()]; [fault] is a refusal by the operating system
    (permissions, a lock held by another process). *)
Definition path_unlink (fault : bool) (p : string) : M unit :=
  fs <- get_fs ;;
  match fs !! p with
  | Some _ =>
      if fault then raise (Exn OSError ("[Errno 13] Permission denied: '" ++ p ++ "'"))
      else put_fs (delete p fs)
  | None => raise (Exn OSError ("[Errno 2] No such file or directory: '" ++ p ++ "'"))
  end.

(** Another actor (a concurrent request, an operator) removing a file. *)
Definition removed_by_others (happens : bool) (p : string) : M unit :=
  when_ happens (fs <- get_fs ;; put_fs (delete p fs)).

(* ===================================================================== *)
(** * backend/f2v2f.py: the codec bridge                                  *)
(* ===================================================================== *)

(** What the native engine does in one session: the part of the
    environment that [libf2v2f] decides. *)
Record Engine := mkEngine {
  (** the handle returned by [f2v2f_*_create]; [None] is [NULL] *)
  eng_create : option Z;
  (** the progress callbacks it raises while running:
      [(bytes_total, frames_total, message)]; the message is [None] for a
      [NULL] pointer, [Some None] for bytes that do not decode as UTF-8,
      [Some (Some s)] for the text [s] *)
  eng_progress : list (Z * Z * option (option string));
  (** the [c_int] returned by [f2v2f_*_file] *)
  eng_status : Z;
  (** the file it leaves at the output path, if any *)
  eng_output : option FileData;
  (** [f2v2f_get_last_error()]: [None] is [NULL], [Some None] a string
      that does not decode as UTF-8, [Some (Some s)] the message [s] *)
  eng_last_error : option (option string)
}.

Module ErrorCode.
Definition SUCCESS : Z := 0.
Definition INVALID_INPUT : Z := 1.
Definition IO_ERROR : Z := 2.
Definition ENCODING_ERROR : Z := 3.
Definition DECODING_ERROR : Z := 4.
Definition CONFIG_ERROR : Z := 5.
Definition OPERATION_IN_PROGRESS : Z := 6.
Definition INVALID_HANDLE : Z := 7.
Definition UNKNOWN : Z := 255.
End ErrorCode.

(** The dict built in [_check_error], in source order. *)
Definition error_map (error_msg : option string) : list (Z * (exc_class * string)) :=
  [ (ErrorCode.INVALID_INPUT, (InvalidInputError, Py.or_else error_msg "Invalid input"));
    (ErrorCode.IO_ERROR, (F2V2FError, Py.or_else error_msg "I/O error"));
    (ErrorCode.ENCODING_ERROR, (EncodingError, Py.or_else error_msg "Encoding failed"));
    (ErrorCode.DECODING_ERROR, (DecodingError, Py.or_else error_msg "Decoding failed"));
    (ErrorCode.CONFIG_ERROR, (ConfigError, Py.or_else error_msg "Configuration error"));
    (ErrorCode.INVALID_HANDLE, (F2V2FError, Py.or_else error_msg "Invalid handle"));
    (ErrorCode.UNKNOWN, (F2V2FError, Py.or_else error_msg "Unknown error")) ].

(** [d.get(k, default)] on a dict with integer keys. *)
Fixpoint dict_get {V} (d : list (Z * V)) (k : Z) (default : V) : V :=
  match d with
  | [] => default
  | (k', v) :: rest => if Z.eqb k' k then v else dict_get rest k default
  end.

(** The exception [_check_error] selects for a non-success code, given
    the message it obtained from the engine. *)
Definition select_error (error_code : Z) (error_msg : option string) : exc_class * string :=
  dict_get (error_map error_msg) error_code
           (F2V2FError, Py.or_else error_msg ("Unknown error code: " ++ Py.str_of_int error_code)).

Definition _check_error (eng : Engine) (error_code : Z) : M unit :=
  if Z.eqb error_code ErrorCode.SUCCESS then ret tt
  else
    lib_call f2v2f_get_last_error ;;
    error_msg <- match eng_last_error eng with
                 | None => ret None
                 | Some decoded => lib_call f2v2f_free_string ;; ret decoded
                 end ;;
    let '(exc_type, msg) := select_error error_code error_msg in
    raise (Exn exc_type msg).

(** The Python callable handed to [encode] / [decode]. *)
Definition Callback : Type := Z -> Z -> string -> M unit.

(** [callback_wrapper], as the engine invokes it through ctypes: the
    arguments arrive as [c_uint64]; a [NULL] or empty message becomes
    [""], any other is decoded, which raises when the bytes are not
    UTF-8, before the Python callable is reached. An exception raised
    inside the wrapper does not cross the boundary (ctypes reports it and
    carries on). *)
Definition callback_wrapper (progress_callback : Callback)
    (args : Z * Z * option (option string)) : M unit :=
  let '(total_bytes, total_frames, msg) := args in
  try_except
    (msg_str <- match msg with
                | None => ret ""
                | Some (Some s) => ret s
                | Some None =>
                    raise (Exn UnicodeDecodeError "'utf-8' codec can't decode")
                end ;;
     progress_callback (Py.c_uint64 total_bytes) (Py.c_uint64 total_frames) msg_str)
    (fun _ => ret tt).

(** The engine at work inside [f2v2f_*_file]: it raises its callbacks
    (when one was passed), leaves its output file and returns its code. *)
Fixpoint run_callbacks (cb : Callback) (calls : list (Z * Z * option (option string))) : M unit :=
  match calls with
  | [] => ret tt
  | c :: rest => callback_wrapper cb c ;; run_callbacks cb rest
  end.

Definition engine_run (eng : Engine) (output_path : string)
    (progress_callback : option Callback) : M Z :=
  match progress_callback with
  | Some cb => run_callbacks cb (eng_progress eng)
  | None => ret tt
  end ;;
  match eng_output eng with
  | Some f => fs <- get_fs ;; put_fs (<[output_path := f]> fs)
  | None => ret tt
  end ;;
  ret (eng_status eng).

Definition unbound {A} (var : string) : M A :=
  raise (Exn RuntimeError ("local variable '" ++ var ++ "' referenced before assignment")).

(** ** class Encoder *)

(** [Encoder.__init__]. *)
Definition Encoder_init (width height fps chunk_size : Z) : Encoder :=
  mkEncoder width height fps chunk_size None.

(** [Encoder._create_handle], on the object bound to [encoder]. *)
Definition Encoder_create_handle (eng : Engine) : M unit :=
  o <- get_encoder ;;
  match o with
  | None => unbound "encoder"
  | Some self =>
      match enc_handle self with
      | Some _ => ret tt
      | None =>
          let h := eng_create eng in
          lib_call (f2v2f_encode_create (Py.c_uint32 (enc_width self))
                                        (Py.c_uint32 (enc_height self))
                                        (Py.c_uint32 (enc_fps self))
                                        (Py.c_size_t (enc_chunk_size self)) h) ;;
          put_encoder (Some (mkEncoder (enc_width self) (enc_height self) (enc_fps self)
                                       (enc_chunk_size self) h)) ;;
          match h with
          | None => raise (Exn ConfigError "Failed to create encoder")
          | Some _ => ret tt
          end
      end
  end.

(** [Encoder.encode]. *)
Definition Encoder_encode (eng : Engine) (input_path output_path : string)
    (progress_callback : option Callback) : M unit :=
  Encoder_create_handle eng ;;
  o <- get_encoder ;;
  match o with
  | None => unbound "encoder"
  | Some self =>
      lib_call (f2v2f_encode_file (enc_handle self) input_path output_path) ;;
      error_code <- engine_run eng output_path progress_callback ;;
      _check_error eng error_code
  end.

(** [Encoder.__del__]. *)
Definition Encoder_del (self : Encoder) : M unit :=
  match enc_handle self with
  | Some h => lib_call (f2v2f_encode_free h)
  | None => ret tt
  end.

(** ** class Decoder *)

(** [Decoder.__init__] with its default arguments. *)
Definition Decoder_init (width height chunk_size : option Z) : Decoder :=
  mkDecoder (default 1920 width) (default 1080 height) (default 4096 chunk_size) None.

(** [Decoder._create_handle], on the object bound to [decoder]. *)
Definition Decoder_create_handle (eng : Engine) : M unit :=
  o <- get_decoder ;;
  match o with
  | None => unbound "decoder"
  | Some self =>
      match dec_handle self with
      | Some _ => ret tt
      | None =>
          let h := eng_create eng in
          lib_call (f2v2f_decode_create_with_params (Py.c_uint32 (dec_width self))
                                                    (Py.c_uint32 (dec_height self))
                                                    (Py.c_size_t (dec_chunk_size self)) h) ;;
          put_decoder (Some (mkDecoder (dec_width self) (dec_height self)
                                       (dec_chunk_size self) h)) ;;
          match h with
          | None => raise (Exn ConfigError "Failed to create decoder")
          | Some _ => ret tt
          end
      end
  end.

(** [Decoder.decode]. *)
Definition Decoder_decode (eng : Engine) (input_path output_path : string)
    (progress_callback : option Callback) : M unit :=
  Decoder_create_handle eng ;;
  o <- get_decoder ;;
  match o with
  | None => unbound "decoder"
  | Some self =>
      lib_call (f2v2f_decode_file (dec_handle self) input_path output_path) ;;
      error_code <- engine_run eng output_path progress_callback ;;
      _check_error eng error_code
  end.

(** [Decoder.__del__]. *)
Definition Decoder_del (self : Decoder) : M unit :=
  match dec_handle self with
  | Some h => lib_call (f2v2f_decode_free h)
  | None => ret tt
  end.

(** The end of a worker function: its frame is released, which drops the
    last reference to the object bound to [encoder] / [decoder], and
    CPython's reference counting runs [__del__] there and then. *)
Definition release_locals : M unit :=
  oe <- get_encoder ;;
  match oe with
  | Some self => Encoder_del self ;; put_encoder None
  | None => ret tt
  end ;;
  od <- get_decoder ;;
  match od with
  | Some self => Decoder_del self ;; put_decoder None
  | None => ret tt
  end.

(* ===================================================================== *)
(** * backend/app.py: the job manager and the registry                    *)
(* ===================================================================== *)

(** [str(Path(s))]: the kept components joined again. *)
Definition path_str (s : string) : string :=
  let body := String.concat "/" (Py.parts s) in
  match s with
  | String c _ =>
      if Ascii.eqb c Py.slash then "/" ++ body
      else if String.eqb body "" then "." else body
  | EmptyString => "."
  end.

(** [str(Path(folder) / child)]. *)
Definition path_join (folder child : string) : string :=
  path_str (Py.joinpath folder child).

(** The two folders, relative to the directory of [app.py]. *)
Definition UPLOAD_FOLDER : string := "uploads".
Definition OUTPUT_FOLDER : string := "outputs".

(** [allowed_file]. *)
Definition allowed_file (filename : string) : bool := true.

(** ** The worker's view of its environment *)

(** Everything outside the worker that decides how one run goes: the
    engine's session, what other actors do to the files in the meantime,
    the answers of the database, the clock and [uuid4]. *)
Record Env := mkEnv {
  env_engine : Engine;
  (** the upload is gone before the worker reads its size *)
  env_input_lost : bool;
  (** the output is removed after the existence check, before the
      registry step reads its size *)
  env_output_lost_before_registry : bool;
  (** [str(uuid.uuid4())] for the record id *)
  env_record_id : string;
  (** [datetime.now().isoformat()] *)
  env_now : string;
  (** sqlite3 raises with this message ([None]: it does not) *)
  env_db_fault : option string;
  (** the output is removed after the registry step, before the closing
      log statement reads its size *)
  env_output_lost_before_log : bool;
  (** the operating system refuses to unlink the upload *)
  env_unlink_fault : bool
}.

(** [int((total_bytes / total_size) * 100)]; [None] when the expression
    raises. *)
Definition percent (total_bytes total_size : Z) : option Z :=
  match Py.true_div total_bytes total_size with
  | Some q => Py.int_of_float (Py.mul_int q 100)
  | None => None
  end.

(** ** Rounding to binary64

    The vocabulary in which the two roundings of [percent] are followed:
    the division of the byte counts and the product with 100. *)

(** The integer nearest to the rational [N / D], ties to the even one. *)
Definition rne (N D : Z) : Z :=
  match Z.compare (2 * (N mod D)) D with
  | Lt => N / D
  | Gt => N / D + 1
  | Eq => if Z.even (N / D) then N / D else N / D + 1
  end.

(** The record [mrs] places [N / D] between two integers the way
    [SpecFloat] does: its mantissa is the floor, its round bit says that
    the rest is at least one half, its sticky bit that the rest is neither
    zero nor one half. *)
Definition locates (mrs : shr_record) (N D : Z) : Prop :=
  shr_m mrs = N / D
  /\ shr_r mrs = Z.leb D (2 * (N mod D))
  /\ shr_s mrs = negb (Z.eqb (N mod D) 0 || Z.eqb (2 * (N mod D)) D).

(** A positive binary64 number with a full 53-bit mantissa and an
    exponent that is not positive. *)
Definition normal (x : spec_float) : Prop :=
  match x with
  | S754_finite false m e => 2 ^ 52 <= Zpos m < 2 ^ 53 /\ -1074 <= e <= 0
  | _ => False
  end.

(** The value of a non-negative float, as a multiple of [2 ^ -1074]. *)
Definition sc (x : spec_float) : Z :=
  match x with
  | S754_finite false m e => Zpos m * 2 ^ (e + 1074)
  | _ => 0
  end.

Definition expo (x : spec_float) : Z :=
  match x with
  | S754_finite _ _ e => e
  | _ => 0
  end.

(** [x] is the rational [N / D] rounded to 53 bits: at the scale [k] that
    brings [N / D] into [[2 ^ 52, 2 ^ 53)], the mantissa is [rne]. *)
Definition rounds (N D : Z) (x : spec_float) : Prop :=
  normal x /\
  exists k, 0 <= k <= 1074 /\ 2 ^ 52 * D <= N * 2 ^ k < 2 ^ 53 * D
            /\ sc x = rne (N * 2 ^ k) D * 2 ^ (1074 - k).

(** The float [(total_bytes / total_size) * 100] before [int] truncates
    it, as a multiple of [2 ^ -1074]. *)
Definition percent_scaled (total_bytes total_size : Z) : Z :=
  match Py.true_div total_bytes total_size with
  | Some q => sc (Py.mul_int q 100)
  | None => 0
  end.

(** The nested [progress_callback] of [encode_task] and of [decode_task]
    (the two bodies are the same). *)
Definition progress_callback (job_id : string) : Callback :=
  fun total_bytes total_frames message =>
    logger INFO ("Job " ++ job_id ++ " progress: " ++ Py.str_of_int total_bytes ++ " bytes, "
                 ++ Py.str_of_int total_frames ++ " frames - " ++ message) ;;
    job <- get_job ;;
    match total_size job with
    | Some ts =>
        if Z.ltb 0 ts then
          match percent total_bytes ts with
          | Some p => assign (with_progress p)
          | None => raise (Exn ArithmeticError "cannot convert float to integer")
          end
        else assign (with_progress 50)
    | None => assign (with_progress 50)
    end.

(** [INSERT INTO files ...; commit]. [id] is the primary key. The row
    goes to the table, which stands for the database file. *)
Definition db_insert (fault : option string) (row : FileRow) : M unit :=
  match fault with
  | Some msg => raise (Exn DatabaseError msg)
  | None =>
      rows <- get_files ;;
      if existsb (fun r => String.eqb (row_id r) (row_id row)) rows
      then raise (Exn DatabaseError "UNIQUE constraint failed: files.id")
      else put_files (rows ++ [row])
  end.

(** ** encode_task *)

(** What the closure [encode_task] captures from [encode_file]. *)
Record EncodeTask := mkEncodeTask {
  et_job : Job;
  et_input_path : string;
  et_output_path : string;
  et_output_name : string;
  et_width : Z;
  et_height : Z;
  et_fps : Z;
  et_chunk_size : Z;
  et_filename : string     (** [file.filename], as the client sent it *)
}.

(** The registry step of [encode_task] (the inner [try] block). *)
Definition encode_registry (t : EncodeTask) (env : Env) : M unit :=
  removed_by_others (env_output_lost_before_registry env) (et_output_path t) ;;
  st <- path_stat (et_output_path t) ;;
  let output_size := st_size st in
  let original_filename := et_filename t in
  db_insert (env_db_fault env)
            (mkRow (env_record_id env) original_filename "encoded" output_size (env_now env)
                   (Some ("/api/download/" ++ et_output_name t))
                   (Some original_filename) None None) ;;
  logger INFO ("Added file record: " ++ original_filename).

(** The registry step with its handler: [try: ... except Exception as e:
    logger.warning(...)]. *)
Definition encode_bookkeeping (t : EncodeTask) (env : Env) : M unit :=
  try_except (encode_registry t env)
             (fun e => logger WARNING ("Could not add to registry: " ++ exn_msg e)).

(** The closing log statement of both workers; its f-string reads the
    size of the output file once more. *)
Definition log_completed (env : Env) (job_id output_path : string) : M unit :=
  removed_by_others (env_output_lost_before_log env) output_path ;;
  st <- path_stat output_path ;;
  logger INFO ("Job " ++ job_id ++ " completed - output: " ++ output_path ++ " ("
               ++ Py.str_of_int (st_size st) ++ " bytes)").

(** The [except Exception as e] clause of both workers. *)
Definition job_failed (job_id : string) (e : exn) : M unit :=
  assign (with_status FAILED) ;;
  assign (with_error_message (exn_msg e)) ;;
  logger ERROR ("Job " ++ job_id ++ " failed: " ++ exn_msg e).

(** The [finally] clause of both workers. *)
Definition cleanup_input (env : Env) (input_path : string) : M unit :=
  try_except (path_unlink (env_unlink_fault env) input_path) (fun _ => ret tt).

(** The body of the outer [try] of [encode_task]. *)
Definition encode_try (t : EncodeTask) (env : Env) : M unit :=
  let job_id := job_id (et_job t) in
  removed_by_others (env_input_lost env) (et_input_path t) ;;
  st <- path_stat (et_input_path t) ;;
  assign (with_total_size (st_size st)) ;;
  logger INFO ("Starting encode for " ++ et_input_path t) ;;
  put_encoder (Some (Encoder_init (et_width t) (et_height t) (et_fps t) (et_chunk_size t))) ;;
  Encoder_encode (env_engine env) (et_input_path t) (et_output_path t)
                 (Some (progress_callback job_id)) ;;
  created <- path_exists (et_output_path t) ;;
  if negb created
  then raise (Exn RuntimeError ("Encoder did not create output file: " ++ et_output_path t))
  else
    assign (with_status COMPLETED) ;;
    assign (with_progress 100) ;;
    assign (with_result_url ("/api/download/" ++ et_output_name t)) ;;
    encode_bookkeeping t env ;;
    log_completed env job_id (et_output_path t).

Definition encode_task (t : EncodeTask) (env : Env) : M unit :=
  assign (with_status RUNNING) ;;
  try_finally
    (try_except (encode_try t env) (job_failed (job_id (et_job t))))
    (cleanup_input env (et_input_path t)) ;;
  release_locals.

(** ** decode_task *)

(** What the closure [decode_task] captures from [decode_video]. *)
Record DecodeTask := mkDecodeTask {
  dt_job : Job;
  dt_input_path : string;
  dt_output_path : string;
  dt_output_name : string;
  dt_original_filename : option string
}.

(** The registry step of [decode_task] (the inner [try] block). *)
Definition decode_registry (t : DecodeTask) (env : Env) : M unit :=
  removed_by_others (env_output_lost_before_registry env) (dt_output_path t) ;;
  st <- path_stat (dt_output_path t) ;;
  let output_size := st_size st in
  let checksum := sha256 st in
  let display_name :=
    if Py.truthy (dt_original_filename t)
    then default "" (dt_original_filename t) else dt_output_name t in
  db_insert (env_db_fault env)
            (mkRow (env_record_id env) display_name "original" output_size (env_now env)
                   (Some ("/api/download/" ++ dt_output_name t))
                   (dt_original_filename t) (Some checksum) None) ;;
  logger INFO ("Added decoded file record: " ++ display_name).

Definition decode_bookkeeping (t : DecodeTask) (env : Env) : M unit :=
  try_except (decode_registry t env)
             (fun e => logger WARNING ("Could not add to registry: " ++ exn_msg e)).

(** The body of the outer [try] of [decode_task]. *)
Definition decode_try (t : DecodeTask) (env : Env) : M unit :=
  let job_id := job_id (dt_job t) in
  removed_by_others (env_input_lost env) (dt_input_path t) ;;
  st <- path_stat (dt_input_path t) ;;
  assign (with_total_size (st_size st)) ;;
  logger INFO ("Starting decode for " ++ dt_input_path t) ;;
  put_decoder (Some (Decoder_init None None None)) ;;
  Decoder_decode (env_engine env) (dt_input_path t) (dt_output_path t)
                 (Some (progress_callback job_id)) ;;
  created <- path_exists (dt_output_path t) ;;
  if negb created
  then raise (Exn RuntimeError ("Decoder did not create output file: " ++ dt_output_path t))
  else
    assign (with_status COMPLETED) ;;
    assign (with_progress 100) ;;
    assign (with_result_url ("/api/download/" ++ dt_output_name t)) ;;
    decode_bookkeeping t env ;;
    log_completed env job_id (dt_output_path t).

Definition decode_task (t : DecodeTask) (env : Env) : M unit :=
  assign (with_status RUNNING) ;;
  try_finally
    (try_except (decode_try t env) (job_failed (job_id (dt_job t))))
    (cleanup_input env (dt_input_path t)) ;;
  release_locals.

(** ** The server: requests, responses and the shared state *)

(** A [werkzeug] [FileStorage]: the client's file name and the content. *)
Record FileStorage := mkUpload { up_filename : string; up_content : FileData }.

(** The parts of a Flask request that the handlers read. *)
Record Request := mkRequest {
  req_files : list (string * FileStorage);
  req_form : list (string * string)
}.

(** [jsonify(body), code]. *)
Record Response := mkResponse { resp_code : Z; resp_body : list (string * string) }.

(** The state shared by the request handlers and the workers: the [jobs]
    dict, the file system, the [files] table, and how many values
    [uuid4] has handed out. *)
Record World := mkWorld {
  w_jobs : gmap string Job;
  w_fs : gmap string FileData;
  w_files : list FileRow;
  w_uuids : nat
}.

(** [d[key]] on a multi-dict: the first value stored under the key. *)
Fixpoint multi_get {V} (d : list (string * V)) (key : string) : option V :=
  match d with
  | [] => None
  | (k, v) :: rest => if String.eqb k key then Some v else multi_get rest key
  end.

(** [request.form.get(key, default, type=int)]: the default also when the
    value does not convert. *)
Definition form_get_int (form : list (string * string)) (key : string) (default : Z) : Z :=
  match multi_get form key with
  | Some v => match Py.int_of_str v with Some n => n | None => default end
  | None => default
  end.

(** [SELECT original_file FROM files WHERE video_url = ?
     ORDER BY created_at DESC LIMIT 1]: among the matching rows one whose
    [created_at] (a TEXT column, compared as a string) is greatest; where
    several are, the first in table order. *)
Fixpoint newest (rows : list FileRow) : option FileRow :=
  match rows with
  | [] => None
  | r :: rest =>
      match newest rest with
      | Some r' => if String.ltb (row_created_at r) (row_created_at r') then Some r' else Some r
      | None => Some r
      end
  end.

Definition matches_url (url : string) (r : FileRow) : bool :=
  match row_video_url r with
  | Some u => String.eqb u url
  | None => false
  end.

Definition select_latest_by_url (rows : list FileRow) (url : string) : option FileRow :=
  newest (List.filter (matches_url url) rows).

(** [SELECT * FROM files WHERE id = ?] followed by [fetchone()]. *)
Definition select_by_id (rows : list FileRow) (file_id : string) : option FileRow :=
  List.find (fun r => String.eqb (row_id r) file_id) rows.

(** [DELETE FROM files WHERE id = ?]. *)
Definition delete_by_id (rows : list FileRow) (file_id : string) : list FileRow :=
  List.filter (fun r => negb (String.eqb (row_id r) file_id)) rows.

(** The two folders exist as directories (created when the module is
    imported). A path is taken as written: the file system is a map from
    names to regular files, without [..] components or links resolved, so
    the names the registry stores are read as plain file names. *)
Definition is_dir (p : string) : bool :=
  String.eqb p UPLOAD_FOLDER || String.eqb p OUTPUT_FOLDER.

(** [if p.exists(): p.unlink()] in a request handler; [inr] carries the
    exception ([unlink] on a directory raises). *)
Definition unlink_if_exists (p : string) (fs : gmap string FileData)
  : gmap string FileData + exn :=
  match fs !! p with
  | Some _ => inl (delete p fs)
  | None =>
      if is_dir p then inr (Exn OSError ("[Errno 21] Is a directory: '" ++ p ++ "'"))
      else inl fs
  end.

Definition error_response (code : Z) (msg : string) : Response :=
  mkResponse code [("error", msg)].

(** [delete_file_record]. *)
Definition delete_file_record (file_id : string) (w : World) : Response * World :=
  match select_by_id (w_files w) file_id with
  | None => (error_response 404 "File not found", w)
  | Some row =>
      let step1 :=
        if Py.truthy (row_video_url row) then
          let filename := List.last (Py.split_slash (default "" (row_video_url row))) "" in
          unlink_if_exists (path_join OUTPUT_FOLDER filename) (w_fs w)
        else inl (w_fs w) in
      match step1 with
      | inr e => (error_response 500 (exn_msg e), w)
      | inl fs1 =>
          let step2 :=
            if Py.truthy (row_original_file row) then
              unlink_if_exists (path_join UPLOAD_FOLDER (default "" (row_original_file row))) fs1
            else inl fs1 in
          match step2 with
          | inr e => (error_response 500 (exn_msg e),
                      mkWorld (w_jobs w) fs1 (w_files w) (w_uuids w))
          | inl fs2 =>
              (mkResponse 200 [("message", "File deleted successfully")],
               mkWorld (w_jobs w) fs2 (delete_by_id (w_files w) file_id) (w_uuids w))
          end
      end
  end.

Section Server.

(** [werkzeug.utils.secure_filename] and the values [uuid.uuid4()]
    yields, in the order they are drawn: both come from outside the
    repository. So does the scheduling of the threads: a handler starts
    its worker before it builds the response, and [seen] is the status
    the job shows when the handler reads it for the response (the one the
    job was created with when the worker has not taken a step by then,
    a later one otherwise). Reading it is all the handler does after the
    start, so the worker is run after the handler. *)
Variable secure_filename : string -> string.
Variable uuid_of : nat -> string.
Variable seen : JobStatus.

(** [str(uuid.uuid4())]. *)
Definition uuid4 (w : World) : string * World :=
  (uuid_of (w_uuids w), mkWorld (w_jobs w) (w_fs w) (w_files w) (S (w_uuids w))).

(** [file.save(path)]. *)
Definition save (path : string) (content : FileData) (w : World) : World :=
  mkWorld (w_jobs w) (<[path := content]> (w_fs w)) (w_files w) (w_uuids w).

(** [jobs[job_id] = job]. *)
Definition register_job (j : Job) (w : World) : World :=
  mkWorld (<[job_id j := j]> (w_jobs w)) (w_fs w) (w_files w) (w_uuids w).

(** [encode_file]: the response, the state it leaves, and the worker it
    starts (if any). *)
Definition encode_file (req : Request) (w : World)
  : Response * World * option EncodeTask :=
  match multi_get (req_files req) "file" with
  | None => (error_response 400 "No file provided", w, None)
  | Some file =>
      if String.eqb (up_filename file) "" then
        (error_response 400 "Empty filename", w, None)
      else if negb (allowed_file (up_filename file)) then
        (error_response 400 "File type not allowed", w, None)
      else
        let width := form_get_int (req_form req) "width" 1920 in
        let height := form_get_int (req_form req) "height" 1080 in
        let fps := form_get_int (req_form req) "fps" 30 in
        let chunk_size := form_get_int (req_form req) "chunk_size" 4096 in
        let filename := secure_filename (up_filename file) in
        let '(u1, w1) := uuid4 w in
        let unique_name := u1 ++ "_" ++ filename in
        let input_path := path_join UPLOAD_FOLDER unique_name in
        let w2 := save input_path (up_content file) w1 in
        let base_name := Py.stem filename in
        let '(u2, w3) := uuid4 w2 in
        let output_name := u2 ++ "_" ++ base_name ++ ".mp4" in
        let output_path := path_join OUTPUT_FOLDER output_name in
        let '(id, w4) := uuid4 w3 in
        let job := new_job id "encode" input_path output_path in
        let w5 := register_job job w4 in
        (mkResponse 202 [("job_id", id); ("status", status_value seen);
                         ("message", "Encoding started")],
         w5,
         Some (mkEncodeTask job input_path output_path output_name
                            width height fps chunk_size (up_filename file)))
  end.

(** The lookup of the origin name in [decode_video]; [fault] is an
    exception raised by sqlite3, which the handler logs and ignores. *)
Definition find_origin_name (fault : bool) (rows : list FileRow) (filename : string)
  : option string :=
  if fault then None
  else
    match select_latest_by_url rows ("/api/download/" ++ filename) with
    | Some row => if Py.truthy (row_original_file row) then row_original_file row else None
    | None => None
    end.

(** The output name [decode_video] chooses, given a fresh uuid. *)
Definition decode_output_name (u : string) (original_filename : option string) : string :=
  if Py.truthy original_filename then
    let o := default "" original_filename in
    u ++ "_" ++ Py.stem o ++ Py.suffix o
  else u ++ "_decoded.bin".

(** [decode_video]. *)
Definition decode_video (db_fault : bool) (req : Request) (w : World)
  : Response * World * option DecodeTask :=
  match multi_get (req_files req) "file" with
  | None => (error_response 400 "No file provided", w, None)
  | Some file =>
      if String.eqb (up_filename file) "" then
        (error_response 400 "Empty filename", w, None)
      else
        let filename := secure_filename (up_filename file) in
        let '(u1, w1) := uuid4 w in
        let unique_name := u1 ++ "_" ++ filename in
        let input_path := path_join UPLOAD_FOLDER unique_name in
        let w2 := save input_path (up_content file) w1 in
        let original_filename := find_origin_name db_fault (w_files w2) filename in
        let '(u2, w3) := uuid4 w2 in
        let output_name := decode_output_name u2 original_filename in
        let output_path := path_join OUTPUT_FOLDER output_name in
        let '(id, w4) := uuid4 w3 in
        let job := new_job id "decode" input_path output_path in
        let w5 := register_job job w4 in
        (mkResponse 202 [("job_id", id); ("status", status_value seen);
                         ("message", "Decoding started")],
         w5,
         Some (mkDecodeTask job input_path output_path output_name original_filename))
  end.

End Server.

(** ** Running a worker against the shared state *)

(** The state a worker starts from: the job object as the handler
    created it, nothing bound yet, the shared files and table. *)
Definition worker_start (job : Job) (w : World) : Mem :=
  mkMem job [job] None None [] (w_fs w) (w_files w) [].

(** The shared state once the worker has returned: its job object is the
    one the [jobs] dict refers to. *)
Definition worker_done (m : Mem) (w : World) : World :=
  mkWorld (<[job_id (m_job m) := m_job m]> (w_jobs w)) (m_fs m) (m_files m) (w_uuids w).

Definition run_encode (t : EncodeTask) (env : Env) (w : World) : Mem :=
  snd (encode_task t env (worker_start (et_job t) w)).

Definition run_decode (t : DecodeTask) (env : Env) (w : World) : Mem :=
  snd (decode_task t env (worker_start (dt_job t) w)).

(* ===================================================================== *)
(** * Vocabulary of the specification                                     *)
(* ===================================================================== *)

(** ** Error taxonomy (specification, section 7) *)

Inductive ErrorKind :=
  | InvalidInput | Io | Encoding | Decoding | Config
  | OperationInProgress | InvalidHandle | Unknown.

Definition all_kinds : list ErrorKind :=
  [InvalidInput; Io; Encoding; Decoding; Config; OperationInProgress; InvalidHandle; Unknown].

(** The message of the exception [_check_error] raises ([None] when it
    returns normally). *)
Definition raised_message (eng : Engine) (error_code : Z) (m : Mem) : option string :=
  match fst (_check_error eng error_code m) with
  | Raise e => Some (exn_msg e)
  | Ret _ => None
  end.

(** "Every non-success return code is mapped to exactly one kind of the
    taxonomy, and without a detailed message the error carries the fixed
    default message of that kind." *)
Definition fixed_message_per_kind : Prop :=
  exists (kind_of : Z -> ErrorKind) (default_message : ErrorKind -> string),
  forall eng error_code m,
    eng_last_error eng = None ->
    error_code <> ErrorCode.SUCCESS ->
    raised_message eng error_code m = Some (default_message (kind_of error_code)).

(** Nine return codes; none of them is [OPERATION_IN_PROGRESS]. *)
Definition sample_codes : list Z := [1; 2; 3; 4; 5; 7; 255; 8; 9].

(** An engine that reports failure and has no detailed message. *)
Definition silent_engine (error_code : Z) : Engine :=
  mkEngine (Some 1) [] error_code None None.

(** ** Job life cycle (specification, sections 3 and 8) *)

(** Consecutive values satisfy [R]. *)
Fixpoint chainb {A} (R : A -> A -> bool) (l : list A) : bool :=
  match l with
  | a :: (b :: _) as rest => R a b && chainb R rest
  | _ => true
  end.

(** Pending → Running → {Completed | Failed}, or no change. *)
Definition forward (s s' : JobStatus) : bool :=
  match s, s' with
  | PENDING, PENDING | RUNNING, RUNNING | COMPLETED, COMPLETED | FAILED, FAILED => true
  | PENDING, RUNNING | RUNNING, COMPLETED | RUNNING, FAILED => true
  | _, _ => false
  end.

Definition is_completed (j : Job) : bool :=
  match status j with COMPLETED => true | _ => false end.

Definition status_forward (tr : list Job) : bool :=
  chainb (fun a b => forward (status a) (status b)) tr.

Definition progress_monotone (tr : list Job) : bool :=
  chainb (fun a b => Z.leb (progress a) (progress b)) tr.

(** "Progress equals exactly 100 once status is Completed." *)
Definition completed_at_100 (tr : list Job) : bool :=
  forallb (fun j => implb (is_completed j) (Z.eqb (progress j) 100)) tr.

(** The life cycle as the specification states it. *)
Definition orderly (tr : list Job) : bool :=
  status_forward tr && progress_monotone tr && completed_at_100 tr.

(** Progress is 100 in every value of the job that follows the one in
    which it first shows Completed. *)
Fixpoint settles_at_100 (tr : list Job) : bool :=
  match tr with
  | [] => true
  | j :: rest =>
      if is_completed j then forallb (fun j' => Z.eqb (progress j') 100) rest
      else settles_at_100 rest
  end.

(** The message of a report reaches the Python callable: it is [NULL]
    or it decodes. *)
Definition decodes (call : Z * Z * option (option string)) : bool :=
  match snd call with
  | Some None => false
  | _ => true
  end.

(** The value one progress callback assigns when the job's [total_size]
    is [ts]; [None] when the wrapper or the callback raises and nothing
    is assigned. *)
Definition assigned (ts : Z) (call : Z * Z * option (option string)) : option Z :=
  if decodes call then
    if Z.ltb 0 ts then percent (Py.c_uint64 (fst (fst call))) ts else Some 50
  else None.

(** The values a whole run of callbacks assigns, in order. *)
Definition assigned_values (ts : Z) (calls : list (Z * Z * option (option string))) : list Z :=
  omap (assigned ts) calls.

(** The callbacks of a session never step back and never pass 100. *)
Definition steady (ts : Z) (calls : list (Z * Z * option (option string))) : bool :=
  chainb Z.leb (0 :: assigned_values ts calls)
  && forallb (fun p => Z.leb p 100) (assigned_values ts calls).

(** The byte counts a session reports start from nothing, never step
    back and never pass the size [ts] of the input, which fits the 64-bit
    argument of the callback. *)
Definition well_reported (ts : Z) (calls : list (Z * Z * option (option string))) : bool :=
  Z.ltb ts (2 ^ 64)
  && chainb Z.leb (0 :: List.map (fun call => fst (fst call)) calls)
  && forallb (fun call => Z.leb (fst (fst call)) ts) calls.

(** The size the worker reads for its input. *)
Definition input_size (input_path : string) (w : World) : Z :=
  match w_fs w !! input_path with
  | Some f => st_size f
  | None => 0
  end.

(** The output file is still in place when the closing log statement
    reads its size. *)
Definition output_kept (env : Env) : bool :=
  negb (env_output_lost_before_registry env) && negb (env_output_lost_before_log env).

(** ** Handle discipline (specification, sections 3 and 8) *)

Inductive HandleState := NoHandle | Live (h : Z) | Destroyed.

(** One library call against the state of the session's handle; [None]
    is a breach: a second create, a use or a destroy of a handle that is
    not live. *)
Definition handle_step (s : HandleState) (c : LibCall) : option HandleState :=
  match c with
  | f2v2f_encode_create _ _ _ _ r | f2v2f_decode_create_with_params _ _ _ r =>
      match s, r with
      | NoHandle, Some h => Some (Live h)
      | NoHandle, None => Some NoHandle
      | _, _ => None
      end
  | f2v2f_encode_file h _ _ | f2v2f_decode_file h _ _ =>
      match s, h with
      | Live h0, Some h1 => if Z.eqb h0 h1 then Some s else None
      | _, _ => None
      end
  | f2v2f_encode_free h | f2v2f_decode_free h =>
      match s with
      | Live h0 => if Z.eqb h0 h then Some Destroyed else None
      | _ => None
      end
  | f2v2f_get_last_error | f2v2f_free_string => Some s
  end.

Fixpoint handle_run (s : HandleState) (calls : list LibCall) : option HandleState :=
  match calls with
  | [] => Some s
  | c :: rest =>
      match handle_step s c with
      | Some s' => handle_run s' rest
      | None => None
      end
  end.

Definition is_create (c : LibCall) : bool :=
  match c with
  | f2v2f_encode_create _ _ _ _ _ | f2v2f_decode_create_with_params _ _ _ _ => true
  | _ => false
  end.

Definition is_destroy (c : LibCall) : bool :=
  match c with
  | f2v2f_encode_free _ | f2v2f_decode_free _ => true
  | _ => false
  end.

Definition creates (calls : list LibCall) : nat := List.length (List.filter is_create calls).
Definition destroys (calls : list LibCall) : nat := List.length (List.filter is_destroy calls).

(** ** Sample data for the closed statements *)

(** [werkzeug.utils.secure_filename] on ASCII input: path separators
    become spaces, runs of white space become ["_"], every character
    outside [A-Za-z0-9_.-] is dropped, and leading and trailing ["."] and
    ["_"] are stripped. *)
Definition is_space (c : ascii) : bool :=
  let n := nat_of_ascii c in
  ((9 <=? n) && (n <=? 13) || (28 <=? n) && (n <=? 32))%nat.

Definition is_safe (c : ascii) : bool :=
  let n := nat_of_ascii c in
  ((48 <=? n) && (n <=? 57) || (65 <=? n) && (n <=? 90) || (97 <=? n) && (n <=? 122)
   || (n =? 95) || (n =? 46) || (n =? 45))%nat.

(** ["_".join(s.split())] with ["/"] counted as white space. *)
Fixpoint join_words (pending started : bool) (s : string) : string :=
  match s with
  | EmptyString => EmptyString
  | String c rest =>
      if is_space c || Ascii.eqb c Py.slash then join_words started started rest
      else
        let tail := String c (join_words false true rest) in
        if pending then String "_"%char tail else tail
  end.

Fixpoint keep_safe (s : string) : string :=
  match s with
  | EmptyString => EmptyString
  | String c rest => if is_safe c then String c (keep_safe rest) else keep_safe rest
  end.

Definition is_dot_or_underscore (c : ascii) : bool :=
  Ascii.eqb c "."%char || Ascii.eqb c "_"%char.

Fixpoint lstrip (s : string) : string :=
  match s with
  | EmptyString => EmptyString
  | String c rest => if is_dot_or_underscore c then lstrip rest else s
  end.

Fixpoint rstrip (s : string) : string :=
  match s with
  | EmptyString => EmptyString
  | String c rest =>
      match rstrip rest with
      | EmptyString => if is_dot_or_underscore c then EmptyString else String c EmptyString
      | r => String c r
      end
  end.

Definition secure_filename_ascii (s : string) : string :=
  rstrip (lstrip (keep_safe (join_words false false s))).

(** A supply of distinct identifiers standing for [uuid4]. *)
Definition uuid_sample (n : nat) : string := "uuid" ++ Py.str_of_int (Z.of_nat n).

Definition empty_world : World := mkWorld ∅ ∅ [] 0.

(** A session that succeeds, reports nothing and leaves a 555-byte file. *)
Definition quiet_engine : Engine :=
  mkEngine (Some 1) [] 0 (Some (mkFile 555 "9f2c")) None.

(** Nothing goes wrong around the worker. *)
Definition calm (eng : Engine) : Env :=
  mkEnv eng false false "record-1" "2024-05-01T10:00:00" None false false.

(** The client uploads [report.pdf], 100 bytes. *)
Definition report_request : Request :=
  mkRequest [("file", mkUpload "report.pdf" (mkFile 100 "ab12"))] [].

Definition task_of {T} (r : Response * World * option T) (d : T) : T :=
  default d (snd r).
Definition world_of {T} (r : Response * World * option T) : World := snd (fst r).

Definition no_encode_task : EncodeTask :=
  mkEncodeTask (new_job "" "" "" "") "" "" "" 0 0 0 0 "".
Definition no_decode_task : DecodeTask :=
  mkDecodeTask (new_job "" "" "" "") "" "" "" None.

(** The encode submission of [report.pdf] into the empty world. *)
Definition report_submission : Response * World * option EncodeTask :=
  encode_file secure_filename_ascii uuid_sample PENDING report_request empty_world.
Definition report_task : EncodeTask := task_of report_submission no_encode_task.
Definition report_world : World := world_of report_submission.

(** A session that reports 4096 bytes done (one whole chunk) for the
    100-byte input, then succeeds. *)
Definition chunk_engine : Engine :=
  mkEngine (Some 1) [(4096, 1, Some (Some "chunk 1"))] 0 (Some (mkFile 555 "9f2c")) None.

(** A session that reports 29 and then all 100 bytes of the input, then
    succeeds. *)
Definition paced_engine : Engine :=
  mkEngine (Some 1) [(29, 1, Some (Some "chunk 1")); (100, 2, Some (Some "chunk 2"))] 0
           (Some (mkFile 555 "9f2c")) None.

(** A session whose second and last reports carry messages that do not
    decode; the last report that does carries all 100 bytes. *)
Definition garbled_engine : Engine :=
  mkEngine (Some 1)
           [(29, 1, Some (Some "chunk 1")); (64, 2, Some None);
            (100, 3, Some (Some "chunk 3")); (100, 4, Some None)] 0
           (Some (mkFile 555 "9f2c")) None.

(** A session that reports 29 and then all 100 bytes, the second time
    with a message that does not decode. *)
Definition mute_engine : Engine :=
  mkEngine (Some 1) [(29, 1, Some (Some "chunk 1")); (100, 2, Some None)] 0
           (Some (mkFile 555 "9f2c")) None.

(** The upload disappears before the worker starts. *)
Definition input_gone : Env :=
  mkEnv quiet_engine true false "record-1" "2024-05-01T10:00:00" None false false.

(** The operating system refuses to remove the upload afterwards. *)
Definition upload_stuck : Env :=
  mkEnv quiet_engine false false "record-1" "2024-05-01T10:00:00" None false true.

(** A decode of a video the registry does not know. *)
Definition stray_request : Request :=
  mkRequest [("file", mkUpload "holiday.mp4" (mkFile 2048 "77aa"))] [].
Definition stray_submission : Response * World * option DecodeTask :=
  decode_video secure_filename_ascii uuid_sample PENDING false stray_request empty_world.
Definition stray_task : DecodeTask := task_of stray_submission no_decode_task.
(** The world after that decode job has completed. *)
Definition stray_world : World :=
  worker_done (run_decode stray_task (calm quiet_engine) (world_of stray_submission))
              (world_of stray_submission).

(** The recovered file of that job, submitted for decoding under the name
    it was stored with. *)
Definition resubmit_request : Request :=
  mkRequest [("file", mkUpload (dt_output_name stray_task) (mkFile 555 "9f2c"))] [].

(** ** Progress reporting (specification, section 4.2) *)

(** The value one progress callback assigns to a job; [None] when it
    assigns nothing. *)
Definition callback_value (j : Job) (call : Z * Z * option (option string)) : option Z :=
  match total_size j with
  | Some ts => assigned ts call
  | None => if decodes call then Some 50 else None
  end.

(** "Clamped to the range [0, 100]." *)
Definition within_percent_range (j : Job) : Prop := 0 <= progress j <= 100.

(** A running job whose input has 100 bytes. *)
Definition sized_mem : Mem :=
  snd (assign (with_total_size 100)
         (snd (assign (with_status RUNNING)
                 (worker_start (et_job report_task) report_world)))).

(** ** Provenance and deletion (specification, sections 4.3 and 8) *)

(** The url under which the registry knows an uploaded artifact. *)
Definition artifact_url (secure_filename : string -> string) (file : FileStorage) : string :=
  "/api/download/" ++ secure_filename (up_filename file).

(** The generic name of a decode output, for the identifier [u]: no
    origin name was found. *)
Definition generic_output (u : string) (t : DecodeTask) : Prop :=
  dt_original_filename t = None /\ dt_output_name t = u ++ "_decoded.bin".

(** A registry in which two records refer to the same artifact, the
    older one made from [draft.pdf], the newer one from [report.pdf], and
    a third, newer still, refers to another artifact. *)
Definition archive_world : World :=
  mkWorld ∅ ∅
    [ mkRow "record-b" "report.pdf" "encoded" 555 "2024-05-02T09:30:00"
            (Some "/api/download/uuid9_report.mp4") (Some "report.pdf") None None;
      mkRow "record-a" "draft.pdf" "encoded" 555 "2024-05-01T10:00:00"
            (Some "/api/download/uuid9_report.mp4") (Some "draft.pdf") None None;
      mkRow "record-c" "notes.txt" "encoded" 777 "2024-05-03T08:00:00"
            (Some "/api/download/uuid7_notes.mp4") (Some "notes.txt") None None ]
    0.

(** A decode of that artifact. *)
Definition archive_request : Request :=
  mkRequest [("file", mkUpload "uuid9_report.mp4" (mkFile 555 "9f2c"))] [].

(** A request without any file part. *)
Definition bare_request : Request := mkRequest [] [("width", "1280")].

(** The world after the encode job of [report.pdf] has completed while
    its upload could not be removed. *)
Definition stuck_world : World :=
  worker_done (run_encode report_task upload_stuck report_world) report_world.

(** ** Summaries of a worker run *)

(** The values the callbacks of a session assign to the job [j]. *)
Definition callback_values (j : Job) (calls : list (Z * Z * option (option string))) : list Z :=
  omap (callback_value j) calls.

(** The two assignments of the [except] clause. *)
Definition failed (j : Job) (msg : string) : list Job :=
  [with_status FAILED j; with_error_message msg (with_status FAILED j)].

Definition no_such_file (p : string) : string :=
  "[Errno 2] No such file or directory: '" ++ p ++ "'".

(** The upload as the worker finds it. *)
Definition input_found (input_path : string) (env : Env) (w : World) : option FileData :=
  if env_input_lost env then None else w_fs w !! input_path.

(** The files once the engine has run. *)
Definition fs_after_engine (output_path : string) (env : Env) (w : World)
  : gmap string FileData :=
  match eng_output (env_engine env) with
  | Some f => <[output_path := f]> (w_fs w)
  | None => w_fs w
  end.

(** Every value the job object takes during one run of a worker:
    [create_msg] is the message of the bridge when no handle comes back,
    [missing_msg] the one of the worker when no output file is found. *)
Definition worker_trace (j0 : Job) (input_path output_path output_name : string)
    (create_msg missing_msg : string) (env : Env) (w : World) : list Job :=
  let jr := with_status RUNNING j0 in
  match input_found input_path env w with
  | None => [j0; jr] ++ failed jr (no_such_file input_path)
  | Some f =>
      let jt := with_total_size (st_size f) jr in
      let eng := env_engine env in
      match eng_create eng with
      | None => [j0; jr; jt] ++ failed jt create_msg
      | Some _ =>
          let cbs := List.map (fun p => with_progress p jt)
                              (callback_values jt (eng_progress eng)) in
          let jl := List.last cbs jt in
          [j0; jr; jt] ++ cbs ++
          if negb (Z.eqb (eng_status eng) ErrorCode.SUCCESS) then
            failed jl (snd (select_error (eng_status eng) (default None (eng_last_error eng))))
          else if negb (bool_decide (is_Some (fs_after_engine output_path env w !! output_path)))
          then failed jl (missing_msg ++ output_path)
          else
            let jc := with_status COMPLETED jl in
            let j100 := with_progress 100 jc in
            let ju := with_result_url ("/api/download/" ++ output_name) j100 in
            [jc; j100; ju] ++
            if output_kept env then [] else failed ju (no_such_file output_path)
      end
  end.

(** The calls one run of a worker makes into the native library. *)
Definition worker_calls (create : option Z -> LibCall) (run : option Z -> LibCall)
    (free : Z -> LibCall) (input_path : string) (env : Env) (w : World) : list LibCall :=
  match input_found input_path env w with
  | None => []
  | Some _ =>
      let eng := env_engine env in
      match eng_create eng with
      | None => [create None]
      | Some h =>
          [create (Some h); run (Some h)]
          ++ (if Z.eqb (eng_status eng) ErrorCode.SUCCESS then []
              else f2v2f_get_last_error
                   :: match eng_last_error eng with
                      | Some _ => [f2v2f_free_string]
                      | None => []
                      end)
          ++ [free h]
      end
  end.

(** The state a session leaves behind it once the engine has run. *)
Definition after_session (m : Mem) (eng : Engine) (output_path : string)
    (enc : option Encoder) (dec : option Decoder) (lib : list LibCall)
    (lines : list (LogLevel * string)) : Mem :=
  let cbs := List.map (fun p => with_progress p (m_job m))
                      (callback_values (m_job m) (eng_progress eng)) in
  mkMem (List.last cbs (m_job m)) (m_trace m ++ cbs) enc dec lib
        (match eng_output eng with
         | Some f => <[output_path := f]> (m_fs m)
         | None => m_fs m
         end)
        (m_files m) (m_log m ++ lines).

(** The calls [_check_error] adds for a given return code. *)
Definition error_calls (eng : Engine) : list LibCall :=
  if Z.eqb (eng_status eng) ErrorCode.SUCCESS then []
  else f2v2f_get_last_error
       :: match eng_last_error eng with
          | Some _ => [f2v2f_free_string]
          | None => []
          end.

(** How a session ends: normally, or with the exception of the table. *)
Definition session_result (eng : Engine) : Res unit :=
  if Z.eqb (eng_status eng) ErrorCode.SUCCESS then Ret tt
  else Raise (Exn (fst (select_error (eng_status eng) (default None (eng_last_error eng))))
                  (snd (select_error (eng_status eng) (default None (eng_last_error eng))))).

(** The handles [release_locals] destroys. *)
Definition frees (enc : option Encoder) (dec : option Decoder) : list LibCall :=
  match enc with
  | Some self => match enc_handle self with Some h => [f2v2f_encode_free h] | None => [] end
  | None => []
  end
  ++ match dec with
     | Some self => match dec_handle self with Some h => [f2v2f_decode_free h] | None => [] end
     | None => []
     end.

(** "Exactly one create and exactly one destroy." *)
Definition one_create_one_destroy (calls : list LibCall) : Prop :=
  creates calls = 1%nat /\ destroys calls = 1%nat.

(** What the library calls of a run amount to: either no handle ever
    existed and none was destroyed, or one handle was created, used while
    live, and destroyed once, as the last thing done with it. *)
Definition handle_discipline (calls : list LibCall) : Prop :=
  (handle_run NoHandle calls = Some NoHandle
   /\ (creates calls <= 1)%nat /\ destroys calls = 0%nat)
  \/ (handle_run NoHandle calls = Some Destroyed
      /\ creates calls = 1%nat /\ destroys calls = 1%nat).

(** An encode with its own geometry and chunk size. *)
Definition small_request : Request :=
  mkRequest [("file", mkUpload "report.pdf" (mkFile 100 "ab12"))]
            [("width", "1280"); ("height", "720"); ("fps", "24"); ("chunk_size", "65536")].
Definition small_submission : Response * World * option EncodeTask :=
  encode_file secure_filename_ascii uuid_sample PENDING small_request empty_world.
Definition small_task : EncodeTask := task_of small_submission no_encode_task.
(** The world after that encode job has completed. *)
Definition small_world : World :=
  worker_done (run_encode small_task (calm quiet_engine) (world_of small_submission))
              (world_of small_submission).

(** The decode of the artifact it produced; the request carries the
    geometry again. *)
Definition small_decode_request : Request :=
  mkRequest [("file", mkUpload (et_output_name small_task) (mkFile 555 "9f2c"))]
            [("width", "1280"); ("height", "720"); ("chunk_size", "65536")].
Definition small_decode_submission : Response * World * option DecodeTask :=
  decode_video secure_filename_ascii uuid_sample PENDING false small_decode_request small_world.

(** The session succeeds, but the database refuses the insert. *)
Definition db_down : Env :=
  mkEnv quiet_engine false false "record-1" "2024-05-01T10:00:00"
        (Some "database is locked") false false.

(** The job has been through the Completed transition. *)
Definition marked_completed (tr : list Job) : Prop := In COMPLETED (List.map status tr).

(** The life cycle as the code keeps it, for a run with history [tr] and
    final job [final], whose input has [ts] bytes: the status only moves
    forward as long as the closing log statement finds the output file;
    progress never decreases as long as the values the callbacks compute
    do not step back or pass 100; progress is 100 in every value after
    the one that first shows Completed, and in a final Completed job;
    and progress never decreases when the byte counts the engine reports
    never step back and never pass the size of the input. *)
Definition life_cycle (tr : list Job) (final : Job) (env : Env) (ts : Z) : Prop :=
  (output_kept env = true -> status_forward tr = true)
  /\ (steady ts (eng_progress (env_engine env)) = true -> progress_monotone tr = true)
  /\ settles_at_100 tr = true
  /\ (status final = COMPLETED -> progress final = 100)
  /\ (well_reported ts (eng_progress (env_engine env)) = true ->
      progress_monotone tr = true).

(** The output file is removed after the worker has seen it exist, before
    the registry step reads its size. *)
Definition output_lost_early : Env :=
  mkEnv quiet_engine false true "record-1" "2024-05-01T10:00:00" None false false.

(** The warnings of a log. *)
Definition warnings (log : list (LogLevel * string)) : list string :=
  List.map snd (List.filter (fun l => match fst l with WARNING => true | _ => false end) log).

(** The output file is removed while the registry step runs. *)
Definition output_swept : Env :=
  mkEnv quiet_engine false false "record-1" "2024-05-01T10:00:00" None true false.

(* ===================================================================== *)
(** * The other endpoints, the loader and the outcome of a run            *)
(* ===================================================================== *)

(** ** How a run ends *)

(** The run gets through: the upload is there, the engine hands out a
    handle and reports success, its output file exists and is still there
    when the closing log statement reads its size. *)
Definition run_succeeds (input_path output_path : string) (env : Env) (w : World) : bool :=
  match input_found input_path env w with
  | None => false
  | Some _ =>
      match eng_create (env_engine env) with
      | None => false
      | Some _ =>
          Z.eqb (eng_status (env_engine env)) ErrorCode.SUCCESS
          && bool_decide (is_Some (fs_after_engine output_path env w !! output_path))
          && output_kept env
      end
  end.

(** The text of the exception that ends a run that does not get through:
    of [stat] on the upload, of the bridge when no handle comes back, of
    the error table, of the worker's own check of the output file, or of
    [stat] on the output file, in the order in which they can occur. *)
Definition failure_message (input_path output_path create_msg missing_msg : string)
    (env : Env) (w : World) : string :=
  match input_found input_path env w with
  | None => no_such_file input_path
  | Some _ =>
      let eng := env_engine env in
      match eng_create eng with
      | None => create_msg
      | Some _ =>
          if negb (Z.eqb (eng_status eng) ErrorCode.SUCCESS)
          then snd (select_error (eng_status eng) (default None (eng_last_error eng)))
          else if negb (bool_decide (is_Some (fs_after_engine output_path env w !! output_path)))
          then missing_msg ++ output_path
          else no_such_file output_path
      end
  end.

(** What the status endpoint can tell about a finished job. *)
Definition ended_as (j : Job) (ok : bool) (output_name msg : string) : Prop :=
  if ok
  then status j = COMPLETED /\ progress j = 100
       /\ result_url j = Some ("/api/download/" ++ output_name) /\ error_message j = None
  else status j = FAILED /\ error_message j = Some msg.


(** ** The files and the table after a run *)

(** The session was reached, returned success and left an output file:
    the worker marks the job Completed and goes on to the registry. *)
Definition reaches_registry (input_path output_path : string) (env : Env) (w : World) : bool :=
  match input_found input_path env w with
  | None => false
  | Some _ =>
      match eng_create (env_engine env) with
      | None => false
      | Some _ =>
          Z.eqb (eng_status (env_engine env)) ErrorCode.SUCCESS
          && bool_decide (is_Some (fs_after_engine output_path env w !! output_path))
      end
  end.

(** The files when the [try] block of a worker is left. *)
Definition worker_fs_body (input_path output_path : string) (env : Env) (w : World)
  : gmap string FileData :=
  match input_found input_path env w with
  | None => if env_input_lost env then delete input_path (w_fs w) else w_fs w
  | Some _ =>
      match eng_create (env_engine env) with
      | None => w_fs w
      | Some _ =>
          let fs1 := fs_after_engine output_path env w in
          if reaches_registry input_path output_path env w then
            let fs2 := if env_output_lost_before_registry env
                       then delete output_path fs1 else fs1 in
            if env_output_lost_before_log env then delete output_path fs2 else fs2
          else fs1
      end
  end.

(** The [finally] clause on the files. *)
Definition cleanup_fs (env : Env) (input_path : string) (fs : gmap string FileData)
  : gmap string FileData :=
  match fs !! input_path with
  | Some _ => if env_unlink_fault env then fs else delete input_path fs
  | None => fs
  end.

(** The registry step on the table: the row is added unless the output
    file is gone, the database faults or the id is taken. *)
Definition registry_after (row : FileData -> FileRow) (output_path : string) (env : Env)
    (fs : gmap string FileData) (files : list FileRow) : list FileRow :=
  if env_output_lost_before_registry env then files
  else
    match fs !! output_path with
    | None => files
    | Some st =>
        match env_db_fault env with
        | Some _ => files
        | None =>
            if existsb (fun r => String.eqb (row_id r) (row_id (row st))) files
            then files else (files ++ [row st])%list
        end
    end.

(** The row [encode_task] registers for an output file [st]. *)
Definition encode_row (t : EncodeTask) (env : Env) (st : FileData) : FileRow :=
  mkRow (env_record_id env) (et_filename t) "encoded" (st_size st) (env_now env)
        (Some ("/api/download/" ++ et_output_name t)) (Some (et_filename t)) None None.

(** The row [decode_task] registers for an output file [st]. *)
Definition decode_row (t : DecodeTask) (env : Env) (st : FileData) : FileRow :=
  mkRow (env_record_id env)
        (if Py.truthy (dt_original_filename t)
         then default "" (dt_original_filename t) else dt_output_name t)
        "original" (st_size st) (env_now env)
        (Some ("/api/download/" ++ dt_output_name t))
        (dt_original_filename t) (Some (sha256 st)) None.

(** The table after a run. *)
Definition worker_files (row : FileData -> FileRow) (input_path output_path : string)
    (env : Env) (w : World) : list FileRow :=
  if reaches_registry input_path output_path env w
  then registry_after row output_path env (fs_after_engine output_path env w) (w_files w)
  else w_files w.


(** ** The read-only endpoints *)

(** A JSON scalar, as [jsonify] serialises it. *)
Inductive Json :=
  | JNull
  | JInt (n : Z)
  | JStr (s : string).

(** The bodies the endpoints below return: one object, or a list of
    objects. *)
Inductive JsonBody :=
  | JObj (fields : list (string * Json))
  | JList (items : list (list (string * Json))).

(** [jsonify(body), code]. *)
Record JsonResponse := mkJsonResponse { jr_code : Z; jr_body : JsonBody }.

Definition json_opt_str (o : option string) : Json :=
  match o with Some s => JStr s | None => JNull end.

Definition json_opt_int (o : option Z) : Json :=
  match o with Some n => JInt n | None => JNull end.

(** The dict [get_status] builds for a job. *)
Definition status_body (job : Job) : list (string * Json) :=
  [("job_id", JStr (job_id job)); ("operation", JStr (operation job));
   ("status", JStr (status_value (status job))); ("progress", JInt (progress job))]
  ++ (if Py.truthy (error_message job)
      then [("error", JStr (default "" (error_message job)))] else [])
  ++ (if Py.truthy (result_url job)
      then [("result_url", JStr (default "" (result_url job)))] else []).

(** [get_status]. *)
Definition get_status (job_id : string) (w : World) : JsonResponse :=
  match w_jobs w !! job_id with
  | None => mkJsonResponse 404 (JObj [("error", JStr "Job not found")])
  | Some job => mkJsonResponse 200 (JObj (status_body job))
  end.

(** What [download_file] answers: the file it sends, with the name the
    client is told to save it under, or an error. *)
Inductive Download :=
  | Sent (content : FileData) (download_name : string)
  | Refused (code : Z) (msg : string).

(** [download_file]; [send_file] on a directory raises when it opens
    it. *)
Definition download_file (secure_filename : string -> string) (filename : string)
    (w : World) : Download :=
  let filepath := path_join OUTPUT_FOLDER (secure_filename filename) in
  match w_fs w !! filepath with
  | Some content => Sent content filename
  | None =>
      if is_dir filepath
      then Refused 500 ("[Errno 21] Is a directory: '" ++ filepath ++ "'")
      else Refused 404 "File not found"
  end.

(** The fields of the dataclass [FileRecord], in order, and which of them
    have a default. *)
Definition FileRecord_fields : list (string * bool) :=
  [("id", false); ("name", false); ("type", false); ("size", false); ("created_at", false);
   ("video_url", true); ("original_file", true); ("checksum", true)].

(** The [__init__] a dataclass generates, called with keyword arguments
    only: a keyword that names no field is a [TypeError], and so is a
    field without default that is not given; [inr] carries the message.
    The value is the record as [asdict] lists it. *)
Definition FileRecord_init (kwargs : list (string * Json)) : list (string * Json) + string :=
  match List.find (fun kw => negb (existsb (fun fld => String.eqb (fst fld) (fst kw))
                                           FileRecord_fields)) kwargs with
  | Some kw =>
      inr ("FileRecord.__init__() got an unexpected keyword argument '" ++ fst kw ++ "'")
  | None =>
      match List.find (fun fld => negb (snd fld)
                                  && negb (existsb (fun kw => String.eqb (fst kw) (fst fld))
                                                   kwargs)) FileRecord_fields with
      | Some fld =>
          inr ("FileRecord.__init__() missing 1 required positional argument: '"
               ++ fst fld ++ "'")
      | None =>
          inl (List.map (fun fld => (fst fld, default JNull (multi_get kwargs (fst fld))))
                        FileRecord_fields)
      end
  end.

(** [ORDER BY created_at DESC]: insertion of a row into rows so ordered. *)
Fixpoint insert_desc (r : FileRow) (rows : list FileRow) : list FileRow :=
  match rows with
  | [] => [r]
  | r' :: rest =>
      if String.ltb (row_created_at r) (row_created_at r')
      then r' :: insert_desc r rest else r :: rows
  end.

Definition order_by_created_at_desc (rows : list FileRow) : list FileRow :=
  List.fold_right insert_desc [] rows.

(** The list comprehension of [get_all_files]: it stops at the first
    constructor call that raises. *)
Fixpoint build_records (rows : list FileRow) : list (list (string * Json)) + string :=
  match rows with
  | [] => inl []
  | row :: rest =>
      match FileRecord_init
              [("id", JStr (row_id row)); ("name", JStr (row_name row));
               ("type", JStr (row_type row)); ("size", JInt (row_size row));
               ("created_at", JStr (row_created_at row));
               ("video_url", json_opt_str (row_video_url row));
               ("original_file", json_opt_str (row_original_file row));
               ("checksum", json_opt_str (row_checksum row));
               ("chunk_size", json_opt_int (row_chunk_size row))] with
      | inr msg => inr msg
      | inl record =>
          match build_records rest with
          | inr msg => inr msg
          | inl records => inl (record :: records)
          end
      end
  end.

(** [get_all_files]. *)
Definition get_all_files (rows : list FileRow) : list (list (string * Json)) + string :=
  build_records (order_by_created_at_desc rows).

(** [get_file_records]. *)
Definition get_file_records (w : World) : JsonResponse :=
  match get_all_files (w_files w) with
  | inl records => mkJsonResponse 200 (JList records)
  | inr msg => mkJsonResponse 500 (JObj [("error", JStr msg)])
  end.


(** The client uploads [my report.pdf]; the encode job completes; the
    artifact is submitted for decoding under the name it was stored
    with, and that job completes too. *)
Definition spaced_request : Request :=
  mkRequest [("file", mkUpload "my report.pdf" (mkFile 100 "ab12"))] [].
Definition spaced_submission : Response * World * option EncodeTask :=
  encode_file secure_filename_ascii uuid_sample PENDING spaced_request empty_world.
Definition spaced_task : EncodeTask := task_of spaced_submission no_encode_task.
Definition spaced_world : World :=
  worker_done (run_encode spaced_task (calm quiet_engine) (world_of spaced_submission))
              (world_of spaced_submission).
Definition spaced_decode_request : Request :=
  mkRequest [("file", mkUpload (et_output_name spaced_task) (mkFile 555 "9f2c"))] [].
Definition spaced_decode_submission : Response * World * option DecodeTask :=
  decode_video secure_filename_ascii uuid_sample PENDING false spaced_decode_request spaced_world.
Definition spaced_decode_task : DecodeTask :=
  task_of spaced_decode_submission no_decode_task.
(** The database answers the second insert with a second record id. *)
Definition calm_again : Env :=
  mkEnv (mkEngine (Some 2) [] 0 (Some (mkFile 100 "ab12")) None)
        false false "record-2" "2024-05-01T10:05:00" None false false.


(** ** The cleanup endpoint *)

(** [s] without the prefix [pre]. *)
Fixpoint strip_prefix (pre s : string) : option string :=
  match pre, s with
  | EmptyString, _ => Some s
  | String a pre', String b s' => if Ascii.eqb a b then strip_prefix pre' s' else None
  | String _ _, EmptyString => None
  end.

Fixpoint has_slash (s : string) : bool :=
  match s with
  | EmptyString => false
  | String c rest => Ascii.eqb c Py.slash || has_slash rest
  end.

(** [p] names an entry of the directory [folder]: [folder/<name>] for a
    name that is not empty and holds no ["/"]. *)
Definition is_entry_of (folder p : string) : bool :=
  match strip_prefix (folder ++ "/") p with
  | Some name => negb (String.eqb name "") && negb (has_slash name)
  | None => false
  end.

(** [Path(folder).glob("*")], in the order the directory lists its
    entries; the entries of the model are regular files. *)
Definition glob_star (folder : string) (fs : gmap string FileData) : list string :=
  List.filter (is_entry_of folder) (List.map fst (map_to_list fs)).

(** [current_time - st_mtime > expiration_time], on floats, with
    [expiration_time = 24 * 60 * 60]. *)
Definition expired (current_time st_mtime : spec_float) : bool :=
  SFltb (binary_normalize Py.prec Py.emax (24 * 60 * 60) 0 false)
        (SFsub Py.prec Py.emax current_time st_mtime).

(** The loop of [cleanup_old_files]; [st_mtime] gives the modification
    time of each file. *)
Fixpoint cleanup_loop (current_time : spec_float) (st_mtime : string -> spec_float)
    (paths : list string) (fs : gmap string FileData) (deleted_count : Z)
  : gmap string FileData * Z :=
  match paths with
  | [] => (fs, deleted_count)
  | filepath :: rest =>
      if bool_decide (is_Some (fs !! filepath)) then
        if expired current_time (st_mtime filepath)
        then cleanup_loop current_time st_mtime rest (delete filepath fs) (deleted_count + 1)
        else cleanup_loop current_time st_mtime rest fs deleted_count
      else cleanup_loop current_time st_mtime rest fs deleted_count
  end.

(** [cleanup_old_files], at the time [current_time], when no other actor
    touches the folder meanwhile. *)
Definition cleanup_old_files (current_time : spec_float) (st_mtime : string -> spec_float)
    (w : World) : JsonResponse * World :=
  let '(fs, deleted_count) :=
    cleanup_loop current_time st_mtime (glob_star OUTPUT_FOLDER (w_fs w)) (w_fs w) 0 in
  (mkJsonResponse 200 (JObj [("deleted_files", JInt deleted_count)]),
   mkWorld (w_jobs w) fs (w_files w) (w_uuids w)).


(** ** A session that reports to the end *)

(** The last callback of the session that reaches the Python callable
    reports the whole input, which is not empty. *)
Definition fully_reported (ts : Z) (calls : list (Z * Z * option (option string))) : bool :=
  Z.ltb 0 ts
  && Z.eqb (List.last (List.map (fun call => fst (fst call)) (List.filter decodes calls)) 0) ts.


(** ** Decimal strings *)

(** The string consists of decimal digits. *)
Fixpoint all_digits (s : string) : bool :=
  match s with
  | EmptyString => true
  | String c rest => Py.is_digit c && all_digits rest
  end.

(** ** f2v2f.py: finding the native library *)

(** One entry of [lib_paths] as the loader meets it: whether the path
    exists, and what [ctypes.CDLL] gives for it ([None]: it raises
    [OSError]). *)
Record Candidate := mkCandidate {
  cand_path : string;
  cand_exists : bool;
  cand_loads : option Z
}.

(** The loop over [lib_paths]. *)
Fixpoint find_library (lib_paths : list Candidate) : option Z :=
  match lib_paths with
  | [] => None
  | lib_path :: rest =>
      if cand_exists lib_path then
        match cand_loads lib_path with
        | Some lib => Some lib
        | None => find_library rest
        end
      else find_library rest
  end.

Definition newline : string := String (ascii_of_nat 10) EmptyString.

(** The module-level code that binds [_lib]; [inr] is the message of the
    [RuntimeError] that aborts the import. *)
Definition load_library (lib_paths : list Candidate) : Z + string :=
  match find_library lib_paths with
  | Some lib => inl lib
  | None =>
      inr ("Could not find f2v2f library. Searched:" ++ newline
           ++ String.concat newline (List.map cand_path lib_paths))
  end.

(** A candidate the loader can use. *)
Definition usable (c : Candidate) : bool :=
  cand_exists c && bool_decide (is_Some (cand_loads c)).


(** The dict [get_status] builds for a job whose worker has returned:
    [ok] says that the run got through, [registered] that it reached the
    registry step, [p] is the progress it shows. *)
Definition finished_body (id op : string) (ok registered : bool) (p : Z)
    (msg output_name : string) : list (string * Json) :=
  [("job_id", JStr id); ("operation", JStr op);
   ("status", JStr (if ok then "completed" else "failed")); ("progress", JInt p)]
  ++ (if ok then [] else [("error", JStr msg)])
  ++ (if registered then [("result_url", JStr ("/api/download/" ++ output_name))] else []).

(* ===================================================================== *)
(** * Properties                                                          *)
(* ===================================================================== *)

(** ** The error table of the bridge *)

Lemma check_error_success eng m :
  _check_error eng ErrorCode.SUCCESS m = (Ret tt, m).
Proof. reflexivity. Qed.

(** What [_check_error] raises, whatever the state it runs in. *)
Lemma check_error_raises eng error_code m :
  error_code <> ErrorCode.SUCCESS ->
  fst (_check_error eng error_code m) =
    Raise (Exn (fst (select_error error_code (default None (eng_last_error eng))))
               (snd (select_error error_code (default None (eng_last_error eng))))).
Proof.
  intros Hne. unfold _check_error.
  destruct (Z.eqb_spec error_code ErrorCode.SUCCESS) as [->|_]; [contradiction|].
  unfold bind, lib_call, ret, raise. simpl.
  destruct (eng_last_error eng) as [decoded|]; simpl;
    destruct (select_error error_code _) as [cls msg]; reflexivity.
Qed.

(** The fall-back entry: a code that is not a key of the table. *)
Lemma select_error_unlisted error_code error_msg :
  ~ In error_code [1; 2; 3; 4; 5; 7; 255] ->
  select_error error_code error_msg =
    (F2V2FError, Py.or_else error_msg ("Unknown error code: " ++ Py.str_of_int error_code)).
Proof.
  intros Hout. unfold select_error, error_map, dict_get, ErrorCode.INVALID_INPUT,
    ErrorCode.IO_ERROR, ErrorCode.ENCODING_ERROR, ErrorCode.DECODING_ERROR,
    ErrorCode.CONFIG_ERROR, ErrorCode.INVALID_HANDLE, ErrorCode.UNKNOWN.
  repeat match goal with
         | |- context [Z.eqb ?k error_code] =>
             destruct (Z.eqb_spec k error_code) as [<-|_];
             [exfalso; apply Hout; simpl; tauto|]
         end.
  reflexivity.
Qed.

(** A detailed message of the engine replaces every default. *)
Lemma select_error_detailed error_code s :
  s <> "" -> snd (select_error error_code (Some s)) = s.
Proof.
  intros Hs.
  assert (Hor : forall d, Py.or_else (Some s) d = s).
  { intros d. unfold Py.or_else. destruct (String.eqb_spec s ""); congruence. }
  unfold select_error, error_map, dict_get. rewrite !Hor.
  repeat match goal with
         | |- context [Z.eqb ?k error_code] => destruct (Z.eqb k error_code); [reflexivity|]
         end.
  reflexivity.
Qed.

(** C3 (as amended). Every non-success return code other than 6 raises
    exactly one exception, chosen by the fixed table: with no detailed
    message from the engine, the codes 1, 2, 3, 4, 5, 7 and 255 carry the
    fixed default message of their entry, and every other code raises the
    base [F2V2FError] with the message "Unknown error code: <code>", which
    names the code; a non-empty detailed message replaces the default. *)
Theorem check_error_table (eng : Engine) (error_code : Z) (m : Mem) :
  error_code <> ErrorCode.SUCCESS ->
  error_code <> ErrorCode.OPERATION_IN_PROGRESS ->
  (eng_last_error eng = None ->
   fst (_check_error eng error_code m) =
     Raise (if Z.eqb error_code 1 then Exn InvalidInputError "Invalid input"
            else if Z.eqb error_code 2 then Exn F2V2FError "I/O error"
            else if Z.eqb error_code 3 then Exn EncodingError "Encoding failed"
            else if Z.eqb error_code 4 then Exn DecodingError "Decoding failed"
            else if Z.eqb error_code 5 then Exn ConfigError "Configuration error"
            else if Z.eqb error_code 7 then Exn F2V2FError "Invalid handle"
            else if Z.eqb error_code 255 then Exn F2V2FError "Unknown error"
            else Exn F2V2FError ("Unknown error code: " ++ Py.str_of_int error_code)))
  /\ (forall s, eng_last_error eng = Some (Some s) -> s <> "" ->
      raised_message eng error_code m = Some s).
Proof.
  intros Hne H6. split.
  - intros Hsilent. rewrite check_error_raises by exact Hne. rewrite Hsilent. simpl.
    destruct (Z.eqb_spec error_code 1) as [->|N1]; [reflexivity|].
    destruct (Z.eqb_spec error_code 2) as [->|N2]; [reflexivity|].
    destruct (Z.eqb_spec error_code 3) as [->|N3]; [reflexivity|].
    destruct (Z.eqb_spec error_code 4) as [->|N4]; [reflexivity|].
    destruct (Z.eqb_spec error_code 5) as [->|N5]; [reflexivity|].
    destruct (Z.eqb_spec error_code 7) as [->|N7]; [reflexivity|].
    destruct (Z.eqb_spec error_code 255) as [->|N255]; [reflexivity|].
    rewrite select_error_unlisted; [reflexivity|].
    simpl. intuition congruence.
  - intros s Hmsg Hs. unfold raised_message.
    rewrite check_error_raises by exact Hne. rewrite Hmsg. simpl.
    f_equal. apply select_error_detailed. exact Hs.
Qed.

Lemma check_error_table_witness :
  fst (_check_error (silent_engine 3) 3 (worker_start (et_job report_task) report_world))
  = Raise (Exn EncodingError "Encoding failed").
Proof.
  apply (check_error_table (silent_engine 3) 3
           (worker_start (et_job report_task) report_world));
    [discriminate | discriminate | reflexivity].
Defined.

(** The messages raised for the nine sample codes, without a detailed
    message, are pairwise different. *)
Lemma sample_messages_distinct :
  NoDup (List.map (fun c => raised_message (silent_engine c) c
                              (worker_start (et_job report_task) report_world))
                  sample_codes).
Proof.
  apply (bool_decide_unpack _). vm_compute. exact I.
Qed.

(** C3 (as stated) does not hold: eight kinds with one fixed default
    message each cannot account for the messages the bridge raises, since
    already nine return codes (1, 2, 3, 4, 5, 7, 255, 8 and 9) raise nine
    different messages when the engine supplies none. *)
Lemma no_fixed_message_per_kind : ~ fixed_message_per_kind.
Proof.
  intros (kind_of & default_message & Hspec).
  pose proof sample_messages_distinct as Hnd.
  set (m0 := worker_start (et_job report_task) report_world) in *.
  assert (Heq : List.map (fun c => raised_message (silent_engine c) c m0) sample_codes
                = List.map (fun k => Some (default_message k)) (List.map kind_of sample_codes)).
  { rewrite List.map_map. apply List.map_ext_in. intros c Hc.
    apply Hspec; [reflexivity|].
    unfold ErrorCode.SUCCESS. intros ->. simpl in Hc. intuition discriminate. }
  rewrite Heq in Hnd. apply NoDup_ListNoDup in Hnd.
  pose proof (List.NoDup_map_inv _ _ Hnd) as Hkinds.
  assert (Hincl : List.incl (List.map kind_of sample_codes) all_kinds).
  { intros k _. destruct k; simpl; tauto. }
  pose proof (List.NoDup_incl_length Hkinds Hincl) as Hlen.
  simpl in Hlen. lia.
Qed.

(** ** Double precision

    [percent] rounds twice, in the division and in the product with 100.
    Both roundings are followed through [SpecFloat]'s shifts: a rounding
    to nearest keeps the order of the exact values and keeps the numbers
    it can represent, 1 and 100 among them. *)

Lemma digits2_pos_bounds (p : positive) :
  2 ^ (Zpos (digits2_pos p) - 1) <= Zpos p < 2 ^ Zpos (digits2_pos p).
Proof.
  induction p as [p IH|p IH|]; simpl digits2_pos.
  - rewrite Pos2Z.inj_succ. replace (Z.succ (Zpos (digits2_pos p)) - 1)
      with (Z.succ (Zpos (digits2_pos p) - 1)) by lia.
    rewrite !Z.pow_succ_r by lia. lia.
  - rewrite Pos2Z.inj_succ. replace (Z.succ (Zpos (digits2_pos p)) - 1)
      with (Z.succ (Zpos (digits2_pos p) - 1)) by lia.
    rewrite !Z.pow_succ_r by lia. lia.
  - simpl. lia.
Qed.

Lemma Zdigits2_unique (m k : Z) :
  0 < k -> 2 ^ (k - 1) <= m < 2 ^ k -> Zdigits2 m = k.
Proof.
  intros Hk [Hlo Hhi].
  assert (Hm : 0 < m) by (pose proof (Z.pow_pos_nonneg 2 (k - 1)); lia).
  destruct m as [|p|p]; try lia. simpl.
  pose proof (digits2_pos_bounds p) as [Blo Bhi].
  set (d := Zpos (digits2_pos p)) in *.
  assert (Hd : 0 < d) by (unfold d; lia).
  destruct (Z.lt_trichotomy d k) as [Hlt|[Heq|Hgt]]; [|exact Heq|].
  - assert (2 ^ d <= 2 ^ (k - 1)) by (apply Z.pow_le_mono_r; lia). lia.
  - assert (2 ^ k <= 2 ^ (d - 1)) by (apply Z.pow_le_mono_r; lia). lia.
Qed.

(** One shift to the right: the bit that leaves becomes the round bit, the
    old round bit joins the sticky bit. *)
Lemma shr_1_spec (m : Z) (r s : bool) :
  0 <= m ->
  shr_1 (Build_shr_record m r s) = Build_shr_record (m / 2) (Z.odd m) (r || s).
Proof.
  intros Hm. destruct m as [|[p|p|]|p]; try lia; cbn [shr_1].
  - reflexivity.
  - f_equal. rewrite (Pos2Z.inj_xI p).
    replace (2 * Zpos p + 1) with (1 + Zpos p * 2) by lia.
    rewrite Z.div_add by lia. reflexivity.
  - f_equal. rewrite (Pos2Z.inj_xO p).
    replace (2 * Zpos p) with (Zpos p * 2) by lia.
    rewrite Z.div_mul by lia. reflexivity.
  - reflexivity.
Qed.

Lemma locates_nonneg mrs N D : 0 <= N -> 0 < D -> locates mrs N D -> 0 <= shr_m mrs.
Proof. intros HN HD (-> & _). apply Z.div_pos; lia. Qed.

(** A shift keeps the position of [N / D], at half the scale. *)
Lemma locates_shr_1 mrs N D :
  0 <= N -> 0 < D -> locates mrs N D -> locates (shr_1 mrs) N (2 * D).
Proof.
  intros HN HD Hloc. pose proof (locates_nonneg _ _ _ HN HD Hloc) as Hm.
  destruct mrs as [m r s]. simpl in Hm. rewrite shr_1_spec by exact Hm.
  destruct Hloc as (Hm' & Hr & Hs). cbn [shr_m shr_r shr_s] in Hm', Hr, Hs. subst m r s.
  assert (Hdiv : N / (2 * D) = N / D / 2).
  { rewrite Z.mul_comm. rewrite Z.div_div by lia. reflexivity. } 
  assert (Hmod : N mod (2 * D) = N mod D + D * ((N / D) mod 2)).
  { rewrite (Z.mul_comm 2 D). apply Z.rem_mul_r; lia. }
  pose proof (Z.mod_pos_bound N D HD) as Hrho.
  pose proof (Z.mod_pos_bound (N / D) 2 ltac:(lia)) as Hpar.
  assert (Hodd : Z.odd (N / D) = Z.eqb ((N / D) mod 2) 1).
  { rewrite Zmod_odd. destruct (Z.odd (N / D)); reflexivity. }
  unfold locates. cbn [shr_m shr_r shr_s]. rewrite Hdiv, Hmod, Hodd.
  set (rho := N mod D) in *. set (par := (N / D) mod 2) in *.
  split; [reflexivity|]. clearbody rho par.
  assert (Hp : par = 0 \/ par = 1) by lia.
  destruct Hp as [Hp|Hp]; rewrite Hp; rewrite ?Z.mul_0_r, ?Z.mul_1_r, ?Z.add_0_r; split.
  - destruct (Z.eqb_spec 0 1), (Z.leb_spec (2 * D) (2 * rho)); try reflexivity; lia.
  - destruct (Z.leb_spec D (2 * rho)), (Z.eqb_spec rho 0), (Z.eqb_spec (2 * rho) D),
      (Z.eqb_spec (2 * rho) (2 * D)); simpl; try reflexivity; lia.
  - destruct (Z.eqb_spec 1 1), (Z.leb_spec (2 * D) (2 * (rho + D))); try reflexivity; lia.
  - destruct (Z.leb_spec D (2 * rho)), (Z.eqb_spec rho 0), (Z.eqb_spec (2 * rho) D),
      (Z.eqb_spec (rho + D) 0), (Z.eqb_spec (2 * (rho + D)) (2 * D));
      simpl; try reflexivity; lia.
Qed.

Lemma pow2_xO (p : positive) : 2 ^ Zpos p~0 = 2 ^ Zpos p * 2 ^ Zpos p.
Proof.
  rewrite (Pos2Z.inj_xO p). replace (2 * Zpos p) with (Zpos p + Zpos p) by lia.
  apply Z.pow_add_r; lia.
Qed.

Lemma pow2_xI (p : positive) : 2 ^ Zpos p~1 = 2 * (2 ^ Zpos p * 2 ^ Zpos p).
Proof.
  rewrite (Pos2Z.inj_xI p). replace (2 * Zpos p + 1) with (Z.succ (Zpos p + Zpos p)) by lia.
  rewrite Z.pow_succ_r by lia. rewrite Z.pow_add_r by lia. reflexivity.
Qed.

Lemma locates_iter_pos p mrs N D :
  0 <= N -> 0 < D -> locates mrs N D ->
  locates (SpecFloat.iter_pos shr_1 p mrs) N (2 ^ Zpos p * D).
Proof.
  intros HN. revert mrs D. induction p as [p IH|p IH|]; intros mrs D HD Hloc; simpl SpecFloat.iter_pos.
  - replace (2 ^ Zpos p~1 * D) with (2 ^ Zpos p * (2 ^ Zpos p * (2 * D)))
      by (rewrite pow2_xI; ring).
    apply IH; [pose proof (Z.pow_pos_nonneg 2 (Zpos p)); nia|].
    apply IH; [lia|]. apply locates_shr_1; assumption.
  - replace (2 ^ Zpos p~0 * D) with (2 ^ Zpos p * (2 ^ Zpos p * D))
      by (rewrite pow2_xO; ring).
    apply IH; [pose proof (Z.pow_pos_nonneg 2 (Zpos p)); nia|].
    apply IH; assumption.
  - rewrite Z.pow_1_r. apply locates_shr_1; assumption.
Qed.

(** [rne N D] is within one half of [N / D]; at exactly one half it is
    even. *)
Lemma rne_bounds (N D : Z) :
  0 < D -> (2 * rne N D - 1) * D <= 2 * N <= (2 * rne N D + 1) * D.
Proof.
  intros HD. unfold rne.
  pose proof (Z.div_mod N D ltac:(lia)) as Hdm.
  pose proof (Z.mod_pos_bound N D HD) as Hrho.
  destruct (Z.compare_spec (2 * (N mod D)) D) as [He|Hl|Hg];
    [destruct (Z.even (N / D))|..]; nia.
Qed.

Lemma rne_tie_low (N D : Z) :
  0 < D -> 2 * N = (2 * rne N D - 1) * D -> Z.even (rne N D) = true.
Proof.
  intros HD. unfold rne.
  pose proof (Z.div_mod N D ltac:(lia)) as Hdm.
  pose proof (Z.mod_pos_bound N D HD) as Hrho.
  destruct (Z.compare_spec (2 * (N mod D)) D) as [He|Hl|Hg].
  - destruct (Z.even (N / D)) eqn:Hev; intros Heq; [nia|].
    rewrite Z.add_1_r, Z.even_succ, <- Z.negb_even, Hev. reflexivity.
  - intros Heq; nia.
  - intros Heq; nia.
Qed.

Lemma rne_tie_high (N D : Z) :
  0 < D -> 2 * N = (2 * rne N D + 1) * D -> Z.even (rne N D) = true.
Proof.
  intros HD. unfold rne.
  pose proof (Z.div_mod N D ltac:(lia)) as Hdm.
  pose proof (Z.mod_pos_bound N D HD) as Hrho.
  destruct (Z.compare_spec (2 * (N mod D)) D) as [He|Hl|Hg].
  - destruct (Z.even (N / D)) eqn:Hev; intros Heq; [exact Hev|nia].
  - intros Heq; nia.
  - intros Heq; nia.
Qed.

(** Rounding to nearest keeps the order of the rationals. *)
Lemma rne_mono (N1 D1 N2 D2 : Z) :
  0 < D1 -> 0 < D2 -> N1 * D2 <= N2 * D1 -> rne N1 D1 <= rne N2 D2.
Proof.
  intros HD1 HD2 Hle.
  pose proof (rne_bounds N1 D1 HD1) as [Hlo1 _].
  pose proof (rne_bounds N2 D2 HD2) as [_ Hhi2].
  pose proof (rne_tie_low N1 D1 HD1) as Ht1.
  pose proof (rne_tie_high N2 D2 HD2) as Ht2.
  set (q1 := rne N1 D1) in *. set (q2 := rne N2 D2) in *.
  destruct (Z_le_gt_dec q1 q2) as [Hok|Hgt]; [exact Hok|exfalso].
  assert (Hp : 0 < D1 * D2) by nia.
  assert (Ha : (2 * q1 - 1) * (D1 * D2) <= 2 * N1 * D2) by nia.
  assert (Hb : 2 * N2 * D1 <= (2 * q2 + 1) * (D1 * D2)) by nia.
  assert (Hc : (2 * q2 + 1) * (D1 * D2) <= (2 * q1 - 1) * (D1 * D2)) by nia.
  assert (Hq : q1 = q2 + 1) by nia.
  assert (He1 : 2 * N1 = (2 * q1 - 1) * D1) by nia.
  assert (He2 : 2 * N2 = (2 * q2 + 1) * D2) by nia.
  specialize (Ht1 He1). specialize (Ht2 He2).
  rewrite Hq, Z.add_1_r, Z.even_succ, <- Z.negb_even, Ht2 in Ht1. discriminate.
Qed.

Lemma rne_scale (N D c : Z) : 0 < D -> 0 < c -> rne (c * N) (c * D) = rne N D.
Proof.
  intros HD Hc. apply Z.le_antisymm; apply rne_mono; nia.
Qed.

Lemma rne_eq (N1 D1 N2 D2 : Z) :
  0 < D1 -> 0 < D2 -> N1 * D2 = N2 * D1 -> rne N1 D1 = rne N2 D2.
Proof.
  intros HD1 HD2 Heq. apply Z.le_antisymm; apply rne_mono; lia.
Qed.

Lemma rne_exact (q D : Z) : 0 < D -> rne (q * D) D = q.
Proof.
  intros HD. unfold rne. rewrite Z.mod_mul, Z.div_mul by lia.
  destruct (Z.compare_spec (2 * 0) D); lia.
Qed.

Lemma rne_floor (N D : Z) : 0 < D -> N / D <= rne N D <= N / D + 1.
Proof.
  intros HD. unfold rne.
  destruct (Z.compare (2 * (N mod D)) D); [destruct (Z.even (N / D))|..]; lia.
Qed.

(** [SpecFloat]'s choice on a located record is [rne]. *)
Lemma round_nearest_even_located (mrs : shr_record) (N D : Z) :
  0 < D -> locates mrs N D ->
  round_nearest_even (shr_m mrs) (loc_of_shr_record mrs) = rne N D.
Proof.
  intros HD (Hm & Hr & Hs). destruct mrs as [m r s].
  cbn [shr_m shr_r shr_s] in *. subst m. unfold rne.
  pose proof (Z.mod_pos_bound N D HD) as Hrho.
  destruct (Z.compare_spec (2 * (N mod D)) D) as [He|Hl|Hg].
  - assert (r = true) as -> by (rewrite Hr; apply Z.leb_le; lia).
    assert (s = false) as ->.
    { rewrite Hs. replace (Z.eqb (2 * (N mod D)) D) with true by (symmetry; apply Z.eqb_eq; lia).
      rewrite orb_true_r. reflexivity. }
    reflexivity.
  - assert (r = false) as -> by (rewrite Hr; apply Z.leb_gt; lia).
    destruct s; reflexivity.
  - assert (r = true) as -> by (rewrite Hr; apply Z.leb_le; lia).
    assert (s = true) as ->.
    { rewrite Hs. replace (Z.eqb (2 * (N mod D)) D) with false by (symmetry; apply Z.eqb_neq; lia).
      replace (Z.eqb (N mod D) 0) with false by (symmetry; apply Z.eqb_neq; lia). reflexivity. }
    reflexivity.
Qed.

Lemma Zdigits2_bounds (m : Z) :
  0 < m -> 2 ^ (Zdigits2 m - 1) <= m < 2 ^ Zdigits2 m.
Proof.
  intros Hm. destruct m as [|p|p]; try lia. apply digits2_pos_bounds.
Qed.

Lemma Zdigits2_pos (m : Z) : 0 < m -> 0 < Zdigits2 m.
Proof. intros Hm. destruct m as [|p|p]; try lia. simpl. lia. Qed.

Lemma shr_located (mrs : shr_record) (e n N D : Z) :
  0 <= N -> 0 < D -> 0 <= n -> locates mrs N D ->
  snd (shr mrs e n) = e + n /\ locates (fst (shr mrs e n)) N (2 ^ n * D).
Proof.
  intros HN HD Hn Hloc. destruct n as [|p|p]; try lia; cbn [shr fst snd].
  - split; [lia|]. rewrite Z.pow_0_r, Z.mul_1_l. exact Hloc.
  - split; [reflexivity|]. apply locates_iter_pos; assumption.
Qed.

Lemma fexp_normal (e : Z) : -1021 <= e -> fexp 53 1024 e = e - 53.
Proof. intros He. unfold fexp, emin. lia. Qed.

(** The rounding step shared by the division and the product, on a
    mantissa of at least 53 bits placed at [N / D]: with [n] the number of
    bits beyond 53, the result is [rne N (2 ^ n * D)] at exponent [ex + n]
    (renormalised when the rounding carries into a 54th bit). *)
Lemma binary_round_aux_located (mx ex : Z) (lx : location) (N D : Z) :
  0 <= N -> 0 < D ->
  locates (shr_record_of_loc mx lx) N D ->
  2 ^ 52 <= mx -> -1074 <= ex -> ex + (Zdigits2 mx - 53) < 0 ->
  let n := Zdigits2 mx - 53 in
  let r := binary_round_aux 53 1024 false mx ex lx in
  0 <= n /\ 2 ^ 52 * (2 ^ n * D) <= N < 2 ^ 53 * (2 ^ n * D)
  /\ normal r /\ sc r = rne N (2 ^ n * D) * 2 ^ (ex + n + 1074)
  /\ ex + n <= expo r <= ex + n + 1.
Proof.
  intros HN HD Hloc Hmx Hex Hneg n r.
  assert (Hpos : 0 < mx) by (pose proof (Z.pow_pos_nonneg 2 52); lia).
  pose proof (Zdigits2_bounds mx Hpos) as [Dlo Dhi].
  assert (Hn : 0 <= n).
  { unfold n. destruct (Z_lt_ge_dec (Zdigits2 mx) 53) as [Hlt|Hge]; [|lia].
    assert (2 ^ Zdigits2 mx <= 2 ^ 52).
    { apply Z.pow_le_mono_r; [lia|]. lia. }
    lia. }
  assert (Hmq : mx = N / D) by (destruct Hloc as (Hm & _); destruct lx as [|[]]; exact Hm).
  assert (Hd : Zdigits2 mx = n + 53) by (unfold n; lia).
  assert (HP : 0 < 2 ^ n) by (apply Z.pow_pos_nonneg; lia).
  assert (HD' : 0 < 2 ^ n * D) by nia.
  assert (Hrange : 2 ^ 52 * (2 ^ n * D) <= N < 2 ^ 53 * (2 ^ n * D)).
  { rewrite Hd in Dlo, Dhi. replace (n + 53 - 1) with (n + 52) in Dlo by lia.
    rewrite Z.pow_add_r in Dlo, Dhi by lia.
    pose proof (Z.div_mod N D ltac:(lia)) as Hdm.
    pose proof (Z.mod_pos_bound N D HD) as Hrho.
    rewrite <- Hmq in Hdm. split; nia. }
  split; [exact Hn|]. split; [exact Hrange|].
  subst r. unfold binary_round_aux, shr_fexp.
  replace (fexp 53 1024 (Zdigits2 mx + ex) - ex) with n
    by (rewrite fexp_normal by (pose proof (Zdigits2_pos mx Hpos); lia); lia).
  destruct (shr_located (shr_record_of_loc mx lx) ex n N D HN HD Hn Hloc) as [He' Hloc'].
  destruct (shr (shr_record_of_loc mx lx) ex n) as [mrs' e'].
  cbn [fst snd] in He', Hloc'. subst e'.
  rewrite (round_nearest_even_located mrs' N (2 ^ n * D) HD' Hloc').
  set (q := rne N (2 ^ n * D)).
  assert (Hq : 2 ^ 52 <= q <= 2 ^ 53).
  { pose proof (rne_floor N (2 ^ n * D) HD') as [Fl Fh]. fold q in Fl, Fh.
    assert (2 ^ 52 <= N / (2 ^ n * D)) by (apply Z.div_le_lower_bound; lia).
    assert (N / (2 ^ n * D) < 2 ^ 53) by (apply Z.div_lt_upper_bound; lia).
    lia. }
  destruct (Z_lt_ge_dec q (2 ^ 53)) as [Hlt|Hge].
  - rewrite (Zdigits2_unique q 53) by (simpl; lia).
    replace (fexp 53 1024 (53 + (ex + n)) - (ex + n)) with 0
      by (rewrite fexp_normal by lia; lia).
    cbn [shr shr_record_of_loc shr_m].
    destruct q as [|qp|qp]; try (simpl in Hq; lia).
    replace (Z.leb (ex + n) (1024 - 53)) with true by (symmetry; apply Z.leb_le; lia).
    cbn [normal sc expo]. split; [split; [lia|lia]|]. split; [reflexivity|lia].
  - assert (q = 2 ^ 53) as -> by lia.
    replace (fexp 53 1024 (Zdigits2 (2 ^ 53) + (ex + n)) - (ex + n)) with 1
      by (change (Zdigits2 (2 ^ 53)) with 54; rewrite fexp_normal by lia; lia).
    cbn [shr shr_record_of_loc].
    change (shr_m (SpecFloat.iter_pos shr_1 1 {| shr_m := 2 ^ 53; shr_r := false; shr_s := false |}))
      with (Zpos 4503599627370496).
    cbv beta iota.
    replace (Z.leb (ex + n + 1) (1024 - 53)) with true by (symmetry; apply Z.leb_le; lia).
    cbn [normal sc expo]. split; [split; [simpl; lia|lia]|].
    split; [|lia].
    replace (ex + n + 1 + 1074) with (Z.succ (ex + n + 1074)) by lia.
    rewrite Z.pow_succ_r by lia. change (2 ^ 53) with (2 * 4503599627370496). ring.
Qed.

(** Rounding to 53 bits keeps the order of the exact values, also across
    different scales. *)
Lemma rounds_mono (N1 D1 N2 D2 : Z) (x1 x2 : spec_float) :
  0 < D1 -> 0 < D2 -> N1 * D2 <= N2 * D1 ->
  rounds N1 D1 x1 -> rounds N2 D2 x2 -> sc x1 <= sc x2.
Proof.
  intros HD1 HD2 Hle (_ & k1 & Hk1 & Hr1 & ->) (_ & k2 & Hk2 & Hr2 & ->).
  assert (HQ1 : rne (N1 * 2 ^ k1) D1 <= 2 ^ 53).
  { rewrite <- (rne_exact (2 ^ 53) D1 HD1). apply rne_mono; nia. }
  assert (HQ2 : 2 ^ 52 <= rne (N2 * 2 ^ k2) D2).
  { rewrite <- (rne_exact (2 ^ 52) D2 HD2). apply rne_mono; nia. }
  assert (HP1 : 0 < 2 ^ k1) by (apply Z.pow_pos_nonneg; lia).
  assert (HP2 : 0 < 2 ^ k2) by (apply Z.pow_pos_nonneg; lia).
  assert (HR1 : 0 < 2 ^ (1074 - k1)) by (apply Z.pow_pos_nonneg; lia).
  assert (HR2 : 0 < 2 ^ (1074 - k2)) by (apply Z.pow_pos_nonneg; lia).
  change (2 ^ 53) with (2 * 2 ^ 52) in *.
  set (c := 2 ^ 52) in *. assert (Hc : 0 < c) by (unfold c; lia). clearbody c.
  destruct (Z.lt_trichotomy k1 k2) as [Hlt|[Heq|Hgt]].
  - exfalso.
    assert (Hs : 2 ^ k2 = 2 ^ (k2 - k1) * 2 ^ k1)
      by (rewrite <- Z.pow_add_r by lia; f_equal; lia).
    assert (Ht : 2 <= 2 ^ (k2 - k1)).
    { change 2 with (2 ^ 1) at 1. apply Z.pow_le_mono_r; lia. }
    set (P1 := 2 ^ k1) in *. set (P2 := 2 ^ k2) in *. set (T := 2 ^ (k2 - k1)) in *.
    clearbody P1 P2 T. subst P2.
    assert (H1 : c * D1 * D2 <= N1 * P1 * D2) by nia.
    assert (H2 : N1 * P1 * D2 <= N2 * D1 * P1) by nia.
    assert (H3 : N2 * (T * P1) * D1 < 2 * c * D2 * D1) by nia.
    assert (H4 : 0 <= N2 * D1 * P1) by nia.
    assert (H5 : 2 * (N2 * D1 * P1) <= N2 * (T * P1) * D1) by nia.
    nia.
  - subst k2.
    assert (rne (N1 * 2 ^ k1) D1 <= rne (N2 * 2 ^ k1) D2) by (apply rne_mono; nia).
    nia.
  - assert (Hs : 2 ^ (1074 - k2) = 2 ^ (k1 - k2) * 2 ^ (1074 - k1))
      by (rewrite <- Z.pow_add_r by lia; f_equal; lia).
    assert (Ht : 2 <= 2 ^ (k1 - k2)).
    { change 2 with (2 ^ 1) at 1. apply Z.pow_le_mono_r; lia. }
    rewrite Hs.
    set (Q1 := rne (N1 * 2 ^ k1) D1) in *. set (Q2 := rne (N2 * 2 ^ k2) D2) in *.
    set (R1 := 2 ^ (1074 - k1)) in *. set (T := 2 ^ (k1 - k2)) in *.
    clearbody Q1 Q2 R1 T.
    assert (Q1 * R1 <= 2 * c * R1) by nia.
    assert (2 * c * R1 <= c * (T * R1)) by nia.
    assert (c * (T * R1) <= Q2 * (T * R1)) by nia.
    lia.
Qed.

(** The location the division computes from its remainder. *)
Lemma new_location_located (N D : Z) :
  0 < D -> locates (shr_record_of_loc (N / D) (new_location D (N mod D))) N D.
Proof.
  intros HD. pose proof (Z.mod_pos_bound N D HD) as Hrho.
  set (rho := N mod D) in *.
  assert (Hgoal : forall l,
    l = (if Z.eqb rho 0 then loc_Exact else loc_Inexact (Z.compare (2 * rho) D)) ->
    locates (shr_record_of_loc (N / D) l) N D).
  { intros l ->. unfold locates. fold rho. clearbody rho.
    destruct (Z.eqb_spec rho 0) as [H0|H0].
    - cbn [shr_m shr_r shr_s shr_record_of_loc orb negb]. repeat split. symmetry. apply Z.leb_gt. lia.
    - destruct (Z.compare_spec (2 * rho) D) as [He|Hl|Hg];
        cbn [shr_m shr_r shr_s shr_record_of_loc orb negb]; repeat split.
      + symmetry. apply Z.leb_le. lia.
      + replace (Z.eqb (2 * rho) D) with true by (symmetry; apply Z.eqb_eq; lia). reflexivity.
      + symmetry. apply Z.leb_gt. lia.
      + replace (Z.eqb (2 * rho) D) with false by (symmetry; apply Z.eqb_neq; lia). reflexivity.
      + symmetry. apply Z.leb_le. lia.
      + replace (Z.eqb (2 * rho) D) with false by (symmetry; apply Z.eqb_neq; lia). reflexivity. }
  apply Hgoal. unfold new_location, new_location_even, new_location_odd.
  destruct (Z.even D) eqn:Hev; [reflexivity|].
  destruct (Z.eqb rho 0); [reflexivity|]. f_equal.
  assert (Hodd : Z.odd D = true) by (rewrite <- Z.negb_even, Hev; reflexivity).
  apply Z.odd_spec in Hodd. destruct Hodd as [h Hh].
  destruct (Z.compare_spec (2 * rho + 1) D) as [He|Hl|Hg];
    destruct (Z.compare_spec (2 * rho) D) as [He'|Hl'|Hg']; try reflexivity; lia.
Qed.

Lemma pow2_lt_inv (x y : Z) : 0 <= y -> 2 ^ x < 2 ^ y -> x < y.
Proof. intros Hy H. apply (Z.pow_lt_mono_r_iff 2); [lia|exact Hy|exact H]. Qed.

(** The quotient of two integers [0 < a <= t < 2 ^ 64] before rounding:
    [a] is shifted so that the integer quotient has 53 or 54 bits. *)
Lemma SFdiv_core_binary_int (a t : Z) :
  0 < a <= t -> t < 2 ^ 64 ->
  let s := 53 + Zdigits2 t - Zdigits2 a in
  53 <= s <= 116 /\
  2 ^ 52 * t <= a * 2 ^ s < 2 ^ 54 * t /\
  SFdiv_core_binary 53 1024 a 0 t 0
  = (a * 2 ^ s / t, - s, new_location t ((a * 2 ^ s) mod t)).
Proof.
  intros [Ha Hat] Ht s.
  assert (Ht0 : 0 < t) by lia.
  pose proof (Zdigits2_bounds a Ha) as [Alo Ahi].
  pose proof (Zdigits2_bounds t Ht0) as [Tlo Thi].
  pose proof (Zdigits2_pos a Ha) as Hda. pose proof (Zdigits2_pos t Ht0) as Hdt.
  assert (H1 : Zdigits2 a - 1 < Zdigits2 t) by (apply pow2_lt_inv; lia).
  assert (H2 : Zdigits2 t - 1 < 64) by (apply pow2_lt_inv; lia).
  assert (Hs : 53 <= s <= 116) by (unfold s; lia).
  split; [exact Hs|].
  assert (Hp1 : 2 ^ (Zdigits2 a - 1) * 2 ^ s = 2 ^ 52 * 2 ^ Zdigits2 t)
    by (rewrite <- !Z.pow_add_r by lia; f_equal; unfold s; lia).
  assert (Hp2 : 2 ^ Zdigits2 a * 2 ^ s = 2 ^ 54 * 2 ^ (Zdigits2 t - 1))
    by (rewrite <- !Z.pow_add_r by lia; f_equal; unfold s; lia).
  assert (HS : 0 < 2 ^ s) by (apply Z.pow_pos_nonneg; lia).
  split.
  { clearbody s. set (P := 2 ^ s) in *. set (A := 2 ^ (Zdigits2 a - 1)) in *.
    set (A' := 2 ^ Zdigits2 a) in *. set (T := 2 ^ Zdigits2 t) in *.
    set (T' := 2 ^ (Zdigits2 t - 1)) in *.
    change (2 ^ 52) with 4503599627370496 in *. change (2 ^ 54) with 18014398509481984 in *.
    clearbody P A A' T T'. split; nia. }
  unfold SFdiv_core_binary. rewrite !Z.add_0_r, !Z.sub_0_r.
  rewrite fexp_normal by lia.
  replace (Z.min (Zdigits2 a - Zdigits2 t - 53) 0) with (- s) by (unfold s; lia).
  replace (0 - - s) with s by lia.
  destruct s as [|ps|ps] eqn:Es; try lia.
  rewrite Z.shiftl_mul_pow2 by lia.
  unfold Z.div, Z.modulo. destruct (Z.div_eucl (a * 2 ^ Z.pos ps) t). reflexivity.
Qed.

(** [a / t] in binary64 is the rational [a / t] rounded to 53 bits. *)
Lemma SFdiv_rounds (a t : positive) :
  Zpos a <= Zpos t -> Zpos t < 2 ^ 64 ->
  let x := SFdiv 53 1024 (S754_finite false a 0) (S754_finite false t 0) in
  rounds (Zpos a) (Zpos t) x /\ -116 <= expo x <= -51.
Proof.
  intros Hat Ht x.
  destruct (SFdiv_core_binary_int (Zpos a) (Zpos t) ltac:(lia) Ht) as (Hs & Hr & Hcore).
  set (s := 53 + Zdigits2 (Zpos t) - Zdigits2 (Zpos a)) in *.
  subst x. unfold SFdiv. rewrite Hcore. cbn [xorb].
  set (N := Zpos a * 2 ^ s) in *.
  assert (HN : 0 <= N) by (unfold N; pose proof (Z.pow_pos_nonneg 2 s); nia).
  assert (Hmx : 2 ^ 52 <= N / Zpos t) by (apply Z.div_le_lower_bound; lia).
  assert (Hmx' : N / Zpos t < 2 ^ 54) by (apply Z.div_lt_upper_bound; lia).
  assert (Hpos : 0 < N / Zpos t) by (pose proof (Z.pow_pos_nonneg 2 52); lia).
  pose proof (Zdigits2_bounds _ Hpos) as [Dlo Dhi].
  assert (Hd : Zdigits2 (N / Zpos t) - 1 < 54) by (apply pow2_lt_inv; lia).
  destruct (binary_round_aux_located (N / Zpos t) (- s)
              (new_location (Zpos t) (N mod Zpos t)) N (Zpos t) HN ltac:(lia)
              (new_location_located N (Zpos t) ltac:(lia)) Hmx ltac:(lia) ltac:(lia))
    as (Hn & Hrange & Hnormal & Hsc & Hexpo).
  set (n := Zdigits2 (N / Zpos t) - 53) in *.
  split; [|lia]. split; [exact Hnormal|].
  exists (s - n). split; [lia|].
  assert (Hsplit : 2 ^ s = 2 ^ n * 2 ^ (s - n))
    by (rewrite <- Z.pow_add_r by lia; f_equal; lia).
  assert (HPn : 0 < 2 ^ n) by (apply Z.pow_pos_nonneg; lia).
  split.
  - unfold N in Hrange. rewrite Hsplit in Hrange.
    set (P := 2 ^ n) in *. set (K := 2 ^ (s - n)) in *.
    change (2 ^ 52) with 4503599627370496 in *. change (2 ^ 53) with 9007199254740992 in *.
    clearbody P K. split; nia.
  - rewrite Hsc. f_equal; [|f_equal; lia].
    apply rne_eq; [nia|lia|]. unfold N. rewrite Hsplit. ring.
Qed.

Lemma hundred_normalized :
  binary_normalize Py.prec Py.emax 100 0 false = S754_finite false 7036874417766400 (-46).
Proof. vm_compute. reflexivity. Qed.

(** [x * 100] in binary64 is the exact product rounded to 53 bits. *)
Lemma mul_int_rounds (x : spec_float) :
  normal x -> -1028 <= expo x <= -8 ->
  rounds (100 * sc x) (2 ^ 1074) (Py.mul_int x 100).
Proof.
  intros Hx He. unfold Py.mul_int. rewrite hundred_normalized.
  destruct x as [| | |[] m e]; try contradiction.
  cbn [normal expo sc] in *. destruct Hx as [Hm _].
  unfold SFmul, Py.prec, Py.emax. cbn [xorb]. rewrite Pos2Z.inj_mul.
  set (hm := Zpos 7036874417766400).
  assert (Hhm : hm = 100 * 2 ^ 46) by reflexivity.
  set (N := Zpos m * hm).
  assert (Hlo : 2 ^ 104 <= N) by (unfold N, hm; change (2 ^ 104) with (2 ^ 52 * 2 ^ 52); nia).
  assert (Hhi : N < 2 ^ 106) by (unfold N, hm; change (2 ^ 106) with (2 ^ 53 * 2 ^ 53); nia).
  assert (HN : 0 <= N) by lia.
  assert (Hpos : 0 < N) by lia.
  pose proof (Zdigits2_bounds _ Hpos) as [Dlo Dhi].
  assert (Hd : Zdigits2 N - 1 < 106) by (apply pow2_lt_inv; lia).
  assert (Hloc : locates (shr_record_of_loc N loc_Exact) N 1).
  { unfold locates. cbn [shr_record_of_loc shr_m shr_r shr_s].
    rewrite Z.div_1_r, Z.mod_1_r. repeat split. }
  destruct (binary_round_aux_located N (e + -46) loc_Exact N 1 HN ltac:(lia) Hloc
              ltac:(lia) ltac:(lia) ltac:(lia))
    as (Hn & Hrange & Hnormal & Hsc & _).
  set (n := Zdigits2 N - 53) in *. rewrite Z.mul_1_r in Hrange, Hsc.
  split; [exact Hnormal|].
  exists (46 - e - n). split; [lia|].
  set (k := 46 - e - n).
  assert (Hpw : 2 ^ 46 * 2 ^ 1074 = 2 ^ (e + 1074) * 2 ^ k * 2 ^ n)
    by (rewrite <- !Z.pow_add_r by lia; f_equal; unfold k; lia).
  assert (HPn : 0 < 2 ^ n) by (apply Z.pow_pos_nonneg; lia).
  assert (HPk : 0 < 2 ^ k) by (apply Z.pow_pos_nonneg; lia).
  assert (HPe : 0 < 2 ^ (e + 1074)) by (apply Z.pow_pos_nonneg; lia).
  assert (HPb : 0 < 2 ^ 1074) by (apply Z.pow_pos_nonneg; lia).
  assert (Hcross : N * 2 ^ 1074 = 100 * (Zpos m * 2 ^ (e + 1074)) * 2 ^ k * 2 ^ n).
  { unfold N. rewrite Hhm.
    replace (Zpos m * (100 * 2 ^ 46) * 2 ^ 1074)
      with (100 * Zpos m * (2 ^ 46 * 2 ^ 1074)) by ring.
    rewrite Hpw. ring. }
  split.
  - set (V := 100 * (Zpos m * 2 ^ (e + 1074)) * 2 ^ k) in *.
    set (B := 2 ^ 1074) in *. set (P := 2 ^ n) in *.
    change (2 ^ 52) with 4503599627370496 in *. change (2 ^ 53) with 9007199254740992 in *.
    clearbody V B P N. split; nia.
  - rewrite Hsc. f_equal; [|f_equal; unfold k; lia].
    apply rne_eq; [lia|lia|]. rewrite Hcross. ring.
Qed.

(** [int] drops the fraction. *)
Lemma int_of_float_normal (x : spec_float) :
  normal x -> Py.int_of_float x = Some (sc x / 2 ^ 1074).
Proof.
  destruct x as [| | |[] m e]; try contradiction.
  intros [Hm He]. cbn [Py.int_of_float sc]. f_equal.
  destruct e as [|p|p]; try lia.
  - rewrite Z.shiftl_0_r. cbn [Z.add]. rewrite Z.div_mul; [reflexivity|].
    pose proof (Z.pow_pos_nonneg 2 1074); lia.
  - rewrite Z.shiftr_div_pow2 by lia.
    replace (2 ^ 1074) with (2 ^ Zpos p * 2 ^ (Zneg p + 1074))
      by (rewrite <- Z.pow_add_r by lia; f_equal; lia).
    rewrite Z.div_mul_cancel_r; [reflexivity| |];
      [pose proof (Z.pow_pos_nonneg 2 (Zpos p))|pose proof (Z.pow_pos_nonneg 2 (Zneg p + 1074))]; lia.
Qed.

Lemma sc_nonneg (x : spec_float) : 0 <= sc x.
Proof.
  destruct x as [| | |[] m e]; cbn [sc];
    first [lia | pose proof (Z.pow_nonneg 2 (e + 1074)); nia].
Qed.

Lemma rounds_one : rounds 1 1 (S754_finite false 4503599627370496 (-52)).
Proof.
  split; [cbn [normal]; split; [split|]; [vm_compute; discriminate|reflexivity|lia]|].
  exists 52. split; [lia|]. split; [split; [vm_compute; discriminate|reflexivity]|].
  vm_compute. reflexivity.
Qed.

Lemma rounds_hundred :
  rounds (100 * 2 ^ 1074) (2 ^ 1074) (S754_finite false 7036874417766400 (-46)).
Proof.
  split; [cbn [normal]; split; [split|]; [vm_compute; discriminate|reflexivity|lia]|].
  exists 46. split; [lia|]. split; [split; [vm_compute; discriminate|reflexivity]|].
  vm_compute. reflexivity.
Qed.

Lemma percent_stages (a t : positive) :
  Zpos a <= Zpos t -> Zpos t < 2 ^ 64 ->
  exists x, Py.true_div (Zpos a) (Zpos t) = Some x
            /\ rounds (Zpos a) (Zpos t) x
            /\ rounds (100 * sc x) (2 ^ 1074) (Py.mul_int x 100).
Proof.
  intros Hat Ht. destruct (SFdiv_rounds a t Hat Ht) as [Hr He].
  exists (SFdiv 53 1024 (S754_finite false a 0) (S754_finite false t 0)).
  split; [reflexivity|]. split; [exact Hr|].
  apply mul_int_rounds; [apply Hr|lia].
Qed.

(** [percent] does not raise when the report is within the input. *)
Lemma percent_scaled_ok (a t : Z) :
  0 <= a <= t -> 0 < t < 2 ^ 64 ->
  percent a t = Some (percent_scaled a t / 2 ^ 1074).
Proof.
  intros [Ha Hat] [Ht0 Ht]. destruct t as [|t|t]; try lia.
  destruct a as [|a|a]; try lia.
  - reflexivity.
  - destruct (percent_stages a t Hat Ht) as (x & Hdiv & _ & Hmul).
    unfold percent, percent_scaled. rewrite Hdiv.
    apply int_of_float_normal. apply Hmul.
Qed.

Lemma percent_scaled_mono (a1 a2 t : Z) :
  0 <= a1 <= a2 -> a2 <= t -> 0 < t < 2 ^ 64 ->
  percent_scaled a1 t <= percent_scaled a2 t.
Proof.
  intros [Ha1 Ha12] Hat [Ht0 Ht]. destruct t as [|t|t]; try lia.
  destruct a2 as [|a2|a2]; try lia.
  - assert (a1 = 0) as -> by lia. lia.
  - destruct (percent_stages a2 t Hat Ht) as (x2 & Hdiv2 & Hr2 & Hmul2).
    destruct a1 as [|a1|a1]; try lia.
    + change (percent_scaled 0 (Zpos t)) with 0.
      unfold percent_scaled. rewrite Hdiv2. apply sc_nonneg.
    + destruct (percent_stages a1 t ltac:(lia) Ht) as (x1 & Hdiv1 & Hr1 & Hmul1).
      unfold percent_scaled. rewrite Hdiv1, Hdiv2.
      assert (Hx : sc x1 <= sc x2) by (apply (rounds_mono (Zpos a1) (Zpos t) (Zpos a2) (Zpos t)); [lia|lia|nia|exact Hr1|exact Hr2]).
      assert (HB : 0 < 2 ^ 1074) by (apply Z.pow_pos_nonneg; lia).
      apply (rounds_mono (100 * sc x1) (2 ^ 1074) (100 * sc x2) (2 ^ 1074));
        [exact HB|exact HB|nia|exact Hmul1|exact Hmul2].
Qed.

Lemma percent_scaled_le_100 (a t : Z) :
  0 <= a <= t -> 0 < t < 2 ^ 64 -> 0 <= percent_scaled a t <= 100 * 2 ^ 1074.
Proof.
  intros [Ha Hat] [Ht0 Ht]. destruct t as [|t|t]; try lia.
  assert (HB : 0 < 2 ^ 1074) by (apply Z.pow_pos_nonneg; lia).
  destruct a as [|a|a]; try lia.
  - change (percent_scaled 0 (Zpos t)) with 0. lia.
  - destruct (percent_stages a t Hat Ht) as (x & Hdiv & Hr & Hmul).
    unfold percent_scaled. rewrite Hdiv. split; [apply sc_nonneg|].
    assert (Hx : sc x <= 2 ^ 1074).
    { change (2 ^ 1074) with (sc (S754_finite false 4503599627370496 (-52))).
      apply (rounds_mono (Zpos a) (Zpos t) 1 1); [lia|lia|lia|exact Hr|exact rounds_one]. }
    change (100 * 2 ^ 1074) with (sc (S754_finite false 7036874417766400 (-46))).
    apply (rounds_mono (100 * sc x) (2 ^ 1074) (100 * 2 ^ 1074) (2 ^ 1074));
      [exact HB|exact HB|nia|exact Hmul|exact rounds_hundred].
Qed.

(** A report within the size of the input gives a percentage within
    0 and 100, in spite of the two roundings. *)
Lemma percent_range (a t : Z) :
  0 <= a <= t -> 0 < t < 2 ^ 64 ->
  exists p, percent a t = Some p /\ 0 <= p <= 100.
Proof.
  intros Ha Ht. exists (percent_scaled a t / 2 ^ 1074).
  split; [apply percent_scaled_ok; assumption|].
  pose proof (percent_scaled_le_100 a t Ha Ht) as [Hlo Hhi].
  assert (HB : 0 < 2 ^ 1074) by (apply Z.pow_pos_nonneg; lia).
  split; [apply Z.div_pos; lia|].
  apply Z.div_le_upper_bound; lia.
Qed.

(** A larger report never gives a smaller percentage. *)
Lemma percent_mono (a1 a2 t : Z) :
  0 <= a1 <= a2 -> a2 <= t -> 0 < t < 2 ^ 64 ->
  exists p1 p2, percent a1 t = Some p1 /\ percent a2 t = Some p2 /\ p1 <= p2.
Proof.
  intros Ha Hat Ht.
  exists (percent_scaled a1 t / 2 ^ 1074), (percent_scaled a2 t / 2 ^ 1074).
  split; [apply percent_scaled_ok; lia|]. split; [apply percent_scaled_ok; lia|].
  apply Z.div_le_mono; [apply Z.pow_pos_nonneg; lia|].
  apply percent_scaled_mono; assumption.
Qed.

(** ** The progress callback *)

Lemma mem_eta m :
  mkMem (m_job m) (m_trace m) (m_encoder m) (m_decoder m) (m_lib m) (m_fs m)
        (m_files m) (m_log m) = m.
Proof. destruct m; reflexivity. Qed.

(** One invocation by the engine: it returns normally, touches nothing but
    the job, its history and the log, and assigns [callback_value]; a
    message that does not decode leaves everything as it was. *)
Lemma callback_wrapper_run id call m :
  exists lines,
    callback_wrapper (progress_callback id) call m =
      (Ret tt,
       match callback_value (m_job m) call with
       | Some p => mkMem (with_progress p (m_job m)) (m_trace m ++ [with_progress p (m_job m)])
                         (m_encoder m) (m_decoder m) (m_lib m) (m_fs m) (m_files m)
                         (m_log m ++ lines)
       | None => mkMem (m_job m) (m_trace m) (m_encoder m) (m_decoder m) (m_lib m)
                       (m_fs m) (m_files m) (m_log m ++ lines)
       end).
Proof.
  destruct call as [[b fr] [[s|]|]].
  2:{ exists []. unfold callback_wrapper, callback_value, assigned, decodes.
      unfold try_except, bind, raise, ret. simpl.
      destruct (total_size (m_job m)); rewrite app_nil_r, mem_eta; reflexivity. }
  all: eexists; unfold callback_wrapper, progress_callback, callback_value, assigned, decodes;
    unfold try_except, bind, logger, get_job, assign, raise, ret; simpl;
    (destruct (total_size (m_job m)) as [ts|]; simpl; [|reflexivity]);
    (destruct (Z.ltb 0 ts); simpl; [|reflexivity]);
    destruct (percent (Py.c_uint64 b) ts); reflexivity.
Qed.

(** The percentage is computed in binary64, so it is not the integer
    quotient: 29 bytes of 100 report 28. *)
Example percent_29_of_100 : percent 29 100 = Some 28.
Proof. vm_compute. reflexivity. Qed.

Example percent_half : percent 50 100 = Some 50.
Proof. vm_compute. reflexivity. Qed.

(** C4 (as amended). Every progress callback whose message is [NULL] or
    decodes as UTF-8 returns normally and sets the job's progress to
    [int((bytes_processed / total_size) * 100)], computed in double
    precision and not clamped; when [total_size] is unknown or not
    positive it sets the fixed value 50 instead. Nothing else of the job
    changes. The value lies in the range 0 to 100 whenever the engine
    reports no more bytes than the input has (and the size of the input
    fits 64 bits): the range is kept by the engine's reports, not by the
    callback. A callback whose message does not decode stops in the
    bridge's wrapper, before the job's callback is reached: it returns
    normally as well and leaves the job, and everything else, as it
    was. *)
Theorem progress_callback_sets (id : string) (bytes frames : Z)
    (msg : option (option string)) (m : Mem) :
  let r := callback_wrapper (progress_callback id) (bytes, frames, msg) m in
  fst r = Ret tt
  /\ (msg = Some None -> snd r = m)
  /\ (msg <> Some None ->
      progress (m_job (snd r)) =
        match total_size (m_job m) with
        | Some ts =>
            if Z.ltb 0 ts
            then default (progress (m_job m)) (percent (Py.c_uint64 bytes) ts)
            else 50
        | None => 50
        end)
  /\ with_progress 0 (m_job (snd r)) = with_progress 0 (m_job m)
  /\ (forall ts, msg <> Some None -> total_size (m_job m) = Some ts ->
       0 <= bytes <= ts -> ts < 2 ^ 64 ->
       within_percent_range (m_job (snd r))).
Proof.
  cbv zeta.
  assert (Hbad : callback_wrapper (progress_callback id) (bytes, frames, Some None) m
                 = (Ret tt, m)) by reflexivity.
  destruct (callback_wrapper_run id (bytes, frames, msg) m) as [lines Hrun].
  assert (Hval : msg <> Some None ->
                 progress (m_job (snd (callback_wrapper (progress_callback id)
                                         (bytes, frames, msg) m)))
                 = match total_size (m_job m) with
                   | Some ts =>
                       if Z.ltb 0 ts
                       then default (progress (m_job m)) (percent (Py.c_uint64 bytes) ts)
                       else 50
                   | None => 50
                   end).
  { intros Hmsg. rewrite Hrun. cbn [snd]. unfold callback_value, assigned, decodes.
    cbn [fst snd].
    assert (Hd : match msg with Some None => false | _ => true end = true)
      by (destruct msg as [[s|]|]; [reflexivity|congruence|reflexivity]).
    rewrite Hd.
    destruct (total_size (m_job m)) as [ts|]; simpl; [|reflexivity].
    destruct (Z.ltb 0 ts); simpl; [|reflexivity].
    destruct (percent (Py.c_uint64 bytes) ts); reflexivity. }
  split; [rewrite Hrun; reflexivity|].
  split; [intros ->; rewrite Hbad; reflexivity|].
  split; [exact Hval|]. split.
  - rewrite Hrun. cbn [snd].
    destruct (callback_value (m_job m) (bytes, frames, msg)); reflexivity.
  - intros ts Hmsg Hts Hbytes Hfit. unfold within_percent_range. rewrite (Hval Hmsg), Hts.
    destruct (Z.ltb 0 ts) eqn:Hpos; [|lia].
    apply Z.ltb_lt in Hpos. unfold Py.c_uint64. rewrite Z.mod_small by lia.
    destruct (percent_range bytes ts Hbytes ltac:(lia)) as (p & -> & Hp). exact Hp.
Qed.

(** Of two reports of 29 bytes for a 100-byte input, the one whose message
    decodes sets 28 percent, the one whose message does not changes
    nothing. *)
Lemma progress_callback_sets_witness :
  let r := callback_wrapper (progress_callback "job") (29, 1, Some (Some "chunk 1"))
                            sized_mem in
  progress (m_job (snd r)) = 28 /\ within_percent_range (m_job (snd r))
  /\ snd (callback_wrapper (progress_callback "job") (29, 1, Some None) sized_mem)
     = sized_mem.
Proof.
  cbv zeta.
  destruct (progress_callback_sets "job" 29 1 (Some (Some "chunk 1")) sized_mem)
    as (_ & _ & Hval & _ & Hrange).
  destruct (progress_callback_sets "job" 29 1 (Some None) sized_mem) as (_ & Hsame & _).
  split; [rewrite Hval; [vm_compute; reflexivity|discriminate]|].
  split; [apply (Hrange 100); [discriminate|vm_compute; reflexivity|lia|lia]|].
  apply Hsame. reflexivity.
Defined.

(** C4 (as stated) does not hold: a callback that reports 4096 bytes for
    a 100-byte input sets progress to 4096, outside [0, 100]. *)
Lemma progress_not_clamped :
  let r := callback_wrapper (progress_callback "job") (4096, 1, None) sized_mem in
  total_size (m_job sized_mem) = Some 100
  /\ progress (m_job (snd r)) = 4096
  /\ ~ within_percent_range (m_job (snd r)).
Proof.
  vm_compute. split; [reflexivity|]. split; [reflexivity|].
  intros [_ H]. apply H. reflexivity.
Qed.

(** ** Submissions without a file *)

(** C10. An encode or decode submission whose request has no file part,
    or whose file part has an empty filename, is answered at once with an
    error (status 400) and leaves the shared state as it was: no job is
    registered, no identifier is drawn, no upload is stored, and no worker
    is started. *)
Theorem submission_without_file_rejected (secure_filename : string -> string)
    (uuid_of : nat -> string) (seen : JobStatus) (req : Request) (w : World) :
  multi_get (req_files req) "file" = None
  \/ (exists file, multi_get (req_files req) "file" = Some file /\ up_filename file = "") ->
  (exists msg, encode_file secure_filename uuid_of seen req w = (error_response 400 msg, w, None))
  /\ (forall db_fault, exists msg,
        decode_video secure_filename uuid_of seen db_fault req w
        = (error_response 400 msg, w, None)).
Proof.
  intros [Hnone | (file & Hfile & Hempty)]; unfold encode_file, decode_video.
  - rewrite Hnone. split; [|intros _]; eexists; reflexivity.
  - rewrite Hfile, Hempty. simpl. split; [|intros _]; eexists; reflexivity.
Qed.

Lemma submission_without_file_rejected_witness :
  exists msg,
    encode_file secure_filename_ascii uuid_sample PENDING bare_request empty_world
    = (error_response 400 msg, empty_world, None).
Proof.
  apply (submission_without_file_rejected secure_filename_ascii uuid_sample PENDING
           bare_request empty_world).
  left. reflexivity.
Defined.

(** ** Strings: the order of TEXT columns, and pathlib's name split *)

Lemma string_compare_trans (a b c : string) :
  String.compare a b <> Gt -> String.compare b c <> Gt -> String.compare a c <> Gt.
Proof.
  revert b c. induction a as [|x a IH]; intros b c Hab Hbc.
  - destruct c; simpl; discriminate.
  - destruct b as [|y b]; [simpl in Hab; congruence|].
    destruct c as [|z c]; [simpl in Hbc; congruence|].
    simpl in *. unfold Ascii.compare in *.
    destruct (N.compare_spec (N_of_ascii x) (N_of_ascii y)) as [Exy|Lxy|Gxy];
      destruct (N.compare_spec (N_of_ascii y) (N_of_ascii z)) as [Eyz|Lyz|Gyz];
      try congruence.
    + rewrite Exy, Eyz, N.compare_refl. apply (IH b c); assumption.
    + rewrite Exy. apply N.compare_lt_iff in Lyz. rewrite Lyz. discriminate.
    + rewrite <- Eyz. apply N.compare_lt_iff in Lxy. rewrite Lxy. discriminate.
    + assert (H : (N_of_ascii x < N_of_ascii z)%N) by lia.
      apply N.compare_lt_iff in H. rewrite H. discriminate.
Qed.

Lemma string_leb_trans (a b c : string) :
  String.leb a b = true -> String.leb b c = true -> String.leb a c = true.
Proof.
  unfold String.leb. intros Hab Hbc.
  pose proof (string_compare_trans a b c) as H.
  destruct (String.compare a b), (String.compare b c), (String.compare a c);
    try reflexivity; try discriminate; exfalso; apply H; congruence.
Qed.

Lemma string_leb_refl (a : string) : String.leb a a = true.
Proof. destruct (String.leb_total a a); assumption. Qed.

Lemma string_ltb_leb (a b : string) : String.ltb a b = true -> String.leb a b = true.
Proof. unfold String.ltb, String.leb. destruct (String.compare a b); congruence. Qed.

Lemma string_not_ltb_leb (a b : string) : String.ltb a b = false -> String.leb b a = true.
Proof.
  unfold String.ltb, String.leb. rewrite (String.compare_antisym b a).
  destruct (String.compare a b); simpl; congruence.
Qed.

Lemma string_append_cons (c : ascii) (s t : string) :
  String c s ++ t = String c (s ++ t).
Proof. reflexivity. Qed.

Lemma string_append_nil_r (s : string) : s ++ "" = s.
Proof.
  induction s as [|c s IH]; [reflexivity|].
  rewrite string_append_cons, IH. reflexivity.
Qed.

Lemma substring_split (s : string) (i : nat) :
  (i <= String.length s)%nat ->
  String.substring 0 i s ++ String.substring i (String.length s - i) s = s.
Proof.
  revert i. induction s as [|c s IH]; intros i Hi.
  - destruct i; reflexivity.
  - destruct i as [|i].
    + clear IH Hi. change (String.substring 0 (String.length (String c s) - 0) (String c s)
                           = String c s).
      generalize (String c s). intros u.
      rewrite Nat.sub_0_r.
      induction u as [|d u IHu]; [reflexivity|].
      simpl. f_equal. exact IHu.
    + change (String c (String.substring 0 i s ++ String.substring i (String.length s - i) s)
              = String c s).
      f_equal. apply IH. simpl in Hi. lia.
Qed.

Lemma rfind_dot_bound (s : string) (i : nat) :
  Py.rfind_dot s = Some i -> (i < String.length s)%nat.
Proof.
  revert i. induction s as [|c s IH]; intros i; simpl; [discriminate|].
  destruct (Py.rfind_dot s) as [j|].
  - intros [= <-]. specialize (IH j eq_refl). lia.
  - destruct (Ascii.eqb c Py.dot); [intros [= <-]; lia | discriminate].
Qed.

(** [Path(p).stem + Path(p).suffix == Path(p).name]. *)
Lemma stem_suffix_name (p : string) : Py.stem p ++ Py.suffix p = Py.name p.
Proof.
  unfold Py.stem, Py.suffix, Py.suffix_index.
  destruct (Py.rfind_dot (Py.name p)) as [i|] eqn:Hdot;
    [|apply string_append_nil_r].
  destruct ((0 <? i)%nat && (i <? String.length (Py.name p) - 1)%nat);
    [|apply string_append_nil_r].
  apply substring_split. apply rfind_dot_bound in Hdot. lia.
Qed.

(** ** The registry lookup *)

Lemma newest_is_latest (rows : list FileRow) (best : FileRow) :
  newest rows = Some best ->
  In best rows
  /\ forall r, In r rows -> String.leb (row_created_at r) (row_created_at best) = true.
Proof.
  revert best. induction rows as [|r rest IH]; intros best; simpl; [discriminate|].
  destruct (newest rest) as [r'|] eqn:Hrest.
  - destruct (IH r' eq_refl) as [Hin Hmax].
    destruct (String.ltb (row_created_at r) (row_created_at r')) eqn:Hlt; intros [= <-].
    + split; [right; exact Hin|]. intros x [<-|Hx]; [apply string_ltb_leb; exact Hlt|].
      apply Hmax; exact Hx.
    + split; [left; reflexivity|]. intros x [<-|Hx]; [apply string_leb_refl|].
      eapply string_leb_trans; [apply Hmax; exact Hx|].
      apply string_not_ltb_leb; exact Hlt.
  - intros [= <-]. destruct rest as [|r2 rest2].
    + split; [left; reflexivity|]. intros x [<-|[]]. apply string_leb_refl.
    + simpl in Hrest. destruct (newest rest2); [destruct (String.ltb _ _)|]; discriminate.
Qed.

Lemma newest_none (rows : list FileRow) : newest rows = None -> rows = [].
Proof.
  destruct rows as [|r rest]; [reflexivity|]. simpl.
  destruct (newest rest); [destruct (String.ltb _ _)|]; discriminate.
Qed.

Lemma matches_url_iff (url : string) (r : FileRow) :
  matches_url url r = true <-> row_video_url r = Some url.
Proof.
  unfold matches_url. destruct (row_video_url r) as [u|]; [|split; discriminate].
  destruct (String.eqb_spec u url); split; congruence.
Qed.

(** [ORDER BY created_at DESC LIMIT 1] among the rows with the url. *)
Lemma select_latest_by_url_spec (rows : list FileRow) (url : string) :
  match select_latest_by_url rows url with
  | Some best =>
      In best rows /\ row_video_url best = Some url
      /\ forall r, In r rows -> row_video_url r = Some url ->
                   String.leb (row_created_at r) (row_created_at best) = true
  | None => forall r, In r rows -> row_video_url r <> Some url
  end.
Proof.
  unfold select_latest_by_url.
  destruct (newest (List.filter (matches_url url) rows)) as [best|] eqn:Hbest.
  - destruct (newest_is_latest _ _ Hbest) as [Hin Hmax].
    apply List.filter_In in Hin. destruct Hin as [Hin Hm].
    split; [exact Hin|]. split; [apply matches_url_iff; exact Hm|].
    intros r Hr Hurl. apply Hmax. apply List.filter_In. split; [exact Hr|].
    apply matches_url_iff; exact Hurl.
  - apply newest_none in Hbest. intros r Hr Hurl.
    assert (Hf : In r (List.filter (matches_url url) rows)).
    { apply List.filter_In. split; [exact Hr|]. apply matches_url_iff; exact Hurl. }
    rewrite Hbest in Hf. exact Hf.
Qed.

(** C6 (as amended). For every decode request, the handler looks up, among
    the File Records whose artifact reference matches the submitted
    artifact, one with the latest [created_at]: whenever a record matches
    and the lookup does not fault, such a record is found. If that record
    carries a non-empty origin name, the output name is a fresh
    identifier followed by that origin name's stem and extension
    (together, its final path component). If no record matches, if the
    record found has no origin name (or an empty one), or if the lookup
    faults, the generic name [<identifier>_decoded.bin] is used. *)
Theorem decode_output_name_from_registry (secure_filename : string -> string)
    (uuid_of : nat -> string) (seen : JobStatus) (db_fault : bool) (req : Request)
    (w : World) (file : FileStorage) :
  multi_get (req_files req) "file" = Some file ->
  up_filename file <> "" ->
  let url := artifact_url secure_filename file in
  let u := uuid_of (S (w_uuids w)) in
  exists resp w' t,
    decode_video secure_filename uuid_of seen db_fault req w = (resp, w', Some t)
    /\ (db_fault = true -> generic_output u t)
    /\ ((forall r, In r (w_files w) -> row_video_url r <> Some url) -> generic_output u t)
    /\ (db_fault = false ->
        (exists r, In r (w_files w) /\ row_video_url r = Some url) ->
        exists best,
          In best (w_files w) /\ row_video_url best = Some url
          /\ (forall r, In r (w_files w) -> row_video_url r = Some url ->
                        String.leb (row_created_at r) (row_created_at best) = true)
          /\ match row_original_file best with
             | Some o =>
                 if String.eqb o "" then generic_output u t
                 else
                   dt_original_filename t = Some o
                   /\ dt_output_name t = u ++ "_" ++ Py.stem o ++ Py.suffix o
                   /\ Py.stem o ++ Py.suffix o = Py.name o
             | None => generic_output u t
             end).
Proof.
  intros Hfile Hname url u. subst url. unfold artifact_url, decode_video. rewrite Hfile.
  destruct (String.eqb_spec (up_filename file) "") as [He|_]; [contradiction|].
  simpl. do 3 eexists. split; [reflexivity|]. simpl.
  unfold find_origin_name, generic_output.
  set (url := "/api/download/" ++ secure_filename (up_filename file)).
  pose proof (select_latest_by_url_spec (w_files w) url) as Hsel.
  split; [intros ->; split; reflexivity|]. split.
  - intros Hnone. destruct db_fault; [split; reflexivity|].
    destruct (select_latest_by_url (w_files w) url) as [best|]; [|split; reflexivity].
    destruct Hsel as (Hin & Hurl & _). destruct (Hnone best Hin Hurl).
  - intros -> (r & Hr & Hurl).
    destruct (select_latest_by_url (w_files w) url) as [best|];
      [|destruct (Hsel r Hr Hurl)].
    exists best. destruct Hsel as (Hin & Hbest & Hmax).
    split; [exact Hin|]. split; [exact Hbest|]. split; [exact Hmax|].
    unfold decode_output_name, Py.truthy.
    destruct (row_original_file best) as [o|]; simpl; [|split; reflexivity].
    destruct (String.eqb o "") eqn:Hempty; simpl; rewrite ?Hempty; simpl;
      [split; reflexivity|].
    split; [reflexivity|]. split; [reflexivity|]. apply stem_suffix_name.
Qed.

(** Of two records of the submitted artifact the newer one decides: the
    output is named after [report.pdf], not after [draft.pdf]. *)
Lemma decode_output_name_from_registry_witness :
  exists resp w' t,
    decode_video secure_filename_ascii uuid_sample PENDING false archive_request archive_world
    = (resp, w', Some t)
    /\ dt_original_filename t = Some "report.pdf"
    /\ dt_output_name t = "uuid1_report.pdf".
Proof.
  destruct (decode_output_name_from_registry secure_filename_ascii uuid_sample PENDING false
              archive_request archive_world
              (mkUpload "uuid9_report.mp4" (mkFile 555 "9f2c")))
    as (resp & w' & t & Hrun & _ & _ & Hfound).
  - reflexivity.
  - discriminate.
  - exists resp, w', t. split; [exact Hrun|].
    destruct (Hfound eq_refl) as (best & Hin & Hurl & Hmax & Hout).
    { eexists. split; [left; reflexivity|]. reflexivity. }
    destruct Hin as [<-|[<-|[<-|[]]]].
    + vm_compute in Hout. destruct Hout as (Ho & Hn & _). split; assumption.
    + specialize (Hmax (mkRow "record-b" "report.pdf" "encoded" 555 "2024-05-02T09:30:00"
                              (Some "/api/download/uuid9_report.mp4") (Some "report.pdf")
                              None None)
                       (or_introl eq_refl) eq_refl).
      vm_compute in Hmax. discriminate.
    + vm_compute in Hurl. discriminate.
Defined.

(** C6 (as stated) does not hold: the registry holds a record whose
    artifact reference matches the submitted artifact (the record of an
    earlier decode, which has no origin name), and yet no origin name is
    returned and the output gets the generic name. *)
Lemma matching_record_without_origin :
  let submitted := mkUpload (dt_output_name stray_task) (mkFile 555 "9f2c") in
  let t := task_of (decode_video secure_filename_ascii uuid_sample PENDING false
                      resubmit_request stray_world) no_decode_task in
  multi_get (req_files resubmit_request) "file" = Some submitted
  /\ (exists row, In row (w_files stray_world)
                  /\ row_video_url row = Some (artifact_url secure_filename_ascii submitted)
                  /\ row_original_file row = None)
  /\ dt_original_filename t = None
  /\ dt_output_name t = "uuid4_decoded.bin".
Proof.
  vm_compute. split; [reflexivity|]. split; [|split; reflexivity].
  eexists. split; [left; reflexivity|]. split; reflexivity.
Qed.

(** ** Deleting a File Record *)

Lemma unlink_if_exists_gone p fs fs' :
  unlink_if_exists p fs = inl fs' ->
  fs' !! p = None /\ forall q, q <> p -> fs' !! q = fs !! q.
Proof.
  unfold unlink_if_exists. destruct (fs !! p) eqn:Hp.
  - intros [= <-]. split; [apply lookup_delete_eq|].
    intros q Hq. apply lookup_delete_ne. congruence.
  - destruct (is_dir p); [discriminate|]. intros [= <-]. split; [exact Hp|reflexivity].
Qed.

Lemma select_by_id_deleted rows file_id :
  select_by_id (delete_by_id rows file_id) file_id = None.
Proof.
  unfold select_by_id, delete_by_id. induction rows as [|r rows IH]; [reflexivity|].
  simpl. destruct (String.eqb (row_id r) file_id) eqn:Hid; simpl; [exact IH|].
  rewrite Hid. exact IH.
Qed.

(** An unknown id: [404], and nothing changes. *)
Lemma delete_unknown_record file_id w :
  select_by_id (w_files w) file_id = None ->
  delete_file_record file_id w = (error_response 404 "File not found", w).
Proof. intros H. unfold delete_file_record. rewrite H. reflexivity. Qed.

(** A deletion that answers 200 removes the row and the artifact file
    that [video_url] names, and touches no file other than
    [outputs/<last segment of video_url>] and [uploads/<original_file>]. *)
Lemma delete_known_record file_id w row :
  select_by_id (w_files w) file_id = Some row ->
  resp_code (fst (delete_file_record file_id w)) = 200 ->
  let w' := snd (delete_file_record file_id w) in
  select_by_id (w_files w') file_id = None
  /\ (forall url, row_video_url row = Some url -> url <> "" ->
        w_fs w' !! path_join OUTPUT_FOLDER (List.last (Py.split_slash url) "") = None)
  /\ (forall q,
        (forall url, row_video_url row = Some url ->
           q <> path_join OUTPUT_FOLDER (List.last (Py.split_slash url) "")) ->
        (forall o, row_original_file row = Some o -> q <> path_join UPLOAD_FOLDER o) ->
        w_fs w' !! q = w_fs w !! q).
Proof.
  intros Hrow. unfold delete_file_record. rewrite Hrow.
  destruct (row_video_url row) as [url|] eqn:Hurl; simpl.
  - destruct (String.eqb_spec url "") as [->|Hne]; simpl.
    + destruct (row_original_file row) as [o|] eqn:Ho; simpl.
      * destruct (String.eqb o ""); simpl.
        -- intros _. split; [apply select_by_id_deleted|].
           split; [intros ? [= <-]; congruence|]. reflexivity.
        -- destruct (unlink_if_exists _ (w_fs w)) as [fs2|e] eqn:H2; simpl; [|discriminate].
           intros _. apply unlink_if_exists_gone in H2. destruct H2 as [_ Hframe].
           split; [apply select_by_id_deleted|].
           split; [intros ? [= <-]; congruence|].
           intros q _ Hq. apply Hframe. apply (Hq o). reflexivity.
      * intros _. split; [apply select_by_id_deleted|].
        split; [intros ? [= <-]; congruence|]. reflexivity.
    + destruct (unlink_if_exists _ (w_fs w)) as [fs1|e] eqn:H1; simpl; [|discriminate].
      apply unlink_if_exists_gone in H1. destruct H1 as [Hgone1 Hframe1].
      destruct (row_original_file row) as [o|] eqn:Ho; simpl.
      * destruct (String.eqb o ""); simpl.
        -- intros _. split; [apply select_by_id_deleted|].
           split; [intros ? [= <-] _; exact Hgone1|].
           intros q Hq _. apply Hframe1. apply (Hq url). reflexivity.
        -- destruct (unlink_if_exists _ fs1) as [fs2|e] eqn:H2; simpl; [|discriminate].
           intros _. apply unlink_if_exists_gone in H2. destruct H2 as [Hgone2 Hframe2].
           split; [apply select_by_id_deleted|]. split.
           ++ intros ? [= <-] _.
              destruct (String.string_dec (path_join OUTPUT_FOLDER (List.last (Py.split_slash url) ""))
                                      (path_join UPLOAD_FOLDER o)) as [Heq|Hneq].
              ** rewrite Heq. exact Hgone2.
              ** rewrite (Hframe2 _ Hneq). exact Hgone1.
           ++ intros q Hq1 Hq2. rewrite (Hframe2 q (Hq2 o eq_refl)).
              apply Hframe1. apply (Hq1 url). reflexivity.
      * intros _. split; [apply select_by_id_deleted|].
        split; [intros ? [= <-] _; exact Hgone1|].
        intros q Hq _. apply Hframe1. apply (Hq url). reflexivity.
  - destruct (row_original_file row) as [o|] eqn:Ho; simpl.
    + destruct (String.eqb o ""); simpl.
      * intros _. split; [apply select_by_id_deleted|]. split; [discriminate|]. reflexivity.
      * destruct (unlink_if_exists _ (w_fs w)) as [fs2|e] eqn:H2; simpl; [|discriminate].
        intros _. apply unlink_if_exists_gone in H2. destruct H2 as [_ Hframe].
        split; [apply select_by_id_deleted|]. split; [discriminate|].
        intros q _ Hq. apply Hframe. apply (Hq o). reflexivity.
    + intros _. split; [apply select_by_id_deleted|]. split; [discriminate|]. reflexivity.
Qed.

(** C7, at the failing input. The encode job of [report.pdf] completed
    and registered its record, but its upload
    [uploads/uuid0_report.pdf] could not be removed and is retained.
    Deleting the record answers 200, removes the row and the artifact
    [outputs/uuid1_report.mp4]; it looks for the original input at
    [uploads/report.pdf] (the display name stored in [original_file]),
    finds nothing there, and the retained upload stays on disk. *)
Theorem delete_leaves_retained_upload :
  let outcome := delete_file_record "record-1" stuck_world in
  (exists row, select_by_id (w_files stuck_world) "record-1" = Some row
               /\ row_video_url row = Some "/api/download/uuid1_report.mp4"
               /\ row_original_file row = Some "report.pdf")
  /\ et_input_path report_task = "uploads/uuid0_report.pdf"
  /\ w_fs stuck_world !! "uploads/uuid0_report.pdf" = Some (mkFile 100 "ab12")
  /\ resp_code (fst outcome) = 200
  /\ select_by_id (w_files (snd outcome)) "record-1" = None
  /\ w_fs (snd outcome) !! "outputs/uuid1_report.mp4" = None
  /\ w_fs (snd outcome) !! "uploads/uuid0_report.pdf" = Some (mkFile 100 "ab12").
Proof.
  vm_compute. split.
  - eexists. split; [reflexivity|]. split; reflexivity.
  - repeat split; reflexivity.
Qed.

(** ** Running the callbacks of a session *)

Lemma last_cons {A} (x d : A) (l : list A) : List.last (x :: l) d = List.last l x.
Proof.
  revert x d. induction l as [|y l IH]; intros x d; [reflexivity|].
  change (List.last (y :: l) d = List.last (y :: l) x).
  rewrite (IH y d), (IH y x). reflexivity.
Qed.

Lemma last_snoc {A} (x d : A) (l : list A) : List.last (l ++ [x]) d = x.
Proof. apply List.last_last. Qed.

Lemma last_app_default {A} (l l' : list A) (d : A) :
  List.last (l ++ l') d = List.last l' (List.last l d).
Proof.
  revert d. induction l as [|x l IH]; intros d; [reflexivity|].
  change (List.last (x :: (l ++ l')%list) d = List.last l' (List.last (x :: l) d)).
  rewrite !last_cons. apply IH.
Qed.

Lemma callback_values_with_progress p j calls :
  callback_values (with_progress p j) calls = callback_values j calls.
Proof. reflexivity. Qed.

(** The callbacks of a session return normally; each assigns its value,
    and nothing but the job, its history and the log changes. *)
Lemma run_callbacks_run id calls m :
  exists lines,
    run_callbacks (progress_callback id) calls m =
      (Ret tt,
       let cbs := List.map (fun p => with_progress p (m_job m))
                           (callback_values (m_job m) calls) in
       mkMem (List.last cbs (m_job m)) (m_trace m ++ cbs) (m_encoder m) (m_decoder m)
             (m_lib m) (m_fs m) (m_files m) (m_log m ++ lines)).
Proof.
  revert m. induction calls as [|c calls IH]; intros m.
  - exists []. simpl. unfold ret. rewrite !app_nil_r, mem_eta. reflexivity.
  - destruct (callback_wrapper_run id c m) as [line Hc].
    simpl run_callbacks. unfold bind at 1. rewrite Hc.
    unfold callback_values. simpl omap.
    fold (callback_values (m_job m) calls).
    destruct (callback_value (m_job m) c) as [p|];
      match goal with
      | |- context [run_callbacks _ _ ?m1] => destruct (IH m1) as [lines Hrest]
      end;
      exists (line ++ lines)%list; rewrite Hrest; cbv zeta;
      cbn [m_job m_trace m_encoder m_decoder m_lib m_fs m_files m_log List.map];
      f_equal; f_equal.
    + rewrite last_cons. reflexivity.
    + rewrite <- app_assoc. reflexivity.
    + rewrite <- app_assoc. reflexivity.
    + rewrite <- app_assoc. reflexivity.
Qed.

(** ** One codec session *)

Ltac session_steps Hcell id :=
  unfold bind, get_encoder, get_decoder, put_encoder, put_decoder, lib_call, raise, ret;
  cbn [m_job m_trace m_encoder m_decoder m_lib m_fs m_files m_log];
  rewrite Hcell;
  cbn [enc_handle dec_handle Encoder_init Decoder_init enc_width enc_height enc_fps
       enc_chunk_size dec_width dec_height dec_chunk_size default
       m_job m_trace m_encoder m_decoder m_lib m_fs m_files m_log fst snd].

Lemma encoder_session eng inp out id wd ht fps cs m :
  m_encoder m = Some (Encoder_init wd ht fps cs) ->
  exists lines,
    Encoder_encode eng inp out (Some (progress_callback id)) m =
      let create := f2v2f_encode_create (Py.c_uint32 wd) (Py.c_uint32 ht) (Py.c_uint32 fps)
                                        (Py.c_size_t cs) in
      match eng_create eng with
      | None =>
          (Raise (Exn ConfigError "Failed to create encoder"),
           mkMem (m_job m) (m_trace m) (Some (mkEncoder wd ht fps cs None)) (m_decoder m)
                 (m_lib m ++ [create None]) (m_fs m) (m_files m) (m_log m))
      | Some h =>
          (session_result eng,
           after_session m eng out (Some (mkEncoder wd ht fps cs (Some h))) (m_decoder m)
             (m_lib m ++ [create (Some h); f2v2f_encode_file (Some h) inp out]
                    ++ error_calls eng)
             lines)
      end.
Proof.
  intros Hcell.
  unfold Encoder_encode, Encoder_create_handle.
  session_steps Hcell id.
  destruct (eng_create eng) as [h|]; [|exists []; reflexivity].
  cbn [enc_handle]. unfold engine_run, bind, lib_call, ret.
  cbn [m_job m_trace m_encoder m_decoder m_lib m_fs m_files m_log enc_handle].
  match goal with
  | |- context [run_callbacks _ _ ?m1] =>
      destruct (run_callbacks_run id (eng_progress eng) m1) as [lines Hrun]
  end.
  exists lines. rewrite Hrun. cbv zeta.
  cbn [m_job m_trace m_encoder m_decoder m_lib m_fs m_files m_log].
  unfold after_session, session_result, error_calls, _check_error, get_fs, put_fs, bind,
    lib_call, raise, ret.
  destruct (eng_output eng) as [f|];
    cbn [m_job m_trace m_encoder m_decoder m_lib m_fs m_files m_log];
    destruct (Z.eqb (eng_status eng) ErrorCode.SUCCESS);
    try (rewrite <- !app_assoc; rewrite ?app_nil_r; reflexivity);
    destruct (eng_last_error eng) as [decoded|];
    cbn [m_job m_trace m_encoder m_decoder m_lib m_fs m_files m_log default];
    destruct (select_error (eng_status eng) _) as [cls msg];
    cbn [fst snd]; rewrite <- !app_assoc; reflexivity.
Qed.

Lemma decoder_session eng inp out id m :
  m_decoder m = Some (Decoder_init None None None) ->
  exists lines,
    Decoder_decode eng inp out (Some (progress_callback id)) m =
      let create := f2v2f_decode_create_with_params (Py.c_uint32 1920) (Py.c_uint32 1080)
                                                    (Py.c_size_t 4096) in
      match eng_create eng with
      | None =>
          (Raise (Exn ConfigError "Failed to create decoder"),
           mkMem (m_job m) (m_trace m) (m_encoder m) (Some (mkDecoder 1920 1080 4096 None))
                 (m_lib m ++ [create None]) (m_fs m) (m_files m) (m_log m))
      | Some h =>
          (session_result eng,
           after_session m eng out (m_encoder m) (Some (mkDecoder 1920 1080 4096 (Some h)))
             (m_lib m ++ [create (Some h); f2v2f_decode_file (Some h) inp out]
                    ++ error_calls eng)
             lines)
      end.
Proof.
  intros Hcell.
  unfold Decoder_decode, Decoder_create_handle.
  session_steps Hcell id.
  destruct (eng_create eng) as [h|]; [|exists []; reflexivity].
  cbn [dec_handle]. unfold engine_run, bind, lib_call, ret.
  cbn [m_job m_trace m_encoder m_decoder m_lib m_fs m_files m_log dec_handle].
  match goal with
  | |- context [run_callbacks _ _ ?m1] =>
      destruct (run_callbacks_run id (eng_progress eng) m1) as [lines Hrun]
  end.
  exists lines. rewrite Hrun. cbv zeta.
  cbn [m_job m_trace m_encoder m_decoder m_lib m_fs m_files m_log].
  unfold after_session, session_result, error_calls, _check_error, get_fs, put_fs, bind,
    lib_call, raise, ret.
  destruct (eng_output eng) as [f|];
    cbn [m_job m_trace m_encoder m_decoder m_lib m_fs m_files m_log];
    destruct (Z.eqb (eng_status eng) ErrorCode.SUCCESS);
    try (rewrite <- !app_assoc; rewrite ?app_nil_r; reflexivity);
    destruct (eng_last_error eng) as [decoded|];
    cbn [m_job m_trace m_encoder m_decoder m_lib m_fs m_files m_log default];
    destruct (select_error (eng_status eng) _) as [cls msg];
    cbn [fst snd]; rewrite <- !app_assoc; reflexivity.
Qed.

(** ** One run of a worker *)

Ltac mem_simpl :=
  cbn [m_job m_trace m_encoder m_decoder m_lib m_fs m_files m_log fst snd
       worker_start w_fs w_files w_jobs w_uuids].

Ltac run_step :=
  unfold bind, ret, raise, try_except, try_finally, assign, logger, get_job, get_fs, put_fs,
    get_files, put_files, get_encoder, put_encoder, get_decoder, put_decoder, when_,
    removed_by_others, path_stat, path_exists, path_unlink, lib_call;
  mem_simpl.

(** The [finally] clause never raises and changes only the files. *)
Lemma cleanup_input_run env p m :
  exists fs',
    cleanup_input env p m =
      (Ret tt, mkMem (m_job m) (m_trace m) (m_encoder m) (m_decoder m) (m_lib m) fs'
                     (m_files m) (m_log m)).
Proof.
  destruct m as [j tr enc dec lib fs files log].
  unfold cleanup_input, try_except, path_unlink, bind, get_fs, put_fs, raise, ret. simpl.
  destruct (fs !! p); [destruct (env_unlink_fault env)|]; simpl; eexists; reflexivity.
Qed.

(** Leaving the worker destroys the handle of the bound session object,
    if it holds one, and nothing else. *)
Lemma release_locals_run m :
  release_locals m =
    (Ret tt, mkMem (m_job m) (m_trace m) None None
                   (m_lib m ++ frees (m_encoder m) (m_decoder m))
                   (m_fs m) (m_files m) (m_log m)).
Proof.
  destruct m as [j tr [[? ? ? ? [h|]]|] [[? ? ? [h'|]]|] lib fs files log];
    unfold release_locals, Encoder_del, Decoder_del, frees, bind, get_encoder, put_encoder,
      get_decoder, put_decoder, lib_call, ret; simpl;
    rewrite <- ?app_assoc, ?app_nil_r; reflexivity.
Qed.

Lemma job_failed_run id e m :
  job_failed id e m =
    (Ret tt, mkMem (with_error_message (exn_msg e) (with_status FAILED (m_job m)))
                   (m_trace m ++ failed (m_job m) (exn_msg e))
                   (m_encoder m) (m_decoder m) (m_lib m) (m_fs m) (m_files m)
                   (m_log m ++ [(ERROR, "Job " ++ id ++ " failed: " ++ exn_msg e)])).
Proof.
  destruct m as [j tr enc dec lib fs files log].
  unfold job_failed, failed, bind, assign, logger. simpl.
  rewrite <- app_assoc. reflexivity.
Qed.

(** What surrounds the [try] body of a worker, whatever that body is:
    an exception becomes the two assignments of the [except] clause, the
    [finally] clause touches files only, and the handle is destroyed on
    the way out. *)
Lemma worker_frame (body : M unit) id env input m :
  let out := (try_finally (try_except body (job_failed id)) (cleanup_input env input) ;;
              release_locals) m in
  let r1 := fst (body m) in
  let m1 := snd (body m) in
  fst out = Ret tt
  /\ m_trace (snd out) =
       (m_trace m1 ++ match r1 with
                      | Raise e => failed (m_job m1) (exn_msg e)
                      | Ret _ => []
                      end)%list
  /\ m_job (snd out) =
       match r1 with
       | Raise e => with_error_message (exn_msg e) (with_status FAILED (m_job m1))
       | Ret _ => m_job m1
       end
  /\ m_lib (snd out) = (m_lib m1 ++ frees (m_encoder m1) (m_decoder m1))%list
  /\ m_encoder (snd out) = None /\ m_decoder (snd out) = None
  /\ m_files (snd out) = m_files m1.
Proof.
  cbv zeta. unfold bind, try_finally, try_except. cbv beta.
  destruct (body m) as [[[]|e] m1]; cbn [fst snd].
  - destruct (cleanup_input_run env input m1) as [fs' ->].
    rewrite release_locals_run. mem_simpl. rewrite app_nil_r. repeat split; reflexivity.
  - rewrite job_failed_run.
    match goal with
    | |- context [cleanup_input env input ?m2] =>
        destruct (cleanup_input_run env input m2) as [fs' ->]
    end.
    rewrite release_locals_run. mem_simpl. repeat split; reflexivity.
Qed.

(** The registry step with its handler never raises; it leaves the job,
    its history, the session object and the library alone. When the step
    fails, no row is added and one warning is logged. *)
Lemma encode_bookkeeping_run t env m :
  exists files' lines,
    encode_bookkeeping t env m =
      (Ret tt, mkMem (m_job m) (m_trace m) (m_encoder m) (m_decoder m) (m_lib m)
                     (if env_output_lost_before_registry env
                      then delete (et_output_path t) (m_fs m) else m_fs m)
                     files' (m_log m ++ lines))
    /\ forall e, fst (encode_registry t env m) = Raise e ->
                 files' = m_files m
                 /\ lines = [(WARNING, "Could not add to registry: " ++ exn_msg e)].
Proof.
  destruct m as [j tr enc dec lib fs files log].
  unfold encode_bookkeeping, encode_registry, db_insert, try_except, removed_by_others, when_,
    path_stat, bind, get_fs, put_fs, get_files, put_files, logger, raise, ret.
  destruct (env_output_lost_before_registry env); simpl.
  - rewrite lookup_delete_eq. simpl. do 2 eexists. split; [reflexivity|].
    intros e [= <-]. split; reflexivity.
  - destruct (fs !! et_output_path t) as [st|]; simpl.
    + destruct (env_db_fault env) as [msg|]; simpl.
      * do 2 eexists. split; [reflexivity|]. intros e [= <-]. split; reflexivity.
      * destruct (existsb _ files); simpl.
        -- do 2 eexists. split; [reflexivity|]. intros e [= <-]. split; reflexivity.
        -- do 2 eexists. split; [reflexivity|]. intros e [=].
    + do 2 eexists. split; [reflexivity|]. intros e [= <-]. split; reflexivity.
Qed.

Lemma decode_bookkeeping_run t env m :
  exists files' lines,
    decode_bookkeeping t env m =
      (Ret tt, mkMem (m_job m) (m_trace m) (m_encoder m) (m_decoder m) (m_lib m)
                     (if env_output_lost_before_registry env
                      then delete (dt_output_path t) (m_fs m) else m_fs m)
                     files' (m_log m ++ lines))
    /\ forall e, fst (decode_registry t env m) = Raise e ->
                 files' = m_files m
                 /\ lines = [(WARNING, "Could not add to registry: " ++ exn_msg e)].
Proof.
  destruct m as [j tr enc dec lib fs files log].
  unfold decode_bookkeeping, decode_registry, db_insert, try_except, removed_by_others, when_,
    path_stat, bind, get_fs, put_fs, get_files, put_files, logger, raise, ret.
  destruct (env_output_lost_before_registry env); simpl.
  - rewrite lookup_delete_eq. simpl. do 2 eexists. split; [reflexivity|].
    intros e [= <-]. split; reflexivity.
  - destruct (fs !! dt_output_path t) as [st|]; simpl.
    + destruct (env_db_fault env) as [msg|]; simpl.
      * do 2 eexists. split; [reflexivity|]. intros e [= <-]. split; reflexivity.
      * destruct (existsb _ files); simpl.
        -- do 2 eexists. split; [reflexivity|]. intros e [= <-]. split; reflexivity.
        -- do 2 eexists. split; [reflexivity|]. intros e [=].
    + do 2 eexists. split; [reflexivity|]. intros e [= <-]. split; reflexivity.
Qed.

(** The closing log statement raises exactly when the output file is no
    longer there. *)
Lemma log_completed_run env id out m :
  let fs' := if env_output_lost_before_log env then delete out (m_fs m) else m_fs m in
  exists lines,
    log_completed env id out m =
      (match fs' !! out with
       | Some _ => Ret tt
       | None => Raise (Exn OSError (no_such_file out))
       end,
       mkMem (m_job m) (m_trace m) (m_encoder m) (m_decoder m) (m_lib m) fs' (m_files m)
             (m_log m ++ lines)).
Proof.
  destruct m as [j tr enc dec lib fs files log].
  unfold log_completed, removed_by_others, when_, path_stat, bind, get_fs, put_fs, logger,
    raise, ret, no_such_file.
  destruct (env_output_lost_before_log env); simpl.
  - rewrite lookup_delete_eq. simpl. exists []. rewrite app_nil_r. reflexivity.
  - destruct (fs !! out); simpl; [eexists; reflexivity|].
    exists []. rewrite app_nil_r. reflexivity.
Qed.

(** What follows a session that returned normally, for any registry block
    [book] that keeps to its frame. *)
Lemma completion_tail (book : M unit) env id out name missing m :
  (forall m', exists files' lines,
      book m' = (Ret tt, mkMem (m_job m') (m_trace m') (m_encoder m') (m_decoder m') (m_lib m')
                               (if env_output_lost_before_registry env
                                then delete out (m_fs m') else m_fs m')
                               files' (m_log m' ++ lines))) ->
  let c := (created <- path_exists out ;;
            if negb created
            then raise (Exn RuntimeError (missing ++ out))
            else
              assign (with_status COMPLETED) ;;
              assign (with_progress 100) ;;
              assign (with_result_url ("/api/download/" ++ name)) ;;
              book ;;
              log_completed env id out) in
  let r := fst (c m) in
  let m1 := snd (c m) in
  let jc := with_status COMPLETED (m_job m) in
  let j100 := with_progress 100 jc in
  let ju := with_result_url ("/api/download/" ++ name) j100 in
  (m_trace m1 ++ match r with
                 | Raise e => failed (m_job m1) (exn_msg e)
                 | Ret _ => []
                 end
   = m_trace m ++
     if negb (bool_decide (is_Some (m_fs m !! out)))
     then failed (m_job m) (missing ++ out)
     else [jc; j100; ju] ++ if output_kept env then [] else failed ju (no_such_file out))%list
  /\ m_lib m1 = m_lib m /\ m_encoder m1 = m_encoder m /\ m_decoder m1 = m_decoder m
  /\ (forall d, m_job m = List.last (m_trace m) d -> m_job m1 = List.last (m_trace m1) d).
Proof.
  intros Hbook. destruct m as [j tr enc dec lib fs files log].
  cbv zeta. unfold bind at 1. unfold path_exists, bind, get_fs, ret. simpl.
  destruct (fs !! out) as [st|] eqn:Hout.
  - rewrite bool_decide_eq_true_2 by (eexists; reflexivity). simpl.
    unfold assign. simpl.
    match goal with
    | |- context [book ?m'] => destruct (Hbook m') as (files' & lines & ->)
    end. simpl.
    match goal with
    | |- context [log_completed env id out ?m'] =>
        destruct (log_completed_run env id out m') as [lines' ->]
    end. simpl.
    unfold output_kept.
    assert (Hlast : forall d,
               with_result_url ("/api/download/" ++ name)
                 (with_progress 100 (with_status COMPLETED j))
               = List.last (((tr ++ [with_status COMPLETED j])
                             ++ [with_progress 100 (with_status COMPLETED j)])
                            ++ [with_result_url ("/api/download/" ++ name)
                                  (with_progress 100 (with_status COMPLETED j))]) d).
    { intros d. rewrite last_snoc. reflexivity. }
    destruct (env_output_lost_before_registry env), (env_output_lost_before_log env); simpl;
      rewrite ?lookup_delete_eq, ?Hout; simpl;
      (split; [rewrite <- ?app_assoc, ?app_nil_r; reflexivity|]);
      repeat (split; [reflexivity|]); intros d _; apply Hlast.
  - rewrite bool_decide_eq_false_2 by (intros [? ?]; discriminate). simpl.
    unfold raise. simpl. repeat (split; [reflexivity|]). intros d Hd. exact Hd.
Qed.

(** *** Stepping through a worker *)

Lemma bind_run {A B} (c : M A) (k : A -> M B) m :
  bind c k m = match c m with
               | (Ret a, m') => k a m'
               | (Raise e, m') => (Raise e, m')
               end.
Proof. reflexivity. Qed.

Lemma assign_run f m :
  assign f m = (Ret tt, mkMem (f (m_job m)) (m_trace m ++ [f (m_job m)]) (m_encoder m)
                              (m_decoder m) (m_lib m) (m_fs m) (m_files m) (m_log m)).
Proof. reflexivity. Qed.

Lemma logger_run lvl msg m :
  logger lvl msg m = (Ret tt, mkMem (m_job m) (m_trace m) (m_encoder m) (m_decoder m)
                                    (m_lib m) (m_fs m) (m_files m) (m_log m ++ [(lvl, msg)])).
Proof. reflexivity. Qed.

Lemma put_encoder_run e m :
  put_encoder e m = (Ret tt, mkMem (m_job m) (m_trace m) e (m_decoder m)
                                   (m_lib m) (m_fs m) (m_files m) (m_log m)).
Proof. reflexivity. Qed.

Lemma put_decoder_run d m :
  put_decoder d m = (Ret tt, mkMem (m_job m) (m_trace m) (m_encoder m) d
                                   (m_lib m) (m_fs m) (m_files m) (m_log m)).
Proof. reflexivity. Qed.

Lemma removed_by_others_run b p m :
  removed_by_others b p m =
    (Ret tt, mkMem (m_job m) (m_trace m) (m_encoder m) (m_decoder m) (m_lib m)
                   (if b then delete p (m_fs m) else m_fs m) (m_files m) (m_log m)).
Proof. destruct m, b; reflexivity. Qed.

Lemma path_stat_run p m :
  path_stat p m = match m_fs m !! p with
                  | Some f => (Ret f, m)
                  | None => (Raise (Exn OSError (no_such_file p)), m)
                  end.
Proof.
  unfold path_stat, bind, get_fs, raise, ret, no_such_file.
  destruct (m_fs m !! p); reflexivity.
Qed.

Ltac step L := rewrite bind_run; rewrite L; cbv beta iota; mem_simpl.

Lemma encode_try_run (t : EncodeTask) (env : Env) (w : World) :
  let m0 := snd (assign (with_status RUNNING) (worker_start (et_job t) w)) in
  let r := fst (encode_try t env m0) in
  let m1 := snd (encode_try t env m0) in
  (m_trace m1 ++ match r with
                 | Raise e => failed (m_job m1) (exn_msg e)
                 | Ret _ => []
                 end)%list
  = worker_trace (et_job t) (et_input_path t) (et_output_path t) (et_output_name t)
      "Failed to create encoder" "Encoder did not create output file: " env w
  /\ (m_lib m1 ++ frees (m_encoder m1) (m_decoder m1))%list
     = worker_calls
         (f2v2f_encode_create (Py.c_uint32 (et_width t)) (Py.c_uint32 (et_height t))
                              (Py.c_uint32 (et_fps t)) (Py.c_size_t (et_chunk_size t)))
         (fun h => f2v2f_encode_file h (et_input_path t) (et_output_path t))
         f2v2f_encode_free (et_input_path t) env w
  /\ m_job m1 = List.last (m_trace m1) (et_job t).
Proof.
  cbv zeta. rewrite assign_run. mem_simpl.
  unfold encode_try, worker_trace, worker_calls, input_found. cbv zeta.
  step removed_by_others_run. step path_stat_run.
  destruct (env_input_lost env).
  - rewrite lookup_delete_eq. mem_simpl. repeat split; reflexivity.
  - destruct (w_fs w !! et_input_path t) as [f|] eqn:Hin; mem_simpl;
      [|repeat split; reflexivity].
    step assign_run. step logger_run. step put_encoder_run.
    rewrite bind_run.
    match goal with
    | |- context [Encoder_encode ?eng ?i ?o (Some (progress_callback ?id)) ?m] =>
        destruct (encoder_session eng i o id (et_width t) (et_height t) (et_fps t)
                    (et_chunk_size t) m eq_refl) as [lines ->]
    end.
    cbv zeta. mem_simpl.
    destruct (eng_create (env_engine env)) as [h|]; mem_simpl;
      [|split; [|split]; cbn [frees enc_handle]; rewrite <- ?app_assoc; reflexivity].
    unfold session_result, error_calls.
    destruct (Z.eqb (eng_status (env_engine env)) ErrorCode.SUCCESS) eqn:Hok;
      cbn [negb]; cbv beta iota.
    + match goal with
      | |- context [bind (path_exists ?o) ?k ?m] =>
          pose proof (completion_tail (encode_bookkeeping t env) env (job_id (et_job t))
                        (et_output_path t) (et_output_name t)
                        "Encoder did not create output file: " m) as Htail
      end.
      cbv zeta in Htail.
      destruct Htail as (Htr & Hlib & Henc & Hdec & Hsync).
      { intros m'. destruct (encode_bookkeeping_run t env m') as (files' & lines' & H & _).
        exists files', lines'. exact H. }
      rewrite Htr, Hlib, Henc, Hdec. unfold after_session, fs_after_engine. mem_simpl.
      split; [|split].
      * rewrite <- !app_assoc. reflexivity.
      * cbn [frees enc_handle]. rewrite <- !app_assoc, ?app_nil_r. reflexivity.
      * apply Hsync. unfold after_session. mem_simpl.
        rewrite last_app_default, last_snoc. reflexivity.
    + unfold after_session. mem_simpl. split; [|split].
      * rewrite <- !app_assoc. reflexivity.
      * cbn [frees enc_handle]. rewrite <- !app_assoc. reflexivity.
      * rewrite last_app_default, last_snoc. reflexivity.
Qed.

Lemma decode_try_run (t : DecodeTask) (env : Env) (w : World) :
  let m0 := snd (assign (with_status RUNNING) (worker_start (dt_job t) w)) in
  let r := fst (decode_try t env m0) in
  let m1 := snd (decode_try t env m0) in
  (m_trace m1 ++ match r with
                 | Raise e => failed (m_job m1) (exn_msg e)
                 | Ret _ => []
                 end)%list
  = worker_trace (dt_job t) (dt_input_path t) (dt_output_path t) (dt_output_name t)
      "Failed to create decoder" "Decoder did not create output file: " env w
  /\ (m_lib m1 ++ frees (m_encoder m1) (m_decoder m1))%list
     = worker_calls
         (f2v2f_decode_create_with_params (Py.c_uint32 1920) (Py.c_uint32 1080)
                                          (Py.c_size_t 4096))
         (fun h => f2v2f_decode_file h (dt_input_path t) (dt_output_path t))
         f2v2f_decode_free (dt_input_path t) env w
  /\ m_job m1 = List.last (m_trace m1) (dt_job t).
Proof.
  cbv zeta. rewrite assign_run. mem_simpl.
  unfold decode_try, worker_trace, worker_calls, input_found. cbv zeta.
  step removed_by_others_run. step path_stat_run.
  destruct (env_input_lost env).
  - rewrite lookup_delete_eq. mem_simpl. repeat split; reflexivity.
  - destruct (w_fs w !! dt_input_path t) as [f|] eqn:Hin; mem_simpl;
      [|repeat split; reflexivity].
    step assign_run. step logger_run. step put_decoder_run.
    rewrite bind_run.
    match goal with
    | |- context [Decoder_decode ?eng ?i ?o (Some (progress_callback ?id)) ?m] =>
        destruct (decoder_session eng i o id m eq_refl) as [lines ->]
    end.
    cbv zeta. mem_simpl.
    destruct (eng_create (env_engine env)) as [h|]; mem_simpl;
      [|split; [|split]; cbn [frees dec_handle]; rewrite <- ?app_assoc; reflexivity].
    unfold session_result, error_calls.
    destruct (Z.eqb (eng_status (env_engine env)) ErrorCode.SUCCESS) eqn:Hok;
      cbn [negb]; cbv beta iota.
    + match goal with
      | |- context [bind (path_exists ?o) ?k ?m] =>
          pose proof (completion_tail (decode_bookkeeping t env) env (job_id (dt_job t))
                        (dt_output_path t) (dt_output_name t)
                        "Decoder did not create output file: " m) as Htail
      end.
      cbv zeta in Htail.
      destruct Htail as (Htr & Hlib & Henc & Hdec & Hsync).
      { intros m'. destruct (decode_bookkeeping_run t env m') as (files' & lines' & H & _).
        exists files', lines'. exact H. }
      rewrite Htr, Hlib, Henc, Hdec. unfold after_session, fs_after_engine. mem_simpl.
      split; [|split].
      * rewrite <- !app_assoc. reflexivity.
      * cbn [frees dec_handle]. rewrite <- !app_assoc, ?app_nil_r. reflexivity.
      * apply Hsync. unfold after_session. mem_simpl.
        rewrite last_app_default, last_snoc. reflexivity.
    + unfold after_session. mem_simpl. split; [|split].
      * rewrite <- !app_assoc. reflexivity.
      * cbn [frees dec_handle]. rewrite <- !app_assoc. reflexivity.
      * rewrite last_app_default, last_snoc. reflexivity.
Qed.

(** The job's history, the library calls and the final job of one encode
    run, in closed form. *)
Lemma encode_run_summary (t : EncodeTask) (env : Env) (w : World) :
  let m := run_encode t env w in
  m_trace m = worker_trace (et_job t) (et_input_path t) (et_output_path t) (et_output_name t)
                "Failed to create encoder" "Encoder did not create output file: " env w
  /\ m_lib m = worker_calls
                 (f2v2f_encode_create (Py.c_uint32 (et_width t)) (Py.c_uint32 (et_height t))
                                      (Py.c_uint32 (et_fps t)) (Py.c_size_t (et_chunk_size t)))
                 (fun h => f2v2f_encode_file h (et_input_path t) (et_output_path t))
                 f2v2f_encode_free (et_input_path t) env w
  /\ m_job m = List.last (m_trace m) (et_job t).
Proof.
  cbv zeta. unfold run_encode, encode_task. rewrite bind_run, assign_run. cbv beta iota.
  pose proof (encode_try_run t env w) as Htry. cbv zeta in Htry. rewrite assign_run in Htry.
  cbn [snd] in Htry. destruct Htry as (Htr & Hlib & Hsync).
  match goal with
  | |- context [(try_finally (try_except ?b (job_failed ?id)) (cleanup_input env ?i) ;;
                 release_locals) ?m] =>
      pose proof (worker_frame b id env i m) as Hframe
  end.
  cbv zeta in Hframe. destruct Hframe as (_ & Ftr & Fjob & Flib & _).
  rewrite Ftr, Fjob, Flib, Htr, Hlib. split; [reflexivity|]. split; [reflexivity|].
  rewrite <- Htr.
  destruct (fst (encode_try t env _)) as [[]|e].
  - rewrite app_nil_r. exact Hsync.
  - unfold failed. rewrite last_app_default. reflexivity.
Qed.

(** The same for one decode run. *)
Lemma decode_run_summary (t : DecodeTask) (env : Env) (w : World) :
  let m := run_decode t env w in
  m_trace m = worker_trace (dt_job t) (dt_input_path t) (dt_output_path t) (dt_output_name t)
                "Failed to create decoder" "Decoder did not create output file: " env w
  /\ m_lib m = worker_calls
                 (f2v2f_decode_create_with_params (Py.c_uint32 1920) (Py.c_uint32 1080)
                                                  (Py.c_size_t 4096))
                 (fun h => f2v2f_decode_file h (dt_input_path t) (dt_output_path t))
                 f2v2f_decode_free (dt_input_path t) env w
  /\ m_job m = List.last (m_trace m) (dt_job t).
Proof.
  cbv zeta. unfold run_decode, decode_task. rewrite bind_run, assign_run. cbv beta iota.
  pose proof (decode_try_run t env w) as Htry. cbv zeta in Htry. rewrite assign_run in Htry.
  cbn [snd] in Htry. destruct Htry as (Htr & Hlib & Hsync).
  match goal with
  | |- context [(try_finally (try_except ?b (job_failed ?id)) (cleanup_input env ?i) ;;
                 release_locals) ?m] =>
      pose proof (worker_frame b id env i m) as Hframe
  end.
  cbv zeta in Hframe. destruct Hframe as (_ & Ftr & Fjob & Flib & _).
  rewrite Ftr, Fjob, Flib, Htr, Hlib. split; [reflexivity|]. split; [reflexivity|].
  rewrite <- Htr.
  destruct (fst (decode_try t env _)) as [[]|e].
  - rewrite app_nil_r. exact Hsync.
  - unfold failed. rewrite last_app_default. reflexivity.
Qed.

(** ** The codec handle *)

Lemma worker_calls_discipline create run free input_path env w :
  (forall r, is_create (create r) = true /\ is_destroy (create r) = false
             /\ handle_step NoHandle (create r)
                = Some match r with Some h => Live h | None => NoHandle end) ->
  (forall h h0, is_create (run (Some h)) = false /\ is_destroy (run (Some h)) = false
                /\ handle_step (Live h0) (run (Some h))
                   = if Z.eqb h0 h then Some (Live h0) else None) ->
  (forall h h0, is_create (free h) = false /\ is_destroy (free h) = true
                /\ handle_step (Live h0) (free h)
                   = if Z.eqb h0 h then Some Destroyed else None) ->
  let calls := worker_calls create run free input_path env w in
  handle_discipline calls
  /\ (input_found input_path env w = None -> calls = [])
  /\ (forall f h, input_found input_path env w = Some f ->
                  eng_create (env_engine env) = Some h ->
                  one_create_one_destroy calls
                  /\ handle_run NoHandle calls = Some Destroyed
                  /\ List.last calls f2v2f_get_last_error = free h).
Proof.
  intros Hcreate Hrun Hfree. cbv zeta. unfold worker_calls, handle_discipline,
    one_create_one_destroy, creates, destroys.
  destruct (input_found input_path env w) as [f|].
  2:{ split; [left; repeat split; simpl; lia|]. split; [reflexivity|]. discriminate. }
  destruct (eng_create (env_engine env)) as [h|].
  2:{ destruct (Hcreate None) as (Hc & Hd & Hs).
      split; [|split; [discriminate|discriminate]].
      left. simpl. rewrite Hs, Hc, Hd. simpl. repeat split; lia. }
  destruct (Hcreate (Some h)) as (Hc & Hd & Hs).
  destruct (Hrun h h) as (Rc & Rd & Rs). rewrite Z.eqb_refl in Rs.
  destruct (Hfree h h) as (Fc & Fd & Fs). rewrite Z.eqb_refl in Fs.
  assert (Hall : handle_run NoHandle
                   ([create (Some h); run (Some h)]
                    ++ (if Z.eqb (eng_status (env_engine env)) ErrorCode.SUCCESS then []
                        else f2v2f_get_last_error
                             :: match eng_last_error (env_engine env) with
                                | Some _ => [f2v2f_free_string]
                                | None => []
                                end) ++ [free h]) = Some Destroyed
                 /\ List.length (List.filter is_create
                      ([create (Some h); run (Some h)]
                       ++ (if Z.eqb (eng_status (env_engine env)) ErrorCode.SUCCESS then []
                           else f2v2f_get_last_error
                                :: match eng_last_error (env_engine env) with
                                   | Some _ => [f2v2f_free_string]
                                   | None => []
                                   end) ++ [free h])) = 1%nat
                 /\ List.length (List.filter is_destroy
                      ([create (Some h); run (Some h)]
                       ++ (if Z.eqb (eng_status (env_engine env)) ErrorCode.SUCCESS then []
                           else f2v2f_get_last_error
                                :: match eng_last_error (env_engine env) with
                                   | Some _ => [f2v2f_free_string]
                                   | None => []
                                   end) ++ [free h])) = 1%nat).
  { destruct (Z.eqb (eng_status (env_engine env)) ErrorCode.SUCCESS);
      [|destruct (eng_last_error (env_engine env))]; simpl;
      rewrite Hs, Hc, Hd; simpl; rewrite Rs, Rc, Rd; simpl; rewrite Fs, Fc, Fd; simpl;
      repeat split; reflexivity. }
  destruct Hall as (Hr & Hcs & Hds).
  split; [right; repeat split; assumption|]. split; [discriminate|].
  intros f' h' _ [= <-]. split; [split; assumption|]. split; [exact Hr|].
  rewrite app_assoc. apply last_snoc.
Qed.

(** C8 (as amended). In every run of a worker, whatever its outcome, at
    most one handle is created; a handle that was created is used only
    while live and is destroyed exactly once, by the last call made on it,
    before the worker returns. When the worker faults before the engine
    has returned a handle (its input is gone, or the engine returns NULL),
    no handle exists and none is destroyed; whenever the engine returns a
    handle there is exactly one create and exactly one destroy. *)
Theorem handle_created_and_destroyed_once (t : EncodeTask) (dt : DecodeTask) (env : Env)
    (w : World) :
  let enc_calls := m_lib (run_encode t env w) in
  let dec_calls := m_lib (run_decode dt env w) in
  handle_discipline enc_calls
  /\ handle_discipline dec_calls
  /\ (input_found (et_input_path t) env w = None -> enc_calls = [])
  /\ (input_found (dt_input_path dt) env w = None -> dec_calls = [])
  /\ (forall f h, input_found (et_input_path t) env w = Some f ->
                  eng_create (env_engine env) = Some h ->
                  one_create_one_destroy enc_calls
                  /\ handle_run NoHandle enc_calls = Some Destroyed
                  /\ List.last enc_calls f2v2f_get_last_error = f2v2f_encode_free h)
  /\ (forall f h, input_found (dt_input_path dt) env w = Some f ->
                  eng_create (env_engine env) = Some h ->
                  one_create_one_destroy dec_calls
                  /\ handle_run NoHandle dec_calls = Some Destroyed
                  /\ List.last dec_calls f2v2f_get_last_error = f2v2f_decode_free h).
Proof.
  cbv zeta.
  destruct (encode_run_summary t env w) as (_ & -> & _).
  destruct (decode_run_summary dt env w) as (_ & -> & _).
  match goal with
  | |- handle_discipline (worker_calls ?c ?r ?f ?i env w) /\ _ =>
      pose proof (worker_calls_discipline c r f i env w) as He
  end.
  match goal with
  | |- _ /\ handle_discipline (worker_calls ?c ?r ?f ?i env w) /\ _ =>
      pose proof (worker_calls_discipline c r f i env w) as Hd
  end.
  cbv zeta in He, Hd.
  destruct He as (He1 & He2 & He3).
  { intros [h|]; repeat split; reflexivity. }
  { intros h h0. repeat split; reflexivity. }
  { intros h h0. repeat split; reflexivity. }
  destruct Hd as (Hd1 & Hd2 & Hd3).
  { intros [h|]; repeat split; reflexivity. }
  { intros h h0. repeat split; reflexivity. }
  { intros h h0. repeat split; reflexivity. }
  split; [exact He1|]. split; [exact Hd1|]. split; [exact He2|]. split; [exact Hd2|].
  split; [exact He3|exact Hd3].
Qed.

Lemma handle_created_and_destroyed_once_witness :
  one_create_one_destroy (m_lib (run_encode report_task (calm quiet_engine) report_world)).
Proof.
  pose proof (handle_created_and_destroyed_once report_task stray_task (calm quiet_engine)
                report_world) as H.
  cbv zeta in H. destruct H as (_ & _ & _ & _ & Henc & _).
  destruct (Henc (mkFile 100 "ab12") 1) as (Hone & _ & _).
  - vm_compute. reflexivity.
  - reflexivity.
  - exact Hone.
Defined.

(** C8 (as stated) does not hold: a job that faults because its upload is
    gone ends Failed without any handle having been created, so there is
    neither one create nor one destroy. *)
Lemma faulted_job_creates_no_handle :
  let m := run_encode report_task input_gone report_world in
  status (m_job m) = FAILED
  /\ m_lib m = []
  /\ ~ one_create_one_destroy (m_lib m).
Proof.
  vm_compute. split; [reflexivity|]. split; [reflexivity|].
  intros [H _]. discriminate H.
Qed.

(** ** The decoder session *)

Lemma decode_video_started secure_filename uuid_of seen db_fault req w resp w' t :
  decode_video secure_filename uuid_of seen db_fault req w = (resp, w', Some t) ->
  exists content, w_fs w' !! dt_input_path t = Some content.
Proof.
  unfold decode_video.
  destruct (multi_get (req_files req) "file") as [file|]; [|discriminate].
  destruct (String.eqb (up_filename file) ""); [discriminate|].
  simpl. intros [= _ <- <-]. simpl. eexists. apply lookup_insert_eq.
Qed.

(** C9. Every decode job that [decode_video] starts, whatever the request
    carries in its form fields and whatever the registry holds, opens its
    decoder session with width 1920, height 1080 and chunk size 4096: no
    other create call is made, and unless the upload disappears first
    this create call is the first call into the library. *)
Theorem decode_session_parameters (secure_filename : string -> string)
    (uuid_of : nat -> string) (seen : JobStatus) (db_fault : bool) (req : Request)
    (w : World) (env : Env)
    (resp : Response) (w' : World) (t : DecodeTask) :
  decode_video secure_filename uuid_of seen db_fault req w = (resp, w', Some t) ->
  let calls := m_lib (run_decode t env w') in
  (forall c, In c calls -> is_create c = true ->
             c = f2v2f_decode_create_with_params 1920 1080 4096 (eng_create (env_engine env)))
  /\ (env_input_lost env = false ->
      List.head calls
      = Some (f2v2f_decode_create_with_params 1920 1080 4096 (eng_create (env_engine env)))).
Proof.
  intros Hstart. cbv zeta.
  destruct (decode_video_started _ _ _ _ _ _ _ _ _ Hstart) as [content Hin].
  destruct (decode_run_summary t env w') as (_ & -> & _).
  unfold worker_calls, input_found. split.
  - intros c Hc Hcreate.
    destruct (env_input_lost env); [destruct Hc|].
    rewrite Hin in Hc.
    destruct (eng_create (env_engine env)) as [h|];
      [destruct (Z.eqb (eng_status (env_engine env)) ErrorCode.SUCCESS);
       [|destruct (eng_last_error (env_engine env))]|];
      simpl in Hc;
      repeat (destruct Hc as [<-|Hc]; [first [reflexivity|discriminate]|]);
      destruct Hc.
  - intros ->. rewrite Hin. destruct (eng_create (env_engine env)); reflexivity.
Qed.

Lemma decode_session_parameters_witness :
  multi_get (req_form small_decode_request) "chunk_size" = Some "65536"
  /\ et_chunk_size small_task = 65536
  /\ List.head (m_lib (run_decode (task_of small_decode_submission no_decode_task)
                         (calm quiet_engine) (world_of small_decode_submission)))
     = Some (f2v2f_decode_create_with_params 1920 1080 4096 (Some 1)).
Proof.
  split; [reflexivity|]. split; [reflexivity|].
  apply (decode_session_parameters secure_filename_ascii uuid_sample PENDING false
           small_decode_request small_world (calm quiet_engine)
           (fst (fst small_decode_submission)) (world_of small_decode_submission)
           (task_of small_decode_submission no_decode_task)).
  - reflexivity.
  - reflexivity.
Defined.

(** ** Failures of the registry step *)

Lemma callback_jobs_status (j : Job) (vals : list Z) (s : JobStatus) :
  In s (List.map status (List.map (fun p => with_progress p j) vals)) -> s = status j.
Proof.
  induction vals as [|p vals IH]; simpl; [tauto|].
  intros [<-|H]; [reflexivity|exact (IH H)].
Qed.

(** A worker that started from a Pending job and went through the
    Completed transition ends Completed, with progress 100 and the result
    url set, provided the output file is still in place at the end. *)
Lemma worker_trace_completed j0 input_path output_path output_name create_msg missing_msg
    env w :
  status j0 = PENDING ->
  let tr := worker_trace j0 input_path output_path output_name create_msg missing_msg env w in
  marked_completed tr ->
  output_kept env = true ->
  status (List.last tr j0) = COMPLETED
  /\ progress (List.last tr j0) = 100
  /\ result_url (List.last tr j0) = Some ("/api/download/" ++ output_name).
Proof.
  intros Hpending. cbv zeta. unfold marked_completed, worker_trace, failed.
  destruct (input_found input_path env w) as [f|].
  2:{ simpl. rewrite Hpending. intuition discriminate. }
  destruct (eng_create (env_engine env)) as [h|].
  2:{ simpl. rewrite Hpending. intuition discriminate. }
  set (jt := with_total_size (st_size f) (with_status RUNNING j0)).
  set (vals := callback_values jt (eng_progress (env_engine env))).
  assert (Hcbs : forall s, In s (List.map status (List.map (fun p => with_progress p jt) vals))
                           -> s = RUNNING).
  { intros s Hs. apply callback_jobs_status in Hs. exact Hs. }
  destruct (negb (Z.eqb (eng_status (env_engine env)) ErrorCode.SUCCESS)).
  { rewrite !List.map_app, !List.in_app_iff. simpl. rewrite Hpending.
    intros [H|[H|H]]; [intuition discriminate| apply Hcbs in H; discriminate
                       | intuition discriminate]. }
  destruct (negb (bool_decide (is_Some (fs_after_engine output_path env w !! output_path)))).
  { rewrite !List.map_app, !List.in_app_iff. simpl. rewrite Hpending.
    intros [H|[H|H]]; [intuition discriminate| apply Hcbs in H; discriminate
                       | intuition discriminate]. }
  intros _ ->. rewrite app_nil_r.
  rewrite !last_app_default. simpl. repeat split; reflexivity.
Qed.

(** The registry step of a worker, together with its handler, never
    raises, and leaves the job and its history exactly as they were; if
    the step failed, no record is added and the warning "Could not add to
    registry: ..." is logged. Hence a job that has been marked Completed
    is not flipped by a failing registry step as long as the output file
    stays in place: the run then ends with the job Completed, progress
    100 and the result url set, whatever the database answered. *)
Theorem registry_failure_swallowed (t : EncodeTask) (dt : DecodeTask) (env : Env) :
  (forall m,
      let out := encode_bookkeeping t env m in
      fst out = Ret tt /\ m_job (snd out) = m_job m /\ m_trace (snd out) = m_trace m
      /\ forall e, fst (encode_registry t env m) = Raise e ->
                   m_files (snd out) = m_files m
                   /\ In (WARNING, "Could not add to registry: " ++ exn_msg e)
                         (m_log (snd out)))
  /\ (forall m,
        let out := decode_bookkeeping dt env m in
        fst out = Ret tt /\ m_job (snd out) = m_job m /\ m_trace (snd out) = m_trace m
        /\ forall e, fst (decode_registry dt env m) = Raise e ->
                     m_files (snd out) = m_files m
                     /\ In (WARNING, "Could not add to registry: " ++ exn_msg e)
                           (m_log (snd out)))
  /\ (forall w,
        let m := run_encode t env w in
        status (et_job t) = PENDING ->
        marked_completed (m_trace m) ->
        output_kept env = true ->
        status (m_job m) = COMPLETED /\ progress (m_job m) = 100
        /\ result_url (m_job m) = Some ("/api/download/" ++ et_output_name t))
  /\ (forall w,
        let m := run_decode dt env w in
        status (dt_job dt) = PENDING ->
        marked_completed (m_trace m) ->
        output_kept env = true ->
        status (m_job m) = COMPLETED /\ progress (m_job m) = 100
        /\ result_url (m_job m) = Some ("/api/download/" ++ dt_output_name dt)).
Proof.
  split; [|split; [|split]].
  - intros m. cbv zeta.
    destruct (encode_bookkeeping_run t env m) as (files' & lines & -> & Hfail).
    cbn [fst snd m_job m_trace m_files m_log].
    repeat (split; [reflexivity|]).
    intros e He. destruct (Hfail e He) as [-> ->]. split; [reflexivity|].
    apply List.in_or_app. right. left. reflexivity.
  - intros m. cbv zeta.
    destruct (decode_bookkeeping_run dt env m) as (files' & lines & -> & Hfail).
    cbn [fst snd m_job m_trace m_files m_log].
    repeat (split; [reflexivity|]).
    intros e He. destruct (Hfail e He) as [-> ->]. split; [reflexivity|].
    apply List.in_or_app. right. left. reflexivity.
  - intros w. cbv zeta. destruct (encode_run_summary t env w) as (Htr & _ & Hjob).
    rewrite Hjob, Htr. apply worker_trace_completed.
  - intros w. cbv zeta. destruct (decode_run_summary dt env w) as (Htr & _ & Hjob).
    rewrite Hjob, Htr. apply worker_trace_completed.
Qed.

Lemma registry_failure_swallowed_witness :
  let m := run_encode report_task db_down report_world in
  status (m_job m) = COMPLETED /\ progress (m_job m) = 100
  /\ result_url (m_job m) = Some "/api/download/uuid1_report.mp4"
  /\ m_files m = [].
Proof.
  cbv zeta.
  destruct (registry_failure_swallowed report_task stray_task db_down) as (_ & _ & Hrun & _).
  destruct (Hrun report_world) as (Hs & Hp & Hu).
  - reflexivity.
  - vm_compute. do 5 right. left. reflexivity.
  - reflexivity.
  - split; [exact Hs|]. split; [exact Hp|]. split; [exact Hu|]. reflexivity.
Defined.

(** C5. The code does not keep the job Completed through every failure of
    the registry step. When the output file disappears after the worker
    has seen it exist and before the registry step reads its size, that
    step fails and its failure is swallowed with a warning, as claimed,
    and no record is added. But the closing log statement lies outside
    the handler of the registry step and inside the outer [try]: it reads
    the size of the output once more, fails in the same way, and the job,
    already Completed, is set to Failed. It keeps progress 100 and its
    result url, and carries the error message. The same holds of a decode
    job. *)
Lemma lost_output_fails_completed_job :
  let m := run_encode report_task output_lost_early report_world in
  let d := run_decode stray_task output_lost_early (world_of stray_submission) in
  let gone p := "[Errno 2] No such file or directory: '" ++ p ++ "'" in
  (List.map status (m_trace m)
   = [PENDING; RUNNING; RUNNING; COMPLETED; COMPLETED; COMPLETED; FAILED; FAILED]
   /\ warnings (m_log m) = ["Could not add to registry: " ++ gone "outputs/uuid1_report.mp4"]
   /\ m_files m = []
   /\ status (m_job m) = FAILED /\ progress (m_job m) = 100
   /\ error_message (m_job m) = Some (gone "outputs/uuid1_report.mp4")
   /\ result_url (m_job m) = Some "/api/download/uuid1_report.mp4")
  /\ (List.map status (m_trace d)
      = [PENDING; RUNNING; RUNNING; COMPLETED; COMPLETED; COMPLETED; FAILED; FAILED]
      /\ warnings (m_log d) = ["Could not add to registry: " ++ gone "outputs/uuid1_decoded.bin"]
      /\ m_files d = []
      /\ status (m_job d) = FAILED /\ progress (m_job d) = 100
      /\ error_message (m_job d) = Some (gone "outputs/uuid1_decoded.bin")
      /\ result_url (m_job d) = Some "/api/download/uuid1_decoded.bin").
Proof. vm_compute. repeat split; reflexivity. Qed.

(** ** The life cycle of a job *)

Lemma chainb_map {A B} (R : B -> B -> bool) (f : A -> B) (l : list A) :
  chainb (fun a b => R (f a) (f b)) l = chainb R (List.map f l).
Proof.
  induction l as [|a [|b l] IH]; [reflexivity|reflexivity|].
  change (R (f a) (f b) && chainb (fun a b => R (f a) (f b)) (b :: l)
          = R (f a) (f b) && chainb R (List.map f (b :: l))).
  rewrite IH. reflexivity.
Qed.

Lemma chainb_cons {A} (R : A -> A -> bool) (a b : A) (l : list A) :
  chainb R (a :: b :: l) = R a b && chainb R (b :: l).
Proof. reflexivity. Qed.

(** A chain through a middle part [l], entered at [x]: it leaves [l] at
    [last l x]. *)
Lemma chainb_through {A} (R : A -> A -> bool) (x : A) (l rest : list A) :
  chainb R (x :: l ++ rest) = chainb R (x :: l) && chainb R (List.last l x :: rest).
Proof.
  revert x. induction l as [|y l IH]; intros x.
  - reflexivity.
  - change (chainb R (x :: y :: (l ++ rest)%list)
            = chainb R (x :: y :: l) && chainb R (List.last (y :: l) x :: rest)).
    rewrite !chainb_cons, last_cons, IH, andb_assoc. reflexivity.
Qed.

Lemma chainb_constant {A} (R : A -> A -> bool) (x : A) (l : list A) :
  R x x = true -> (forall y, In y l -> y = x) -> chainb R (x :: l) = true.
Proof.
  intros Hrefl. induction l as [|y l IH]; intros Hall; [reflexivity|].
  assert (y = x) as -> by (apply Hall; left; reflexivity).
  rewrite chainb_cons, Hrefl. simpl.
  apply IH. intros z Hz. apply Hall. right. exact Hz.
Qed.

Lemma last_constant {A} (x : A) (l : list A) :
  (forall y, In y l -> y = x) -> List.last l x = x.
Proof.
  induction l as [|y l IH]; intros Hall; [reflexivity|].
  assert (y = x) as -> by (apply Hall; left; reflexivity).
  rewrite last_cons.
  apply IH. intros z Hz. apply Hall. right. exact Hz.
Qed.

Lemma callback_jobs_progress (j : Job) (vals : list Z) :
  List.map progress (List.map (fun p => with_progress p j) vals) = vals.
Proof.
  induction vals as [|p vals IH]; [reflexivity|]. simpl. f_equal. exact IH.
Qed.

Lemma last_map {A B} (f : A -> B) (l : list A) (d : A) :
  List.last (List.map f l) (f d) = f (List.last l d).
Proof.
  revert d. induction l as [|a l IH]; intros d; [reflexivity|].
  change (List.last (f a :: List.map f l) (f d) = f (List.last (a :: l) d)).
  rewrite !last_cons. apply IH.
Qed.

Lemma settles_skip (l rest : list Job) :
  (forall j, In j l -> is_completed j = false) ->
  settles_at_100 (l ++ rest) = settles_at_100 rest.
Proof.
  induction l as [|j l IH]; intros Hall; [reflexivity|].
  change (settles_at_100 (j :: (l ++ rest)%list) = settles_at_100 rest).
  simpl. rewrite (Hall j (or_introl eq_refl)).
  apply IH. intros j' Hj'. apply Hall. right. exact Hj'.
Qed.

Lemma last_in {A} (l : list A) (d : A) : l <> [] -> In (List.last l d) l.
Proof.
  induction l as [|a l IH]; [congruence|]. intros _.
  destruct l as [|b l]; [left; reflexivity|].
  right. change (In (List.last (b :: l) d) (b :: l)). apply IH. discriminate.
Qed.

Lemma steady_last (vals : list Z) :
  chainb Z.leb (0 :: vals) = true ->
  forallb (fun p => Z.leb p 100) vals = true ->
  List.last vals 0 <= 100.
Proof.
  intros _ Hall. destruct vals as [|p vals]; [simpl; lia|].
  rewrite List.forallb_forall in Hall. apply Z.leb_le. apply Hall.
  apply last_in. discriminate.
Qed.

Lemma callback_jobs_final (j : Job) (vals : list Z) :
  let jl := List.last (List.map (fun p => with_progress p j) vals) j in
  status jl = status j /\ progress jl = List.last vals (progress j).
Proof.
  cbv zeta. revert j. induction vals as [|p vals IH]; intros j; [split; reflexivity|].
  change (List.map (fun p0 => with_progress p0 j) (p :: vals))
    with (with_progress p j :: List.map (fun p0 => with_progress p0 (with_progress p j)) vals).
  rewrite !last_cons. destruct (IH (with_progress p j)) as [Hs Hp].
  rewrite Hs, Hp. split; reflexivity.
Qed.

(** Nothing processed gives 0 percent. *)
Lemma percent_zero (ts : Z) : 0 < ts -> percent 0 ts = Some 0.
Proof. intros Hts. destruct ts as [|p|p]; try lia. reflexivity. Qed.

Lemma assigned_values_cons ts call calls :
  assigned_values ts (call :: calls)
  = match assigned ts call with
    | Some p => p :: assigned_values ts calls
    | None => assigned_values ts calls
    end.
Proof. reflexivity. Qed.

Lemma chainb_leb_head (x y : Z) (l : list Z) :
  x <= y -> chainb Z.leb (y :: l) = true -> chainb Z.leb (x :: l) = true.
Proof.
  intros Hxy. destruct l as [|a l]; [reflexivity|].
  rewrite !chainb_cons. intros H. apply andb_prop in H. destruct H as [Hya Hc].
  apply Z.leb_le in Hya. rewrite Hc, andb_true_r. apply Z.leb_le. lia.
Qed.

(** Byte counts that grow within the size of the input give percentages
    that grow within 100, whichever of the reports reach the callback. *)
Lemma reported_steady ts calls b0 p0 :
  0 < ts < 2 ^ 64 -> 0 <= b0 <= ts -> percent b0 ts = Some p0 ->
  chainb Z.leb (b0 :: List.map (fun call => fst (fst call)) calls) = true ->
  forallb (fun call => Z.leb (fst (fst call)) ts) calls = true ->
  chainb Z.leb (p0 :: assigned_values ts calls) = true
  /\ forallb (fun p => Z.leb p 100) (assigned_values ts calls) = true.
Proof.
  intros Hts. revert b0 p0.
  induction calls as [|c calls IH]; intros b0 p0 Hb0 Hp0 Hchain Hall.
  - split; reflexivity.
  - change (List.map (fun call => fst (fst call)) (c :: calls))
      with (fst (fst c) :: List.map (fun call => fst (fst call)) calls) in Hchain.
    rewrite chainb_cons in Hchain. apply andb_prop in Hchain. destruct Hchain as [Hle Hchain].
    apply Z.leb_le in Hle.
    cbn [forallb] in Hall. apply andb_prop in Hall. destruct Hall as [Hc Hall].
    apply Z.leb_le in Hc.
    destruct (percent_mono b0 (fst (fst c)) ts ltac:(lia) Hc Hts) as (q0 & q & Hq0 & Hq & Hqle).
    rewrite Hp0 in Hq0. injection Hq0 as <-.
    destruct (percent_range (fst (fst c)) ts ltac:(lia) Hts) as (q' & Hq' & Hrange).
    rewrite Hq in Hq'. injection Hq' as <-.
    destruct (IH (fst (fst c)) q ltac:(lia) Hq Hchain Hall) as [IHc IHa].
    rewrite assigned_values_cons.
    replace (assigned ts c) with (if decodes c then Some q else None).
    2:{ unfold assigned. destruct (decodes c); [|reflexivity].
        replace (Z.ltb 0 ts) with true by (symmetry; apply Z.ltb_lt; lia).
        unfold Py.c_uint64. rewrite Z.mod_small by lia. symmetry. exact Hq. }
    destruct (decodes c).
    + rewrite chainb_cons, IHc. cbn [forallb]. rewrite IHa.
      split; apply andb_true_intro; (split; [apply Z.leb_le; lia|reflexivity]).
    + split; [|exact IHa]. revert IHc. apply chainb_leb_head. exact Hqle.
Qed.

(** What the callbacks compute is steady as soon as what the engine
    reports is. *)
Lemma well_reported_steady ts calls :
  well_reported ts calls = true -> steady ts calls = true.
Proof.
  unfold well_reported, steady. intros H.
  apply andb_prop in H. destruct H as [H Hall].
  apply andb_prop in H. destruct H as [Hts Hchain]. apply Z.ltb_lt in Hts.
  destruct (Z.ltb 0 ts) eqn:Hpos.
  - apply Z.ltb_lt in Hpos.
    destruct (reported_steady ts calls 0 0 ltac:(lia) ltac:(lia) (percent_zero ts Hpos)
                Hchain Hall) as [Hc Ha].
    rewrite Hc, Ha. reflexivity.
  - assert (Hv : forall p, In p (assigned_values ts calls) -> p = 50).
    { clear Hchain Hall. induction calls as [|c calls IH]; intros p Hp; [destruct Hp|].
      rewrite assigned_values_cons in Hp. unfold assigned at 1 in Hp. rewrite Hpos in Hp.
      destruct (decodes c); [|apply IH; exact Hp].
      destruct Hp as [<-|Hp]; [reflexivity|apply IH; exact Hp]. }
    apply andb_true_intro. split.
    + destruct (assigned_values ts calls) as [|p vals]; [reflexivity|].
      assert (p = 50) as -> by (apply Hv; left; reflexivity).
      rewrite chainb_cons. change (Z.leb 0 50) with true. cbn [andb].
      apply chainb_constant; [reflexivity|]. intros y Hy. apply Hv. right. exact Hy.
    + apply List.forallb_forall. intros p Hp. rewrite (Hv p Hp). reflexivity.
Qed.

(** The history of a run, split at the session: what precedes it, the
    values the callbacks leave, and what follows. *)
Lemma life_cycle_of_parts (j0 jt : Job) (vals : list Z) (tail : list Job) (env : Env)
    (ts : Z) :
  status j0 = PENDING -> progress j0 = 0 ->
  status jt = RUNNING -> progress jt = 0 ->
  vals = assigned_values ts (eng_progress (env_engine env)) ->
  let cbs := List.map (fun p => with_progress p jt) vals in
  let jl := List.last cbs jt in
  (output_kept env = true ->
   chainb forward (RUNNING :: List.map status tail) = true) ->
  (List.last vals 0 <= 100 ->
   chainb Z.leb (List.last vals 0 :: List.map progress tail) = true) ->
  settles_at_100 tail = true ->
  (status (List.last tail jl) = COMPLETED -> progress (List.last tail jl) = 100) ->
  (tail <> []) ->
  let tr := ([j0; with_status RUNNING j0; jt] ++ cbs ++ tail)%list in
  life_cycle tr (List.last tr j0) env ts.
Proof.
  intros Hs0 Hp0 Hst Hpt Hvals. cbv zeta. intros Hfwd Hmono Hsettle Hfinal Htail.
  unfold life_cycle.
  assert (Hprog : steady ts (eng_progress (env_engine env)) = true ->
                  progress_monotone ([j0; with_status RUNNING j0; jt]
                                     ++ List.map (fun p => with_progress p jt) vals
                                     ++ tail)%list = true).
  { intros Hsteady. unfold steady in Hsteady. apply andb_prop in Hsteady.
    destruct Hsteady as [Hchain Hbound]. rewrite <- Hvals in Hchain, Hbound.
    unfold progress_monotone. rewrite chainb_map.
    rewrite !List.map_app. simpl List.map. rewrite Hp0, Hpt, callback_jobs_progress.
    change (chainb Z.leb (0 :: 0 :: 0 :: (vals ++ List.map progress tail)%list) = true).
    rewrite !chainb_cons. change (Z.leb 0 0) with true. cbn [andb].
    rewrite chainb_through, Hchain. cbn [andb]. apply Hmono.
    apply steady_last; assumption. }
  split; [|split; [exact Hprog|split; [|split;
    [|intros Hwr; apply Hprog, well_reported_steady, Hwr]]]].
  - intros Hkept. unfold status_forward. rewrite chainb_map.
    rewrite !List.map_app. simpl List.map. rewrite Hs0, Hst.
    change (chainb forward (PENDING :: RUNNING :: RUNNING
                            :: (List.map status (List.map (fun p => with_progress p jt) vals)
                                ++ List.map status tail)%list) = true).
    rewrite !chainb_cons. cbn [forward andb].
    rewrite chainb_through.
    assert (Hall : forall s, In s (List.map status (List.map (fun p => with_progress p jt) vals))
                             -> s = RUNNING).
    { intros s H. apply callback_jobs_status in H. congruence. }
    rewrite (chainb_constant forward RUNNING _ eq_refl Hall).
    rewrite (last_constant RUNNING _ Hall). cbn [andb]. apply Hfwd. exact Hkept.
  - change (settles_at_100 ([j0; with_status RUNNING j0; jt]
                            ++ (List.map (fun p => with_progress p jt) vals ++ tail))%list
            = true).
    rewrite app_assoc. rewrite settles_skip; [exact Hsettle|].
    intros j Hj. apply List.in_app_or in Hj. unfold is_completed.
    destruct Hj as [[<-|[<-|[<-|[]]]]|Hj]; [rewrite Hs0| |rewrite Hst|]; try reflexivity.
    assert (Hsj : status j = RUNNING).
    { rewrite <- Hst. apply callback_jobs_status with (vals := vals).
      apply List.in_map. exact Hj. }
    rewrite Hsj. reflexivity.
  - rewrite app_assoc, last_app_default.
    assert (Hl : List.last tail (List.last ([j0; with_status RUNNING j0; jt]
                     ++ List.map (fun p => with_progress p jt) vals)%list j0)
                 = List.last tail (List.last (List.map (fun p => with_progress p jt) vals) jt)).
    { destruct tail as [|a tail]; [congruence|]. rewrite !last_cons. reflexivity. }
    rewrite Hl. exact Hfinal.
Qed.

Lemma worker_trace_life_cycle j0 input_path output_path output_name create_msg missing_msg
    env w :
  status j0 = PENDING -> progress j0 = 0 ->
  let tr := worker_trace j0 input_path output_path output_name create_msg missing_msg env w in
  life_cycle tr (List.last tr j0) env (input_size input_path w).
Proof.
  intros Hs0 Hp0. cbv zeta. unfold worker_trace.
  destruct (input_found input_path env w) as [f|] eqn:Hfound.
  2:{ unfold life_cycle, status_forward, progress_monotone, failed. simpl.
      rewrite Hs0, Hp0. simpl. unfold is_completed. simpl. rewrite Hs0.
      repeat split; try reflexivity. discriminate. }
  assert (Hsize : input_size input_path w = st_size f).
  { unfold input_found in Hfound. unfold input_size.
    destruct (env_input_lost env); [discriminate|]. rewrite Hfound. reflexivity. }
  rewrite Hsize.
  destruct (eng_create (env_engine env)) as [h|].
  2:{ unfold life_cycle, status_forward, progress_monotone, failed. simpl.
      rewrite Hs0, Hp0. simpl. unfold is_completed. simpl. rewrite Hs0.
      repeat split; try reflexivity. discriminate. }
  set (jt := with_total_size (st_size f) (with_status RUNNING j0)).
  set (vals := callback_values jt (eng_progress (env_engine env))).
  pose proof (callback_jobs_final jt vals) as Hjl. cbv zeta in Hjl.
  destruct Hjl as [Hjls Hjlp].
  change (status jt) with RUNNING in Hjls.
  change (progress jt) with (progress j0) in Hjlp. rewrite Hp0 in Hjlp.
  set (jl := List.last (List.map (fun p => with_progress p jt) vals) jt) in *.
  destruct (negb (Z.eqb (eng_status (env_engine env)) ErrorCode.SUCCESS)).
  { apply (life_cycle_of_parts j0 jt vals); try assumption; try reflexivity;
      unfold failed; simpl.
    - intros _. rewrite Hjlp, Z.leb_refl. reflexivity.
    - discriminate.
    - discriminate. }
  destruct (negb (bool_decide (is_Some (fs_after_engine output_path env w !! output_path)))).
  { apply (life_cycle_of_parts j0 jt vals); try assumption; try reflexivity;
      unfold failed; simpl.
    - intros _. rewrite Hjlp, Z.leb_refl. reflexivity.
    - discriminate.
    - discriminate. }
  apply (life_cycle_of_parts j0 jt vals); try assumption; try reflexivity.
  - intros ->. simpl. reflexivity.
  - intros Hle. apply Z.leb_le in Hle.
    destruct (output_kept env); unfold failed; simpl;
      rewrite Hjlp, Hle, ?Z.leb_refl; reflexivity.
  - destruct (output_kept env); unfold failed; simpl; unfold is_completed; simpl;
      reflexivity.
  - destruct (output_kept env); unfold failed; simpl; intros _; reflexivity.
  - discriminate.
Qed.

(** C2 (as amended). For every job that starts Pending with progress 0:
    as long as the closing log statement of its worker finds the output
    file, its status moves only forward along
    Pending → Running → {Completed | Failed}, without skips or reversals;
    its observed progress never decreases provided the percentages its
    callbacks compute neither step back nor pass 100 (the worker does not
    enforce either), which is the case whenever the byte counts the engine
    reports never decrease and never exceed the size of the input; and
    progress is exactly 100 in every value of the job after the one that
    first shows Completed, and in a job that ends Completed. *)
Theorem job_life_cycle (t : EncodeTask) (dt : DecodeTask) (env : Env) (w : World) :
  status (et_job t) = PENDING -> progress (et_job t) = 0 ->
  status (dt_job dt) = PENDING -> progress (dt_job dt) = 0 ->
  life_cycle (m_trace (run_encode t env w)) (m_job (run_encode t env w)) env
             (input_size (et_input_path t) w)
  /\ life_cycle (m_trace (run_decode dt env w)) (m_job (run_decode dt env w)) env
                (input_size (dt_input_path dt) w).
Proof.
  intros Hes Hep Hds Hdp. split.
  - destruct (encode_run_summary t env w) as (Htr & _ & Hjob).
    rewrite Hjob, Htr. apply worker_trace_life_cycle; assumption.
  - destruct (decode_run_summary dt env w) as (Htr & _ & Hjob).
    rewrite Hjob, Htr. apply worker_trace_life_cycle; assumption.
Qed.

Lemma job_life_cycle_witness :
  let tr := m_trace (run_encode report_task (calm paced_engine) report_world) in
  status_forward tr = true /\ progress_monotone tr = true /\ settles_at_100 tr = true.
Proof.
  cbv zeta.
  destruct (job_life_cycle report_task stray_task (calm paced_engine) report_world)
    as ((Hfwd & _ & Hsettle & _ & Hmono) & _); try reflexivity.
  split; [apply Hfwd; reflexivity|].
  split; [apply Hmono; vm_compute; reflexivity|]. exact Hsettle.
Defined.

(** The run of the witness: 29 of 100 bytes show as 28 percent. *)
Example paced_run_history :
  List.map (fun j => (status j, progress j))
           (m_trace (run_encode report_task (calm paced_engine) report_world))
  = [(PENDING, 0); (RUNNING, 0); (RUNNING, 0); (RUNNING, 28); (RUNNING, 100);
     (COMPLETED, 100); (COMPLETED, 100); (COMPLETED, 100)].
Proof. vm_compute. reflexivity. Qed.

(** C2 (as stated) does not hold: the engine reports 4096 bytes done for
    a 100-byte input, the callback sets progress to 4096, and the job then
    shows Completed with progress 4096 before progress drops to 100. *)
Lemma chunk_report_breaks_life_cycle :
  let tr := m_trace (run_encode report_task (calm chunk_engine) report_world) in
  List.map (fun j => (status j, progress j)) tr
  = [(PENDING, 0); (RUNNING, 0); (RUNNING, 0); (RUNNING, 4096);
     (COMPLETED, 4096); (COMPLETED, 100); (COMPLETED, 100)]
  /\ progress_monotone tr = false
  /\ completed_at_100 tr = false
  /\ orderly tr = false.
Proof. vm_compute. repeat split; reflexivity. Qed.

(** The closing log statement lies outside the handler of the registry
    step: when the output file is removed in between, the job, already
    Completed, is set to Failed. *)
Lemma completed_job_set_failed :
  let tr := m_trace (run_encode report_task output_swept report_world) in
  List.map status tr
  = [PENDING; RUNNING; RUNNING; COMPLETED; COMPLETED; COMPLETED; FAILED; FAILED]
  /\ status_forward tr = false.
Proof. vm_compute. split; reflexivity. Qed.

(* ===================================================================== *)
(** * Further properties of the two modules                               *)
(* ===================================================================== *)

Lemma callback_jobs_last (j : Job) (vals : list Z) :
  exists p, List.last (List.map (fun p => with_progress p j) vals) j = with_progress p j.
Proof.
  exists (List.last vals (progress j)).
  rewrite <- (last_map (fun p => with_progress p j)).
  destruct j; reflexivity.
Qed.

Lemma worker_trace_end j0 input_path output_path output_name create_msg missing_msg env w :
  error_message j0 = None -> result_url j0 = None ->
  ended_as (List.last (worker_trace j0 input_path output_path output_name create_msg
                                    missing_msg env w) j0)
           (run_succeeds input_path output_path env w) output_name
           (failure_message input_path output_path create_msg missing_msg env w).
Proof.
  intros He Hr. unfold worker_trace, run_succeeds, failure_message, ended_as.
  destruct (input_found input_path env w) as [f|]; [|split; reflexivity].
  destruct (eng_create (env_engine env)) as [h|]; [|split; reflexivity].
  set (jt := with_total_size (st_size f) (with_status RUNNING j0)).
  destruct (callback_jobs_last jt (callback_values jt (eng_progress (env_engine env))))
    as [p Hlast].
  rewrite !last_app_default. cbv zeta. rewrite Hlast.
  destruct (Z.eqb (eng_status (env_engine env)) ErrorCode.SUCCESS); cbn [negb andb];
    [|split; reflexivity].
  destruct (bool_decide (is_Some (fs_after_engine output_path env w !! output_path)));
    cbn [negb andb]; [|split; reflexivity].
  destruct (output_kept env); [|split; reflexivity].
  cbn. rewrite He. repeat split; reflexivity.
Qed.

(** ** The files and the table after a run *)

Lemma encode_bookkeeping_state t env m :
  exists lines,
    encode_bookkeeping t env m =
      (Ret tt, mkMem (m_job m) (m_trace m) (m_encoder m) (m_decoder m) (m_lib m)
                     (if env_output_lost_before_registry env
                      then delete (et_output_path t) (m_fs m) else m_fs m)
                     (registry_after (encode_row t env) (et_output_path t) env (m_fs m)
                                     (m_files m))
                     (m_log m ++ lines)).
Proof.
  destruct m as [j tr enc dec lib fs files log].
  unfold encode_bookkeeping, encode_registry, db_insert, try_except, removed_by_others, when_,
    path_stat, bind, get_fs, put_fs, get_files, put_files, logger, raise, ret,
    registry_after, encode_row.
  destruct (env_output_lost_before_registry env); simpl.
  - rewrite lookup_delete_eq. simpl. eexists. reflexivity.
  - destruct (fs !! et_output_path t) as [st|]; simpl; [|eexists; reflexivity].
    destruct (env_db_fault env) as [msg|]; simpl; [eexists; reflexivity|].
    destruct (existsb _ files); simpl; eexists; reflexivity.
Qed.

Lemma decode_bookkeeping_state t env m :
  exists lines,
    decode_bookkeeping t env m =
      (Ret tt, mkMem (m_job m) (m_trace m) (m_encoder m) (m_decoder m) (m_lib m)
                     (if env_output_lost_before_registry env
                      then delete (dt_output_path t) (m_fs m) else m_fs m)
                     (registry_after (decode_row t env) (dt_output_path t) env (m_fs m)
                                     (m_files m))
                     (m_log m ++ lines)).
Proof.
  destruct m as [j tr enc dec lib fs files log].
  unfold decode_bookkeeping, decode_registry, db_insert, try_except, removed_by_others, when_,
    path_stat, bind, get_fs, put_fs, get_files, put_files, logger, raise, ret,
    registry_after, decode_row.
  destruct (env_output_lost_before_registry env); simpl.
  - rewrite lookup_delete_eq. simpl. eexists. reflexivity.
  - destruct (fs !! dt_output_path t) as [st|]; simpl; [|eexists; reflexivity].
    destruct (env_db_fault env) as [msg|]; simpl; [eexists; reflexivity|].
    destruct (existsb _ files); simpl; eexists; reflexivity.
Qed.

(** What follows a session that returned normally, on the files and the
    table, for a registry block [book] that acts as [reg] on the table. *)
Lemma completion_tail_state (book : M unit) (reg : gmap string FileData -> list FileRow -> list FileRow)
    env id out name missing m :
  (forall m', exists lines,
      book m' = (Ret tt, mkMem (m_job m') (m_trace m') (m_encoder m') (m_decoder m') (m_lib m')
                               (if env_output_lost_before_registry env
                                then delete out (m_fs m') else m_fs m')
                               (reg (m_fs m') (m_files m')) (m_log m' ++ lines))) ->
  let c := (created <- path_exists out ;;
            if negb created
            then raise (Exn RuntimeError (missing ++ out))
            else
              assign (with_status COMPLETED) ;;
              assign (with_progress 100) ;;
              assign (with_result_url ("/api/download/" ++ name)) ;;
              book ;;
              log_completed env id out) in
  let m1 := snd (c m) in
  m_fs m1 = (if bool_decide (is_Some (m_fs m !! out))
             then let fs2 := if env_output_lost_before_registry env
                             then delete out (m_fs m) else m_fs m in
                  if env_output_lost_before_log env then delete out fs2 else fs2
             else m_fs m)
  /\ m_files m1 = (if bool_decide (is_Some (m_fs m !! out))
                   then reg (m_fs m) (m_files m) else m_files m).
Proof.
  intros Hbook. destruct m as [j tr enc dec lib fs files log].
  cbv zeta. unfold bind at 1. unfold path_exists, bind, get_fs, ret. simpl.
  destruct (fs !! out) as [st|] eqn:Hout.
  - rewrite bool_decide_eq_true_2 by (eexists; reflexivity). simpl.
    unfold assign. simpl.
    match goal with
    | |- context [book ?m'] => destruct (Hbook m') as (lines & ->)
    end. simpl.
    match goal with
    | |- context [log_completed env id out ?m'] =>
        destruct (log_completed_run env id out m') as [lines' ->]
    end. simpl. split; reflexivity.
  - rewrite bool_decide_eq_false_2 by (intros [? ?]; discriminate). simpl.
    unfold raise. simpl. split; reflexivity.
Qed.

Lemma cleanup_input_state env p m :
  cleanup_input env p m =
    (Ret tt, mkMem (m_job m) (m_trace m) (m_encoder m) (m_decoder m) (m_lib m)
                   (cleanup_fs env p (m_fs m)) (m_files m) (m_log m)).
Proof.
  destruct m as [j tr enc dec lib fs files log].
  unfold cleanup_input, cleanup_fs, try_except, path_unlink, bind, get_fs, put_fs, raise, ret.
  simpl. destruct (fs !! p); [destruct (env_unlink_fault env)|]; reflexivity.
Qed.

(** The files and the table around the [try] body of a worker: the
    [except] clause and the release of the handle leave both alone, the
    [finally] clause removes the upload. *)
Lemma worker_frame_state (body : M unit) id env input m :
  let out := (try_finally (try_except body (job_failed id)) (cleanup_input env input) ;;
              release_locals) m in
  let m1 := snd (body m) in
  m_fs (snd out) = cleanup_fs env input (m_fs m1)
  /\ m_files (snd out) = m_files m1.
Proof.
  cbv zeta. unfold bind, try_finally, try_except. cbv beta.
  destruct (body m) as [[[]|e] m1]; cbn [fst snd].
  - rewrite cleanup_input_state. rewrite release_locals_run. mem_simpl. split; reflexivity.
  - rewrite job_failed_run. rewrite cleanup_input_state. mem_simpl.
    rewrite release_locals_run. mem_simpl. split; reflexivity.
Qed.

Lemma encode_try_state (t : EncodeTask) (env : Env) (w : World) :
  let m0 := snd (assign (with_status RUNNING) (worker_start (et_job t) w)) in
  let m1 := snd (encode_try t env m0) in
  m_fs m1 = worker_fs_body (et_input_path t) (et_output_path t) env w
  /\ m_files m1 = worker_files (encode_row t env) (et_input_path t) (et_output_path t) env w.
Proof.
  cbv zeta. rewrite assign_run. mem_simpl.
  unfold encode_try, worker_fs_body, worker_files, reaches_registry, input_found. cbv zeta.
  step removed_by_others_run. step path_stat_run.
  destruct (env_input_lost env).
  - rewrite lookup_delete_eq. mem_simpl. split; reflexivity.
  - destruct (w_fs w !! et_input_path t) as [f|] eqn:Hin; mem_simpl;
      [|split; reflexivity].
    step assign_run. step logger_run. step put_encoder_run.
    rewrite bind_run.
    match goal with
    | |- context [Encoder_encode ?eng ?i ?o (Some (progress_callback ?id)) ?m] =>
        destruct (encoder_session eng i o id (et_width t) (et_height t) (et_fps t)
                    (et_chunk_size t) m eq_refl) as [lines ->]
    end.
    cbv zeta. mem_simpl.
    destruct (eng_create (env_engine env)) as [h|]; mem_simpl; [|split; reflexivity].
    unfold session_result.
    destruct (Z.eqb (eng_status (env_engine env)) ErrorCode.SUCCESS) eqn:Hok;
      cbn [negb andb]; cbv beta iota.
    + match goal with
      | |- context [bind (path_exists ?o) ?k ?m] =>
          pose proof (completion_tail_state (encode_bookkeeping t env)
                        (registry_after (encode_row t env) (et_output_path t) env)
                        env (job_id (et_job t))
                        (et_output_path t) (et_output_name t)
                        "Encoder did not create output file: " m) as Htail
      end.
      cbv zeta in Htail.
      destruct Htail as (Hfs & Hfiles); [intros m'; apply encode_bookkeeping_state|].
      rewrite Hfs, Hfiles. unfold after_session, fs_after_engine. mem_simpl.
      destruct (bool_decide _); split; reflexivity.
    + unfold after_session, fs_after_engine. mem_simpl. split; reflexivity.
Qed.

Lemma decode_try_state (t : DecodeTask) (env : Env) (w : World) :
  let m0 := snd (assign (with_status RUNNING) (worker_start (dt_job t) w)) in
  let m1 := snd (decode_try t env m0) in
  m_fs m1 = worker_fs_body (dt_input_path t) (dt_output_path t) env w
  /\ m_files m1 = worker_files (decode_row t env) (dt_input_path t) (dt_output_path t) env w.
Proof.
  cbv zeta. rewrite assign_run. mem_simpl.
  unfold decode_try, worker_fs_body, worker_files, reaches_registry, input_found. cbv zeta.
  step removed_by_others_run. step path_stat_run.
  destruct (env_input_lost env).
  - rewrite lookup_delete_eq. mem_simpl. split; reflexivity.
  - destruct (w_fs w !! dt_input_path t) as [f|] eqn:Hin; mem_simpl;
      [|split; reflexivity].
    step assign_run. step logger_run. step put_decoder_run.
    rewrite bind_run.
    match goal with
    | |- context [Decoder_decode ?eng ?i ?o (Some (progress_callback ?id)) ?m] =>
        destruct (decoder_session eng i o id m eq_refl) as [lines ->]
    end.
    cbv zeta. mem_simpl.
    destruct (eng_create (env_engine env)) as [h|]; mem_simpl; [|split; reflexivity].
    unfold session_result.
    destruct (Z.eqb (eng_status (env_engine env)) ErrorCode.SUCCESS) eqn:Hok;
      cbn [negb andb]; cbv beta iota.
    + match goal with
      | |- context [bind (path_exists ?o) ?k ?m] =>
          pose proof (completion_tail_state (decode_bookkeeping t env)
                        (registry_after (decode_row t env) (dt_output_path t) env)
                        env (job_id (dt_job t))
                        (dt_output_path t) (dt_output_name t)
                        "Decoder did not create output file: " m) as Htail
      end.
      cbv zeta in Htail.
      destruct Htail as (Hfs & Hfiles); [intros m'; apply decode_bookkeeping_state|].
      rewrite Hfs, Hfiles. unfold after_session, fs_after_engine. mem_simpl.
      destruct (bool_decide _); split; reflexivity.
    + unfold after_session, fs_after_engine. mem_simpl. split; reflexivity.
Qed.

(** The files and the table one run leaves, in closed form. *)
Lemma encode_run_state (t : EncodeTask) (env : Env) (w : World) :
  let m := run_encode t env w in
  m_fs m = cleanup_fs env (et_input_path t)
             (worker_fs_body (et_input_path t) (et_output_path t) env w)
  /\ m_files m = worker_files (encode_row t env) (et_input_path t) (et_output_path t) env w.
Proof.
  cbv zeta. unfold run_encode, encode_task. rewrite bind_run, assign_run. cbv beta iota.
  pose proof (encode_try_state t env w) as Htry. cbv zeta in Htry. rewrite assign_run in Htry.
  cbn [snd] in Htry. destruct Htry as (Hfs & Hfiles).
  match goal with
  | |- context [(try_finally (try_except ?b (job_failed ?id)) (cleanup_input env ?i) ;;
                 release_locals) ?m] =>
      pose proof (worker_frame_state b id env i m) as Hframe
  end.
  cbv zeta in Hframe. destruct Hframe as (Ffs & Ffiles).
  rewrite Ffs, Ffiles, Hfs, Hfiles. split; reflexivity.
Qed.

Lemma decode_run_state (t : DecodeTask) (env : Env) (w : World) :
  let m := run_decode t env w in
  m_fs m = cleanup_fs env (dt_input_path t)
             (worker_fs_body (dt_input_path t) (dt_output_path t) env w)
  /\ m_files m = worker_files (decode_row t env) (dt_input_path t) (dt_output_path t) env w.
Proof.
  cbv zeta. unfold run_decode, decode_task. rewrite bind_run, assign_run. cbv beta iota.
  pose proof (decode_try_state t env w) as Htry. cbv zeta in Htry. rewrite assign_run in Htry.
  cbn [snd] in Htry. destruct Htry as (Hfs & Hfiles).
  match goal with
  | |- context [(try_finally (try_except ?b (job_failed ?id)) (cleanup_input env ?i) ;;
                 release_locals) ?m] =>
      pose proof (worker_frame_state b id env i m) as Hframe
  end.
  cbv zeta in Hframe. destruct Hframe as (Ffs & Ffiles).
  rewrite Ffs, Ffiles, Hfs, Hfiles. split; reflexivity.
Qed.

(** X1. However a run ends, the job is left Completed or Failed, never
    Pending or Running. It is Completed exactly when the upload was there,
    the engine handed out a handle, reported success and left an output
    file that is still there at the closing log statement; it then shows
    progress 100, its result url and no error message. Otherwise it is
    Failed and carries the text of the exception that stopped it. *)
Theorem worker_outcome (t : EncodeTask) (dt : DecodeTask) (env : Env) (w : World) :
  error_message (et_job t) = None -> result_url (et_job t) = None ->
  error_message (dt_job dt) = None -> result_url (dt_job dt) = None ->
  ended_as (m_job (run_encode t env w))
           (run_succeeds (et_input_path t) (et_output_path t) env w) (et_output_name t)
           (failure_message (et_input_path t) (et_output_path t) "Failed to create encoder"
                            "Encoder did not create output file: " env w)
  /\ ended_as (m_job (run_decode dt env w))
              (run_succeeds (dt_input_path dt) (dt_output_path dt) env w) (dt_output_name dt)
              (failure_message (dt_input_path dt) (dt_output_path dt) "Failed to create decoder"
                               "Decoder did not create output file: " env w).
Proof.
  intros He Hr Hde Hdr. split.
  - destruct (encode_run_summary t env w) as (Htr & _ & Hjob).
    rewrite Hjob, Htr. apply worker_trace_end; assumption.
  - destruct (decode_run_summary dt env w) as (Htr & _ & Hjob).
    rewrite Hjob, Htr. apply worker_trace_end; assumption.
Qed.

Lemma worker_outcome_witness :
  ended_as (m_job (run_encode report_task (calm quiet_engine) report_world)) true
           "uuid1_report.mp4" ""
  /\ ended_as (m_job (run_encode report_task input_gone report_world)) false
              "uuid1_report.mp4"
              "[Errno 2] No such file or directory: 'uploads/uuid0_report.pdf'".
Proof.
  split.
  - exact (proj1 (worker_outcome report_task stray_task (calm quiet_engine) report_world
                    eq_refl eq_refl eq_refl eq_refl)).
  - exact (proj1 (worker_outcome report_task stray_task input_gone report_world
                    eq_refl eq_refl eq_refl eq_refl)).
Defined.

Lemma cleanup_fs_lookup env p fs q :
  cleanup_fs env p fs !! q =
    if decide (q = p) then (if env_unlink_fault env then fs !! p else None) else fs !! q.
Proof.
  unfold cleanup_fs. destruct (decide (q = p)) as [->|Hne].
  - destruct (fs !! p) eqn:Hp; [destruct (env_unlink_fault env)|];
      rewrite ?lookup_delete_eq, ?Hp; try reflexivity.
    destruct (env_unlink_fault env); reflexivity.
  - destruct (fs !! p); [destruct (env_unlink_fault env)|]; try reflexivity.
    apply lookup_delete_ne. congruence.
Qed.

(** X2. No upload is left behind: whatever the outcome of the run
    (success, engine failure, fault), the worker's [finally] clause has
    removed its input file, unless the operating system refuses the
    unlink. *)
Theorem upload_removed_after_run (t : EncodeTask) (dt : DecodeTask) (env : Env) (w : World) :
  env_unlink_fault env = false ->
  m_fs (run_encode t env w) !! et_input_path t = None
  /\ m_fs (run_decode dt env w) !! dt_input_path dt = None.
Proof.
  intros Hfault. split.
  - destruct (encode_run_state t env w) as [-> _].
    rewrite cleanup_fs_lookup, Hfault. rewrite decide_True by reflexivity. reflexivity.
  - destruct (decode_run_state dt env w) as [-> _].
    rewrite cleanup_fs_lookup, Hfault. rewrite decide_True by reflexivity. reflexivity.
Qed.

Lemma upload_removed_after_run_witness :
  w_fs report_world !! "uploads/uuid0_report.pdf" = Some (mkFile 100 "ab12")
  /\ m_fs (run_encode report_task (calm (silent_engine 3)) report_world)
       !! "uploads/uuid0_report.pdf" = None.
Proof.
  split; [vm_compute; reflexivity|].
  exact (proj1 (upload_removed_after_run report_task stray_task (calm (silent_engine 3))
                  report_world eq_refl)).
Defined.

Lemma worker_fs_body_other input_path output_path env w q :
  q <> input_path -> q <> output_path ->
  worker_fs_body input_path output_path env w !! q = w_fs w !! q.
Proof.
  intros Hi Ho. unfold worker_fs_body, fs_after_engine.
  destruct (input_found input_path env w).
  - destruct (eng_create (env_engine env)); [|reflexivity].
    destruct (reaches_registry input_path output_path env w);
      destruct (eng_output (env_engine env));
      destruct (env_output_lost_before_registry env);
      destruct (env_output_lost_before_log env);
      rewrite ?lookup_delete_ne, ?lookup_insert_ne by congruence; reflexivity.
  - destruct (env_input_lost env); rewrite ?lookup_delete_ne by congruence; reflexivity.
Qed.

Lemma worker_fs_body_output input_path output_path env w f :
  run_succeeds input_path output_path env w = true ->
  eng_output (env_engine env) = Some f ->
  worker_fs_body input_path output_path env w !! output_path = Some f.
Proof.
  unfold run_succeeds, worker_fs_body, reaches_registry, output_kept, fs_after_engine.
  destruct (input_found input_path env w); [|discriminate].
  destruct (eng_create (env_engine env)); [|discriminate].
  intros Hok Hout. rewrite Hout in *.
  apply andb_prop in Hok. destruct Hok as [Hok Hkept].
  rewrite Hok.
  apply andb_prop in Hkept. destruct Hkept as [H1 H2].
  apply negb_true_iff in H1, H2. rewrite H1, H2.
  apply lookup_insert_eq.
Qed.

Lemma encode_run_other_files t env w q :
  q <> et_input_path t -> q <> et_output_path t ->
  m_fs (run_encode t env w) !! q = w_fs w !! q.
Proof.
  intros Hi Ho. destruct (encode_run_state t env w) as [Hfs _]. cbv zeta in Hfs.
  rewrite Hfs, cleanup_fs_lookup, decide_False by exact Hi.
  apply worker_fs_body_other; assumption.
Qed.

Lemma decode_run_other_files t env w q :
  q <> dt_input_path t -> q <> dt_output_path t ->
  m_fs (run_decode t env w) !! q = w_fs w !! q.
Proof.
  intros Hi Ho. destruct (decode_run_state t env w) as [Hfs _]. cbv zeta in Hfs.
  rewrite Hfs, cleanup_fs_lookup, decide_False by exact Hi.
  apply worker_fs_body_other; assumption.
Qed.

Lemma worker_files_unchanged row input_path output_path env w :
  input_found input_path env w = None
  \/ eng_create (env_engine env) = None
  \/ eng_status (env_engine env) <> ErrorCode.SUCCESS
  \/ fs_after_engine output_path env w !! output_path = None
  \/ env_output_lost_before_registry env = true
  \/ is_Some (env_db_fault env)
  \/ (exists r, In r (w_files w) /\ row_id r = env_record_id env /\
                forall st, row_id (row st) = env_record_id env) ->
  worker_files row input_path output_path env w = w_files w.
Proof.
  unfold worker_files, reaches_registry, registry_after.
  intros H.
  destruct (input_found input_path env w); [|reflexivity].
  destruct (eng_create (env_engine env)); [|reflexivity].
  destruct (Z.eqb_spec (eng_status (env_engine env)) ErrorCode.SUCCESS) as [Hs|Hs];
    [|reflexivity].
  destruct (fs_after_engine output_path env w !! output_path) as [st|] eqn:Hout.
  2:{ rewrite bool_decide_eq_false_2 by (intros [? ?]; discriminate). reflexivity. }
  rewrite bool_decide_eq_true_2 by (eexists; reflexivity). cbn [andb].
  destruct (env_output_lost_before_registry env); [reflexivity|].
  destruct (env_db_fault env) as [msg|]; [reflexivity|].
  destruct H as [H|[H|[H|[H|[H|[H|H]]]]]]; try discriminate; try contradiction.
  - destruct H as [? H]; discriminate.
  - destruct H as (r & Hin & Hid & Hrow).
    assert (Hex : existsb (fun r0 => String.eqb (row_id r0) (row_id (row st))) (w_files w)
                  = true).
    { apply List.existsb_exists. exists r. split; [exact Hin|].
      rewrite Hrow, Hid. apply String.eqb_refl. }
    rewrite Hex. reflexivity.
Qed.

Lemma worker_files_appended row input_path output_path env w f h st :
  input_found input_path env w = Some f ->
  eng_create (env_engine env) = Some h ->
  eng_status (env_engine env) = ErrorCode.SUCCESS ->
  eng_output (env_engine env) = Some st ->
  env_output_lost_before_registry env = false ->
  env_db_fault env = None ->
  (forall r, In r (w_files w) -> row_id r <> row_id (row st)) ->
  worker_files row input_path output_path env w = (w_files w ++ [row st])%list.
Proof.
  unfold worker_files, reaches_registry, registry_after, fs_after_engine.
  intros -> -> -> -> -> -> Hfresh.
  rewrite lookup_insert_eq.
  rewrite bool_decide_eq_true_2 by (eexists; reflexivity). cbn.
  destruct (existsb _ (w_files w)) eqn:Hex; [|reflexivity].
  apply List.existsb_exists in Hex. destruct Hex as (r & Hin & Heq).
  apply String.eqb_eq in Heq. exfalso. exact (Hfresh r Hin Heq).
Qed.

(** X4. The record of an encode job. When the upload is there and the
    engine hands out a handle, reports success and writes its output, and
    neither the database nor another actor interferes, the run appends
    exactly one row to the table: type ["encoded"], the client's file name
    as name and as origin, the size of the output, the download url of the
    output, no checksum. A run that stops earlier, or whose registry step
    fails, leaves the table as it was. *)
Theorem encode_registers_record (t : EncodeTask) (env : Env) (w : World) :
  (forall f h st,
     input_found (et_input_path t) env w = Some f ->
     eng_create (env_engine env) = Some h ->
     eng_status (env_engine env) = ErrorCode.SUCCESS ->
     eng_output (env_engine env) = Some st ->
     env_output_lost_before_registry env = false ->
     env_db_fault env = None ->
     (forall r, In r (w_files w) -> row_id r <> env_record_id env) ->
     m_files (run_encode t env w)
     = List.app (w_files w)
        [mkRow (env_record_id env) (et_filename t) "encoded" (st_size st) (env_now env)
               (Some ("/api/download/" ++ et_output_name t)) (Some (et_filename t))
               None None])
  /\ (input_found (et_input_path t) env w = None
      \/ eng_create (env_engine env) = None
      \/ eng_status (env_engine env) <> ErrorCode.SUCCESS
      \/ fs_after_engine (et_output_path t) env w !! et_output_path t = None
      \/ env_output_lost_before_registry env = true
      \/ is_Some (env_db_fault env)
      \/ (exists r, In r (w_files w) /\ row_id r = env_record_id env) ->
      m_files (run_encode t env w) = w_files w).
Proof.
  destruct (encode_run_state t env w) as [_ Hfiles]. cbv zeta in Hfiles. rewrite Hfiles.
  split.
  - intros f h st Hin Hc Hs Ho Hl Hdb Hfresh.
    apply (worker_files_appended (encode_row t env) _ _ _ _ f h st); assumption.
  - intros H. apply worker_files_unchanged.
    destruct H as [H|[H|[H|[H|[H|[H|(r & Hin & Hid)]]]]]]; auto 10.
    do 6 right. exists r. split; [exact Hin|]. split; [exact Hid|]. reflexivity.
Qed.

(** X5. The record of a decode job. Under the same conditions the run
    appends exactly one row: type ["original"], the origin name found at
    submission as name and origin (the output name as name, and no origin,
    when none was found), the size and the SHA-256 checksum of the
    recovered file, its download url. Otherwise the table is left as it
    was. *)
Theorem decode_registers_record (t : DecodeTask) (env : Env) (w : World) :
  (forall f h st,
     input_found (dt_input_path t) env w = Some f ->
     eng_create (env_engine env) = Some h ->
     eng_status (env_engine env) = ErrorCode.SUCCESS ->
     eng_output (env_engine env) = Some st ->
     env_output_lost_before_registry env = false ->
     env_db_fault env = None ->
     (forall r, In r (w_files w) -> row_id r <> env_record_id env) ->
     m_files (run_decode t env w)
     = List.app (w_files w)
        [mkRow (env_record_id env)
               (match dt_original_filename t with
                | Some o => if String.eqb o "" then dt_output_name t else o
                | None => dt_output_name t
                end)
               "original" (st_size st) (env_now env)
               (Some ("/api/download/" ++ dt_output_name t)) (dt_original_filename t)
               (Some (sha256 st)) None])
  /\ (input_found (dt_input_path t) env w = None
      \/ eng_create (env_engine env) = None
      \/ eng_status (env_engine env) <> ErrorCode.SUCCESS
      \/ fs_after_engine (dt_output_path t) env w !! dt_output_path t = None
      \/ env_output_lost_before_registry env = true
      \/ is_Some (env_db_fault env)
      \/ (exists r, In r (w_files w) /\ row_id r = env_record_id env) ->
      m_files (run_decode t env w) = w_files w).
Proof.
  destruct (decode_run_state t env w) as [_ Hfiles]. cbv zeta in Hfiles. rewrite Hfiles.
  split.
  - intros f h st Hin Hc Hs Ho Hl Hdb Hfresh.
    rewrite (worker_files_appended (decode_row t env) _ _ _ _ f h st) by assumption.
    unfold decode_row, Py.truthy.
    destruct (dt_original_filename t) as [o|]; [|reflexivity].
    destruct (String.eqb o ""); reflexivity.
  - intros H. apply worker_files_unchanged.
    destruct H as [H|[H|[H|[H|[H|[H|(r & Hin & Hid)]]]]]]; auto 10.
    do 6 right. exists r. split; [exact Hin|]. split; [exact Hid|]. reflexivity.
Qed.

Lemma encode_registers_record_witness :
  m_files (run_encode report_task (calm quiet_engine) report_world)
  = [mkRow "record-1" "report.pdf" "encoded" 555 "2024-05-01T10:00:00"
           (Some "/api/download/uuid1_report.mp4") (Some "report.pdf") None None].
Proof.
  destruct (encode_registers_record report_task (calm quiet_engine) report_world) as [H _].
  apply (H (mkFile 100 "ab12") 1 (mkFile 555 "9f2c")); try reflexivity.
  intros r [].
Defined.

Lemma decode_registers_record_witness :
  m_files (run_decode stray_task (calm quiet_engine) (world_of stray_submission))
  = [mkRow "record-1" "uuid1_decoded.bin" "original" 555 "2024-05-01T10:00:00"
           (Some "/api/download/uuid1_decoded.bin") None (Some "9f2c") None].
Proof.
  destruct (decode_registers_record stray_task (calm quiet_engine)
              (world_of stray_submission)) as [H _].
  apply (H (mkFile 2048 "77aa") 1 (mkFile 555 "9f2c")); try reflexivity.
  intros r [].
Defined.

Lemma filter_none_app {A} (p : A -> bool) (l : list A) (x : A) :
  (forall r, In r l -> p r = false) -> p x = true ->
  List.filter p (l ++ [x]) = [x].
Proof.
  intros Hall Hx. rewrite List.filter_app. simpl. rewrite Hx.
  assert (Hnil : List.filter p l = []).
  { induction l as [|a l IH]; [reflexivity|]. simpl.
    rewrite (Hall a) by (left; reflexivity). apply IH.
    intros r Hr. apply Hall. right. exact Hr. }
  rewrite Hnil. reflexivity.
Qed.

(** X6. Provenance round trip. Once an encode job has registered its
    record, a decode submission of the artifact under the name it was
    stored with (a name [secure_filename] leaves as it is) finds the
    client's original file name and names the recovered file after it:
    a fresh identifier, ["_"], and the final path component of that
    name. *)
Theorem encode_then_decode_recovers_name (secure_filename : string -> string)
    (uuid_of : nat -> string) (seen : JobStatus) (t : EncodeTask) (env : Env) (w : World)
    (f st : FileData) (h : Z) (req : Request) (file : FileStorage) :
  input_found (et_input_path t) env w = Some f ->
  eng_create (env_engine env) = Some h ->
  eng_status (env_engine env) = ErrorCode.SUCCESS ->
  eng_output (env_engine env) = Some st ->
  env_output_lost_before_registry env = false ->
  env_db_fault env = None ->
  (forall r, In r (w_files w) -> row_id r <> env_record_id env) ->
  (forall r, In r (w_files w) ->
             row_video_url r <> Some ("/api/download/" ++ et_output_name t)) ->
  et_filename t <> "" ->
  multi_get (req_files req) "file" = Some file ->
  up_filename file <> "" ->
  secure_filename (up_filename file) = et_output_name t ->
  let w' := worker_done (run_encode t env w) w in
  exists resp w'' dt,
    decode_video secure_filename uuid_of seen false req w' = (resp, w'', Some dt)
    /\ dt_original_filename dt = Some (et_filename t)
    /\ dt_output_name dt = uuid_of (S (w_uuids w')) ++ "_" ++ Py.name (et_filename t).
Proof.
  intros Hin Hc Hs Ho Hl Hdb Hfresh Hurl Hname Hfile Hup Hsec w'.
  destruct (encode_registers_record t env w) as [Hrow _].
  specialize (Hrow f h st Hin Hc Hs Ho Hl Hdb Hfresh).
  unfold decode_video. rewrite Hfile.
  destruct (String.eqb_spec (up_filename file) "") as [He|_]; [contradiction|].
  simpl. do 3 eexists. split; [reflexivity|]. simpl.
  unfold find_origin_name, select_latest_by_url. rewrite Hsec, Hrow.
  rewrite filter_none_app.
  - assert (Hne : String.eqb (et_filename t) "" = false)
      by (apply String.eqb_neq; exact Hname).
    simpl. unfold decode_output_name, Py.truthy. simpl. rewrite !Hne. simpl. rewrite !Hne.
    simpl. split; [reflexivity|]. rewrite stem_suffix_name. reflexivity.
  - intros r Hr. unfold matches_url. specialize (Hurl r Hr).
    destruct (row_video_url r) as [u|]; [|reflexivity].
    apply String.eqb_neq. congruence.
  - unfold matches_url. simpl. apply String.eqb_refl.
Qed.

Lemma encode_then_decode_recovers_name_witness :
  let w' := worker_done (run_encode report_task (calm quiet_engine) report_world)
                        report_world in
  let req := mkRequest [("file", mkUpload "uuid1_report.mp4" (mkFile 555 "9f2c"))] [] in
  exists resp w'' dt,
    decode_video secure_filename_ascii uuid_sample PENDING false req w' = (resp, w'', Some dt)
    /\ dt_original_filename dt = Some "report.pdf"
    /\ dt_output_name dt = "uuid4_report.pdf".
Proof.
  cbv zeta.
  apply (encode_then_decode_recovers_name secure_filename_ascii uuid_sample PENDING report_task
           (calm quiet_engine) report_world (mkFile 100 "ab12") (mkFile 555 "9f2c") 1
           (mkRequest [("file", mkUpload "uuid1_report.mp4" (mkFile 555 "9f2c"))] [])
           (mkUpload "uuid1_report.mp4" (mkFile 555 "9f2c")));
    try reflexivity; try (intros r []); vm_compute; discriminate.
Defined.

(** ** The parameters of an encode session *)

Lemma string_of_uint_digits (d : Decimal.uint) :
  all_digits (NilZero.string_of_uint d) = true.
Proof.
  assert (H : forall u, all_digits (NilEmpty.string_of_uint u) = true).
  { induction u; simpl; [reflexivity|..]; exact IHu. }
  destruct d; try apply H. reflexivity.
Qed.

Lemma digit_not_space (c : ascii) : Py.is_digit c = true -> Py.is_int_space c = false.
Proof.
  unfold Py.is_digit, Py.is_int_space. cbv zeta.
  generalize (nat_of_ascii c). intros n H.
  apply andb_prop in H. destruct H as [H1 H2].
  apply Nat.leb_le in H1. apply Nat.leb_le in H2.
  repeat match goal with
         | |- context [(?a <=? ?b)%nat] => destruct (Nat.leb_spec a b)
         | |- context [(?a =? ?b)%nat] => destruct (Nat.eqb_spec a b)
         end; simpl; try reflexivity; lia.
Qed.

Lemma strip_right_digits (s : string) : all_digits s = true -> Py.strip_right s = s.
Proof.
  induction s as [|c s IH]; [reflexivity|]. simpl. intros H.
  apply andb_prop in H. destruct H as [Hc Hs].
  rewrite (IH Hs), (digit_not_space c Hc). destruct s; reflexivity.
Qed.

Lemma strip_left_digits (s : string) : all_digits s = true -> Py.strip_left s = s.
Proof.
  destruct s as [|c s]; [reflexivity|]. simpl. intros H.
  apply andb_prop in H. destruct H as [Hc _].
  rewrite (digit_not_space c Hc). reflexivity.
Qed.

Lemma digits_all (s : string) : all_digits s = true -> Py.digits true s = Some s.
Proof.
  induction s as [|c s IH]; [reflexivity|]. simpl. intros H.
  apply andb_prop in H. destruct H as [Hc Hs].
  rewrite Hc, (IH Hs). reflexivity.
Qed.

Lemma digits_nonempty (s : string) :
  all_digits s = true -> s <> "" -> Py.digits false s = Some s.
Proof.
  destruct s as [|c s]; [congruence|]. simpl. intros H _.
  apply andb_prop in H. destruct H as [Hc Hs].
  rewrite Hc, (digits_all s Hs). reflexivity.
Qed.

Lemma string_of_uint_nonempty (d : Decimal.uint) : NilZero.string_of_uint d <> "".
Proof. destruct d; simpl; discriminate. Qed.

Lemma nat_literal_uint (d : Decimal.uint) :
  d <> Decimal.Nil -> Py.nat_literal (NilZero.string_of_uint d) = Some (Z.of_uint d).
Proof.
  intros Hd. unfold Py.nat_literal.
  rewrite (digits_nonempty _ (string_of_uint_digits d) (string_of_uint_nonempty d)).
  rewrite NilZero.usu by exact Hd. reflexivity.
Qed.

Lemma head_digit_not_sign (c : ascii) (s : string) :
  Py.is_digit c = true ->
  match String c s with
  | String "+"%char rest => Py.nat_literal rest
  | String "-"%char rest => option_map Z.opp (Py.nat_literal rest)
  | t => Py.nat_literal t
  end = Py.nat_literal (String c s).
Proof.
  intros Hc. destruct c as [[] [] [] [] [] [] [] []]; try reflexivity; discriminate.
Qed.

(** What [int] accepts besides the plain decimal literal, and what it
    does not. *)
Example int_of_str_samples :
  List.map Py.int_of_str
           ["+12"; "-12"; " 7 "; "1_000"; "007"; "-0";
            String (ascii_of_nat 160) "42"; String (ascii_of_nat 9) "42"]
  = [Some 12; Some (-12); Some 7; Some 1000; Some 7; Some 0; Some 42; Some 42]
  /\ List.map Py.int_of_str
              [""; " "; "+"; "-"; "+ 12"; "--1"; "1 2"; "_1"; "1_"; "1__0"; "0x10"; "1e3"; "1.0";
               String (ascii_of_nat 28) "42"]
     = List.repeat None 14.
Proof. vm_compute. split; reflexivity. Qed.

(** [int(str(n)) == n]. *)
Lemma int_of_str_of_int (n : Z) : Py.int_of_str (Py.str_of_int n) = Some n.
Proof.
  unfold Py.int_of_str, Py.str_of_int.
  destruct n as [|p|p].
  - reflexivity.
  - change (NilZero.string_of_int (Z.to_int (Zpos p)))
      with (NilZero.string_of_uint (Pos.to_uint p)).
    pose proof (string_of_uint_digits (Pos.to_uint p)) as Had.
    rewrite strip_left_digits, strip_right_digits by exact Had.
    pose proof (nat_literal_uint (Pos.to_uint p) (DecimalPos.Unsigned.to_uint_nonnil p)) as Hn.
    destruct (NilZero.string_of_uint (Pos.to_uint p)) as [|c s] eqn:Hs.
    + simpl. exact (eq_trans Hn (f_equal Some (DecimalZ.of_to (Zpos p)))).
    + simpl in Had. apply andb_prop in Had. destruct Had as [Hc _].
      rewrite head_digit_not_sign by exact Hc.
      rewrite Hn. f_equal. exact (DecimalZ.of_to (Zpos p)).
  - change (NilZero.string_of_int (Z.to_int (Zneg p)))
      with (String "-"%char (NilZero.string_of_uint (Pos.to_uint p))).
    pose proof (string_of_uint_digits (Pos.to_uint p)) as Had.
    change (Py.strip_left (String "-" (NilZero.string_of_uint (Pos.to_uint p))))
      with (String "-"%char (NilZero.string_of_uint (Pos.to_uint p))).
    assert (Hr : Py.strip_right (String "-" (NilZero.string_of_uint (Pos.to_uint p)))
                 = String "-"%char (NilZero.string_of_uint (Pos.to_uint p))).
    { simpl. rewrite strip_right_digits by exact Had.
      destruct (NilZero.string_of_uint (Pos.to_uint p)); reflexivity. }
    rewrite Hr.
    rewrite (nat_literal_uint (Pos.to_uint p) (DecimalPos.Unsigned.to_uint_nonnil p)).
    simpl. f_equal. exact (DecimalZ.of_to (Zneg p)).
Qed.

Lemma form_get_int_decimal form key d (o : option Z) :
  multi_get form key = option_map Py.str_of_int o ->
  form_get_int form key d = default d o.
Proof.
  unfold form_get_int. intros ->. destruct o as [n|]; simpl; [|reflexivity].
  rewrite int_of_str_of_int. reflexivity.
Qed.

Lemma encode_file_started secure_filename uuid_of seen req w resp w' t :
  encode_file secure_filename uuid_of seen req w = (resp, w', Some t) ->
  (exists content, w_fs w' !! et_input_path t = Some content)
  /\ et_width t = form_get_int (req_form req) "width" 1920
  /\ et_height t = form_get_int (req_form req) "height" 1080
  /\ et_fps t = form_get_int (req_form req) "fps" 30
  /\ et_chunk_size t = form_get_int (req_form req) "chunk_size" 4096.
Proof.
  unfold encode_file.
  destruct (multi_get (req_files req) "file") as [file|]; [|discriminate].
  destruct (String.eqb (up_filename file) ""); [discriminate|].
  simpl. intros [= _ <- <-]. simpl. split; [eexists; apply lookup_insert_eq|].
  repeat split; reflexivity.
Qed.

(** X7. An encode job opens its session with the numbers of the request's
    form: width, height and frame rate reduced modulo 2^32 and the chunk
    size modulo 2^64, as ctypes converts them, without any check of their
    range; a field the form does not carry takes its default (1920, 1080,
    30, 4096). No other create call is made. *)
Theorem encode_session_parameters (secure_filename : string -> string)
    (uuid_of : nat -> string) (seen : JobStatus) (req : Request) (w : World) (env : Env)
    (resp : Response) (w' : World) (t : EncodeTask) (width height fps chunk : option Z) :
  encode_file secure_filename uuid_of seen req w = (resp, w', Some t) ->
  multi_get (req_form req) "width" = option_map Py.str_of_int width ->
  multi_get (req_form req) "height" = option_map Py.str_of_int height ->
  multi_get (req_form req) "fps" = option_map Py.str_of_int fps ->
  multi_get (req_form req) "chunk_size" = option_map Py.str_of_int chunk ->
  let calls := m_lib (run_encode t env w') in
  let create := f2v2f_encode_create (default 1920 width mod 2 ^ 32)
                                    (default 1080 height mod 2 ^ 32)
                                    (default 30 fps mod 2 ^ 32)
                                    (default 4096 chunk mod 2 ^ 64)
                                    (eng_create (env_engine env)) in
  (forall c, In c calls -> is_create c = true -> c = create)
  /\ (env_input_lost env = false -> List.head calls = Some create).
Proof.
  intros Hstart Hw Hh Hf Hc. cbv zeta.
  destruct (encode_file_started _ _ _ _ _ _ _ _ Hstart) as ([content Hin] & Ew & Eh & Ef & Ec).
  destruct (encode_run_summary t env w') as (_ & -> & _).
  rewrite Ew, Eh, Ef, Ec.
  rewrite (form_get_int_decimal _ _ _ _ Hw), (form_get_int_decimal _ _ _ _ Hh),
    (form_get_int_decimal _ _ _ _ Hf), (form_get_int_decimal _ _ _ _ Hc).
  unfold worker_calls, input_found, Py.c_uint32, Py.c_size_t. split.
  - intros c Hcall Hcreate.
    destruct (env_input_lost env); [destruct Hcall|].
    rewrite Hin in Hcall.
    destruct (eng_create (env_engine env)) as [h|];
      [destruct (Z.eqb (eng_status (env_engine env)) ErrorCode.SUCCESS);
       [|destruct (eng_last_error (env_engine env))]|];
      simpl in Hcall;
      repeat (destruct Hcall as [<-|Hcall]; [first [reflexivity|discriminate]|]);
      destruct Hcall.
  - intros ->. rewrite Hin. destruct (eng_create (env_engine env)); reflexivity.
Qed.

(** A width of -1 reaches the engine as 4294967295; the frame rate is
    left to its default. *)
Lemma encode_session_parameters_witness :
  let req := mkRequest [("file", mkUpload "report.pdf" (mkFile 100 "ab12"))]
                       [("width", "-1"); ("height", "720"); ("chunk_size", "65536")] in
  let sub := encode_file secure_filename_ascii uuid_sample PENDING req empty_world in
  List.head (m_lib (run_encode (task_of sub no_encode_task) (calm quiet_engine) (world_of sub)))
  = Some (f2v2f_encode_create 4294967295 720 30 65536 (Some 1)).
Proof.
  cbv zeta.
  set (req := mkRequest [("file", mkUpload "report.pdf" (mkFile 100 "ab12"))]
                        [("width", "-1"); ("height", "720"); ("chunk_size", "65536")]).
  set (sub := encode_file secure_filename_ascii uuid_sample PENDING req empty_world).
  apply (encode_session_parameters secure_filename_ascii uuid_sample PENDING req empty_world
           (calm quiet_engine) (fst (fst sub)) (world_of sub) (task_of sub no_encode_task)
           (Some (-1)) (Some 720) None (Some 65536)); reflexivity.
Defined.

(** ** The status endpoint *)

(** A worker never changes the identity of its job. *)
Lemma worker_trace_identity j0 input_path output_path output_name create_msg missing_msg
    env w j :
  In j (worker_trace j0 input_path output_path output_name create_msg missing_msg env w) ->
  job_id j = job_id j0 /\ operation j = operation j0.
Proof.
  unfold worker_trace, failed.
  destruct (input_found input_path env w) as [f|].
  2:{ simpl. intros [<-|[<-|[<-|[<-|[]]]]]; split; reflexivity. }
  destruct (eng_create (env_engine env)) as [h|].
  2:{ simpl. intros [<-|[<-|[<-|[<-|[<-|[]]]]]]; split; reflexivity. }
  set (jt := with_total_size (st_size f) (with_status RUNNING j0)).
  destruct (callback_jobs_last jt (callback_values jt (eng_progress (env_engine env))))
    as [p Hlast].
  cbv zeta. rewrite Hlast. intros Hj.
  apply List.in_app_or in Hj. destruct Hj as [[<-|[<-|[<-|[]]]]|Hj]; try (split; reflexivity).
  apply List.in_app_or in Hj. destruct Hj as [Hj|Hj].
  { apply List.in_map_iff in Hj. destruct Hj as (q & <- & _). split; reflexivity. }
  destruct (negb (Z.eqb (eng_status (env_engine env)) ErrorCode.SUCCESS));
    [simpl in Hj; destruct Hj as [<-|[<-|[]]]; split; reflexivity|].
  destruct (negb (bool_decide (is_Some (fs_after_engine output_path env w !! output_path))));
    [simpl in Hj; destruct Hj as [<-|[<-|[]]]; split; reflexivity|].
  destruct (output_kept env); simpl in Hj;
    repeat (destruct Hj as [<-|Hj]; [split; reflexivity|]); destruct Hj.
Qed.

Lemma get_status_during (id : string) (j : Job) (jobs : gmap string Job) (w w'' : World) :
  job_id j = id ->
  w_jobs w'' = <[id := j]> jobs ->
  (forall other, other <> id -> jobs !! other = w_jobs w !! other) ->
  get_status id w'' = mkJsonResponse 200 (JObj (status_body j))
  /\ forall other, other <> id -> get_status other w'' = get_status other w.
Proof.
  intros Hid Hjobs Hother. unfold get_status. rewrite Hjobs. split.
  - rewrite lookup_insert_eq. reflexivity.
  - intros other Hne. rewrite lookup_insert_ne by congruence.
    rewrite (Hother other Hne). reflexivity.
Qed.

(** X8. The id a submission answers with is known to the status endpoint
    from then on. The worker is started before the response is built, so
    the job may show any value of its history when a status request
    comes: whichever it is, the endpoint answers 200 (never 404) with
    that id, the operation, and the status and progress the job shows at
    that moment. Until the worker takes its first step that is
    ["pending"] with progress 0, and neither an error nor a result url.
    The response to the submission names the status the handler read.
    The answers for all other ids are what they were. *)
Theorem submitted_job_is_known (secure_filename : string -> string)
    (uuid_of : nat -> string) (seen : JobStatus) (db_fault : bool) (req : Request)
    (w : World) (env : Env) :
  (forall resp w' t,
     encode_file secure_filename uuid_of seen req w = (resp, w', Some t) ->
     let id := job_id (et_job t) in
     resp_code resp = 202
     /\ multi_get (resp_body resp) "job_id" = Some id
     /\ multi_get (resp_body resp) "status" = Some (status_value seen)
     /\ get_status id w'
        = mkJsonResponse 200 (JObj [("job_id", JStr id); ("operation", JStr "encode");
                                    ("status", JStr "pending"); ("progress", JInt 0)])
     /\ (forall j w'', In j (m_trace (run_encode t env w')) ->
                       w_jobs w'' = <[id := j]> (w_jobs w') ->
                       get_status id w'' = mkJsonResponse 200 (JObj (status_body j))
                       /\ job_id j = id /\ operation j = "encode"
                       /\ forall other, other <> id ->
                                        get_status other w'' = get_status other w))
  /\ (forall resp w' t,
        decode_video secure_filename uuid_of seen db_fault req w = (resp, w', Some t) ->
        let id := job_id (dt_job t) in
        resp_code resp = 202
        /\ multi_get (resp_body resp) "job_id" = Some id
        /\ multi_get (resp_body resp) "status" = Some (status_value seen)
        /\ get_status id w'
           = mkJsonResponse 200 (JObj [("job_id", JStr id); ("operation", JStr "decode");
                                       ("status", JStr "pending"); ("progress", JInt 0)])
        /\ (forall j w'', In j (m_trace (run_decode t env w')) ->
                          w_jobs w'' = <[id := j]> (w_jobs w') ->
                          get_status id w'' = mkJsonResponse 200 (JObj (status_body j))
                          /\ job_id j = id /\ operation j = "decode"
                          /\ forall other, other <> id ->
                                           get_status other w'' = get_status other w)).
Proof.
  split; intros resp w' t Hstart.
  - destruct (encode_run_summary t env w') as (Htr & _ & _). rewrite Htr. clear Htr.
    revert Hstart. unfold encode_file.
    destruct (multi_get (req_files req) "file") as [file|]; [|discriminate].
    destruct (String.eqb (up_filename file) ""); [discriminate|].
    simpl. intros [= <- <- <-]. cbn [et_job et_input_path et_output_path et_output_name
                                      job_id new_job resp_code resp_body].
    split; [reflexivity|]. split; [reflexivity|]. split; [reflexivity|]. split.
    { unfold get_status. simpl. rewrite lookup_insert_eq. reflexivity. }
    intros j w'' Hj Hjobs. apply worker_trace_identity in Hj. destruct Hj as [Hid Hop].
    cbn [job_id operation new_job] in Hid, Hop.
    destruct (get_status_during _ j _ w w'' Hid Hjobs) as [Hs Ho].
    { intros other Hne. simpl. rewrite lookup_insert_ne by congruence. reflexivity. }
    split; [exact Hs|]. split; [exact Hid|]. split; [exact Hop|exact Ho].
  - destruct (decode_run_summary t env w') as (Htr & _ & _). rewrite Htr. clear Htr.
    revert Hstart. unfold decode_video.
    destruct (multi_get (req_files req) "file") as [file|]; [|discriminate].
    destruct (String.eqb (up_filename file) ""); [discriminate|].
    simpl. intros [= <- <- <-]. cbn [dt_job dt_input_path dt_output_path dt_output_name
                                      job_id new_job resp_code resp_body].
    split; [reflexivity|]. split; [reflexivity|]. split; [reflexivity|]. split.
    { unfold get_status. simpl. rewrite lookup_insert_eq. reflexivity. }
    intros j w'' Hj Hjobs. apply worker_trace_identity in Hj. destruct Hj as [Hid Hop].
    cbn [job_id operation new_job] in Hid, Hop.
    destruct (get_status_during _ j _ w w'' Hid Hjobs) as [Hs Ho].
    { intros other Hne. simpl. rewrite lookup_insert_ne by congruence. reflexivity. }
    split; [exact Hs|]. split; [exact Hid|]. split; [exact Hop|exact Ho].
Qed.

(** A submission answered while its worker is already running, and a
    status request that comes when the first report (29 of 100 bytes) has
    been handled. *)
Lemma submitted_job_is_known_witness :
  let resp := fst (fst (encode_file secure_filename_ascii uuid_sample RUNNING report_request
                                    empty_world)) in
  let j := nth 3 (m_trace (run_encode report_task (calm paced_engine) report_world))
               (et_job report_task) in
  multi_get (resp_body resp) "status" = Some "running"
  /\ get_status "uuid2" (mkWorld (<["uuid2" := j]> (w_jobs report_world)) (w_fs report_world)
                                 (w_files report_world) (w_uuids report_world))
     = mkJsonResponse 200 (JObj [("job_id", JStr "uuid2"); ("operation", JStr "encode");
                                 ("status", JStr "running"); ("progress", JInt 28)])
  /\ get_status "uuid2" empty_world
     = mkJsonResponse 404 (JObj [("error", JStr "Job not found")]).
Proof.
  cbv zeta.
  destruct (submitted_job_is_known secure_filename_ascii uuid_sample RUNNING false
              report_request empty_world (calm paced_engine)) as [H _].
  destruct (H (fst (fst (encode_file secure_filename_ascii uuid_sample RUNNING report_request
                                     empty_world)))
              report_world report_task eq_refl)
    as (_ & _ & Hseen & _ & Hduring).
  split; [exact Hseen|]. split; [|reflexivity].
  destruct (Hduring (nth 3 (m_trace (run_encode report_task (calm paced_engine) report_world))
                         (et_job report_task))
                    (mkWorld (<["uuid2" := nth 3 (m_trace (run_encode report_task
                                                             (calm paced_engine) report_world))
                                               (et_job report_task)]>
                                (w_jobs report_world))
                             (w_fs report_world) (w_files report_world)
                             (w_uuids report_world)))
    as (Hs & _).
  - vm_compute. do 3 right. left. reflexivity.
  - reflexivity.
  - refine (eq_trans Hs _). vm_compute. reflexivity.
Defined.

(** ** Downloading a result *)

Lemma encode_file_output_path secure_filename uuid_of seen req w resp w' t :
  encode_file secure_filename uuid_of seen req w = (resp, w', Some t) ->
  et_output_path t = path_join OUTPUT_FOLDER (et_output_name t).
Proof.
  unfold encode_file.
  destruct (multi_get (req_files req) "file") as [file|]; [|discriminate].
  destruct (String.eqb (up_filename file) ""); [discriminate|].
  simpl. intros [= _ _ <-]. reflexivity.
Qed.

Lemma decode_video_output_path secure_filename uuid_of seen db_fault req w resp w' t :
  decode_video secure_filename uuid_of seen db_fault req w = (resp, w', Some t) ->
  dt_output_path t = path_join OUTPUT_FOLDER (dt_output_name t).
Proof.
  unfold decode_video.
  destruct (multi_get (req_files req) "file") as [file|]; [|discriminate].
  destruct (String.eqb (up_filename file) ""); [discriminate|].
  simpl. intros [= _ _ <-]. reflexivity.
Qed.

(** X9. The result of a job that got through can be fetched under the
    name in its result url, provided [secure_filename] leaves that name
    as it is: the download endpoint sends the file the engine wrote, to
    be saved under that name. *)
Theorem completed_result_is_served (secure_filename : string -> string)
    (uuid_of : nat -> string) (seen : JobStatus) (db_fault : bool) (req : Request)
    (w : World) (env : Env)
    (st : FileData) :
  eng_output (env_engine env) = Some st ->
  (forall resp w' t,
     encode_file secure_filename uuid_of seen req w = (resp, w', Some t) ->
     run_succeeds (et_input_path t) (et_output_path t) env w' = true ->
     et_output_path t <> et_input_path t ->
     secure_filename (et_output_name t) = et_output_name t ->
     download_file secure_filename (et_output_name t)
                   (worker_done (run_encode t env w') w')
     = Sent st (et_output_name t))
  /\ (forall resp w' t,
        decode_video secure_filename uuid_of seen db_fault req w = (resp, w', Some t) ->
        run_succeeds (dt_input_path t) (dt_output_path t) env w' = true ->
        dt_output_path t <> dt_input_path t ->
        secure_filename (dt_output_name t) = dt_output_name t ->
        download_file secure_filename (dt_output_name t)
                      (worker_done (run_decode t env w') w')
        = Sent st (dt_output_name t)).
Proof.
  intros Hout. split; intros resp w' t Hstart Hok Hne Hsec; unfold download_file;
    rewrite Hsec; cbn [worker_done w_fs].
  - rewrite <- (encode_file_output_path _ _ _ _ _ _ _ _ Hstart).
    destruct (encode_run_state t env w') as [Hfs _]. cbv zeta in Hfs. rewrite Hfs.
    rewrite cleanup_fs_lookup, decide_False by exact Hne.
    rewrite (worker_fs_body_output _ _ _ _ st Hok Hout). reflexivity.
  - rewrite <- (decode_video_output_path _ _ _ _ _ _ _ _ _ Hstart).
    destruct (decode_run_state t env w') as [Hfs _]. cbv zeta in Hfs. rewrite Hfs.
    rewrite cleanup_fs_lookup, decide_False by exact Hne.
    rewrite (worker_fs_body_output _ _ _ _ st Hok Hout). reflexivity.
Qed.

Lemma completed_result_is_served_witness :
  download_file secure_filename_ascii "uuid1_report.mp4"
                (worker_done (run_encode report_task (calm quiet_engine) report_world)
                             report_world)
  = Sent (mkFile 555 "9f2c") "uuid1_report.mp4".
Proof.
  destruct (completed_result_is_served secure_filename_ascii uuid_sample PENDING false
              report_request empty_world (calm quiet_engine) (mkFile 555 "9f2c") eq_refl)
    as [H _].
  apply (H (fst (fst report_submission)) report_world report_task);
    [reflexivity|vm_compute; reflexivity|vm_compute; discriminate|vm_compute; reflexivity].
Defined.

(** X10. A result whose name [secure_filename] changes cannot be fetched:
    the worker stores the file under the name as it is, the download
    endpoint looks for the changed name, and unless some other file is
    stored there it answers 404, also for a job that shows Completed with
    this very name in its result url. *)
Theorem changed_result_name_is_not_served (secure_filename : string -> string)
    (uuid_of : nat -> string) (seen : JobStatus) (db_fault : bool) (req : Request)
    (w : World) (env : Env)
    (resp : Response) (w' : World) (t : DecodeTask) :
  decode_video secure_filename uuid_of seen db_fault req w = (resp, w', Some t) ->
  let served := path_join OUTPUT_FOLDER (secure_filename (dt_output_name t)) in
  served <> dt_output_path t -> served <> dt_input_path t ->
  w_fs w' !! served = None -> is_dir served = false ->
  download_file secure_filename (dt_output_name t) (worker_done (run_decode t env w') w')
  = Refused 404 "File not found".
Proof.
  intros Hstart served Ho Hi Hfree Hdir. unfold download_file. fold served.
  cbn [worker_done w_fs].
  rewrite (decode_run_other_files t env w' served Hi Ho), Hfree, Hdir. reflexivity.
Qed.

Lemma changed_result_name_is_not_served_witness :
  let m := run_decode spaced_decode_task calm_again (world_of spaced_decode_submission) in
  status (m_job m) = COMPLETED
  /\ result_url (m_job m) = Some "/api/download/uuid4_my report.pdf"
  /\ m_fs m !! "outputs/uuid4_my report.pdf" = Some (mkFile 100 "ab12")
  /\ download_file secure_filename_ascii "uuid4_my report.pdf"
                   (worker_done m (world_of spaced_decode_submission))
     = Refused 404 "File not found".
Proof.
  cbv zeta. split; [vm_compute; reflexivity|]. split; [vm_compute; reflexivity|].
  split; [vm_compute; reflexivity|].
  apply (changed_result_name_is_not_served secure_filename_ascii uuid_sample PENDING false
           spaced_decode_request spaced_world calm_again
           (fst (fst spaced_decode_submission)) (world_of spaced_decode_submission)
           spaced_decode_task);
    [reflexivity|vm_compute; discriminate|vm_compute; discriminate
    |vm_compute; reflexivity|vm_compute; reflexivity].
Defined.

(** ** The history endpoint *)

Lemma insert_desc_not_nil r rows : insert_desc r rows <> [].
Proof.
  destruct rows as [|r' rest]; simpl; [discriminate|].
  destruct (String.ltb (row_created_at r) (row_created_at r')); discriminate.
Qed.

Lemma build_records_cons row rest :
  build_records (row :: rest)
  = inr "FileRecord.__init__() got an unexpected keyword argument 'chunk_size'".
Proof. reflexivity. Qed.

Lemma get_all_files_raises rows :
  rows <> [] -> exists msg, get_all_files rows = inr msg.
Proof.
  intros Hne. unfold get_all_files, order_by_created_at_desc.
  destruct rows as [|r rows]; [contradiction|]. simpl.
  pose proof (insert_desc_not_nil r (List.fold_right insert_desc [] rows)) as Hins.
  destruct (insert_desc r (List.fold_right insert_desc [] rows)) as [|r' rest];
    [contradiction|].
  rewrite build_records_cons. eexists. reflexivity.
Qed.

(** X11. The history endpoint answers with the empty list while the table
    is empty, and with an error (status 500) as soon as the table holds a
    row: [get_all_files] passes a [chunk_size] keyword to [FileRecord],
    which declares no such field. In particular every encode job that
    registers its record makes the endpoint fail. *)
Theorem history_fails_once_a_record_exists (w : World) (t : EncodeTask) (env : Env)
    (f st : FileData) (h : Z) :
  (w_files w = [] -> get_file_records w = mkJsonResponse 200 (JList []))
  /\ (w_files w <> [] -> jr_code (get_file_records w) = 500)
  /\ (input_found (et_input_path t) env w = Some f ->
      eng_create (env_engine env) = Some h ->
      eng_status (env_engine env) = ErrorCode.SUCCESS ->
      eng_output (env_engine env) = Some st ->
      env_output_lost_before_registry env = false ->
      env_db_fault env = None ->
      (forall r, In r (w_files w) -> row_id r <> env_record_id env) ->
      jr_code (get_file_records (worker_done (run_encode t env w) w)) = 500).
Proof.
  assert (Hfail : forall w0, w_files w0 <> [] -> jr_code (get_file_records w0) = 500).
  { intros w0 Hne. unfold get_file_records.
    destruct (get_all_files_raises _ Hne) as [msg ->]. reflexivity. }
  split; [|split].
  - intros Hempty. unfold get_file_records. rewrite Hempty. reflexivity.
  - apply Hfail.
  - intros Hin Hc Hs Ho Hl Hdb Hfresh. apply Hfail. cbn [worker_done w_files].
    destruct (encode_run_state t env w) as [_ Hfiles]. cbv zeta in Hfiles. rewrite Hfiles.
    rewrite (worker_files_appended (encode_row t env) _ _ _ _ f h st) by assumption.
    intros Heq. apply List.app_eq_nil in Heq. destruct Heq as [_ Heq]. discriminate.
Qed.

Lemma history_fails_once_a_record_exists_witness :
  get_file_records report_world = mkJsonResponse 200 (JList [])
  /\ jr_code (get_file_records
                (worker_done (run_encode report_task (calm quiet_engine) report_world)
                             report_world)) = 500.
Proof.
  destruct (history_fails_once_a_record_exists report_world report_task (calm quiet_engine)
              (mkFile 100 "ab12") (mkFile 555 "9f2c") 1) as (Hempty & _ & Hrun).
  split; [apply Hempty; reflexivity|].
  apply Hrun; try reflexivity. intros r [].
Defined.

(** ** The cleanup endpoint *)

Lemma cleanup_loop_spec now mt paths fs c :
  let out := cleanup_loop now mt paths fs c in
  (forall p, In p paths -> expired now (mt p) = true -> fst out !! p = None)
  /\ (forall p, ~ In p paths \/ expired now (mt p) = false -> fst out !! p = fs !! p)
  /\ Z.of_nat (size (fst out)) + (snd out - c) = Z.of_nat (size fs).
Proof.
  cbv zeta. revert fs c. induction paths as [|p0 rest IH]; intros fs c.
  - simpl. split; [intros p []|]. split; [reflexivity|lia].
  - cbn [cleanup_loop].
    destruct (fs !! p0) as [f0|] eqn:Hp0.
    + rewrite bool_decide_eq_true_2 by (eexists; reflexivity).
      destruct (expired now (mt p0)) eqn:Hexp.
      * destruct (IH (delete p0 fs) (c + 1)) as (Hgone & Hkept & Hsize).
        split; [|split].
        -- intros p [<-|Hin] Hp.
           ++ destruct (List.in_dec String.string_dec p0 rest) as [Hr|Hr];
                [apply Hgone; assumption|].
              rewrite Hkept by (left; exact Hr). apply lookup_delete_eq.
           ++ apply Hgone; assumption.
        -- intros p Hp. rewrite Hkept.
           ++ apply lookup_delete_ne. intros <-.
              destruct Hp as [Hp|Hp]; [apply Hp; left; reflexivity|congruence].
           ++ destruct Hp as [Hp|Hp]; [left; intros Hin; apply Hp; right; exact Hin|].
              right; exact Hp.
        -- rewrite map_size_delete_Some in Hsize by (eexists; exact Hp0).
           assert (size fs <> O).
           { intros Hz. apply map_size_empty_inv in Hz.
             rewrite Hz, lookup_empty in Hp0. discriminate. }
           lia.
      * destruct (IH fs c) as (Hgone & Hkept & Hsize).
        split; [|split; [|exact Hsize]].
        -- intros p [<-|Hin] Hp; [congruence|]. apply Hgone; assumption.
        -- intros p Hp. apply Hkept.
           destruct Hp as [Hp|Hp]; [left; intros Hin; apply Hp; right; exact Hin|].
           right; exact Hp.
    + rewrite bool_decide_eq_false_2 by (intros [? ?]; discriminate).
      destruct (IH fs c) as (Hgone & Hkept & Hsize).
      split; [|split; [|exact Hsize]].
      * intros p [<-|Hin] Hp; [|apply Hgone; assumption].
        destruct (List.in_dec String.string_dec p0 rest) as [Hr|Hr];
          [apply Hgone; assumption|].
        rewrite Hkept by (left; exact Hr). exact Hp0.
      * intros p Hp. apply Hkept.
        destruct Hp as [Hp|Hp]; [left; intros Hin; apply Hp; right; exact Hin|].
        right; exact Hp.
Qed.

Lemma in_glob_star folder fs p :
  In p (glob_star folder fs) <-> is_entry_of folder p = true /\ is_Some (fs !! p).
Proof.
  unfold glob_star. rewrite List.filter_In, List.in_map_iff. split.
  - intros [((k & v) & <- & Hin) He]. split; [exact He|].
    exists v. apply elem_of_map_to_list. apply list_elem_of_In. exact Hin.
  - intros [He [v Hv]]. split; [|exact He].
    exists (p, v). split; [reflexivity|].
    apply list_elem_of_In. apply elem_of_map_to_list. exact Hv.
Qed.

Lemma cleanup_old_files_run now mt w :
  cleanup_old_files now mt w
  = (mkJsonResponse 200
       (JObj [("deleted_files",
               JInt (snd (cleanup_loop now mt (glob_star OUTPUT_FOLDER (w_fs w)) (w_fs w) 0)))]),
     mkWorld (w_jobs w)
             (fst (cleanup_loop now mt (glob_star OUTPUT_FOLDER (w_fs w)) (w_fs w) 0))
             (w_files w) (w_uuids w)).
Proof.
  unfold cleanup_old_files.
  destruct (cleanup_loop now mt (glob_star OUTPUT_FOLDER (w_fs w)) (w_fs w) 0).
  reflexivity.
Qed.

Lemma cleanup_old_files_files now mt w p :
  w_fs (snd (cleanup_old_files now mt w)) !! p
  = if is_entry_of OUTPUT_FOLDER p && expired now (mt p) then None else w_fs w !! p.
Proof.
  rewrite cleanup_old_files_run. cbn [snd w_fs].
  destruct (cleanup_loop_spec now mt (glob_star OUTPUT_FOLDER (w_fs w)) (w_fs w) 0)
    as (Hgone & Hkept & _).
  destruct (is_entry_of OUTPUT_FOLDER p) eqn:He; cbn [andb].
  - destruct (expired now (mt p)) eqn:Hx; [|apply Hkept; right; exact Hx].
    destruct (w_fs w !! p) as [f|] eqn:Hp.
    + apply Hgone; [|exact Hx]. apply in_glob_star. split; [exact He|].
      eexists; exact Hp.
    + rewrite Hkept; [exact Hp|]. left. intros Hin. apply in_glob_star in Hin.
      destruct Hin as [_ [f Hf]]. congruence.
  - apply Hkept. left. intros Hin. apply in_glob_star in Hin.
    destruct Hin as [He' _]. congruence.
Qed.

(** X12. The cleanup endpoint removes exactly the files that lie directly
    in the output folder and are older than 24 hours, and reports how many
    it removed; every other file, the jobs and the table of records stay
    as they are, so the records of removed artifacts remain listed. Run
    again at the same time it removes nothing. *)
Theorem cleanup_removes_expired_outputs (current_time : spec_float)
    (st_mtime : string -> spec_float) (w : World) :
  let resp := fst (cleanup_old_files current_time st_mtime w) in
  let w' := snd (cleanup_old_files current_time st_mtime w) in
  (forall p, w_fs w' !! p
             = if is_entry_of OUTPUT_FOLDER p && expired current_time (st_mtime p)
               then None else w_fs w !! p)
  /\ resp = mkJsonResponse 200
              (JObj [("deleted_files",
                      JInt (Z.of_nat (size (w_fs w)) - Z.of_nat (size (w_fs w'))))])
  /\ w_files w' = w_files w /\ w_jobs w' = w_jobs w
  /\ cleanup_old_files current_time st_mtime w'
     = (mkJsonResponse 200 (JObj [("deleted_files", JInt 0)]), w').
Proof.
  cbv zeta.
  assert (Hcount : forall w0,
            fst (cleanup_old_files current_time st_mtime w0)
            = mkJsonResponse 200
                (JObj [("deleted_files",
                        JInt (Z.of_nat (size (w_fs w0))
                              - Z.of_nat (size (w_fs (snd (cleanup_old_files current_time
                                                            st_mtime w0))))))])).
  { intros w0. rewrite cleanup_old_files_run. cbn [fst snd w_fs].
    destruct (cleanup_loop_spec current_time st_mtime (glob_star OUTPUT_FOLDER (w_fs w0))
                (w_fs w0) 0) as (_ & _ & Hsize).
    do 5 f_equal. lia. }
  split; [intros p; apply cleanup_old_files_files|].
  split; [apply Hcount|].
  split; [rewrite cleanup_old_files_run; reflexivity|].
  split; [rewrite cleanup_old_files_run; reflexivity|].
  set (w' := snd (cleanup_old_files current_time st_mtime w)).
  assert (Hfs : w_fs (snd (cleanup_old_files current_time st_mtime w')) = w_fs w').
  { apply map_eq. intros p. rewrite cleanup_old_files_files.
    destruct (is_entry_of OUTPUT_FOLDER p && expired current_time (st_mtime p)) eqn:Hb;
      [|reflexivity].
    unfold w'. rewrite cleanup_old_files_files, Hb. reflexivity. }
  rewrite (surjective_pairing (cleanup_old_files current_time st_mtime w')).
  f_equal.
  - rewrite Hcount, Hfs. do 5 f_equal. lia.
  - rewrite cleanup_old_files_run in Hfs |- *. cbn [snd w_fs] in Hfs |- *. rewrite Hfs.
    unfold w'. rewrite cleanup_old_files_run. reflexivity.
Qed.

(** ** One session object, several files *)

(** [encode] without a progress callback, on an object that holds a
    handle already or not yet. *)
Lemma encoder_plain_session eng inp out wd ht fps cs oh m :
  m_encoder m = Some (mkEncoder wd ht fps cs oh) ->
  Encoder_encode eng inp out None m =
    let create := f2v2f_encode_create (Py.c_uint32 wd) (Py.c_uint32 ht) (Py.c_uint32 fps)
                                      (Py.c_size_t cs) in
    let fs' := match eng_output eng with
               | Some f => <[out := f]> (m_fs m)
               | None => m_fs m
               end in
    match oh, eng_create eng with
    | None, None =>
        (Raise (Exn ConfigError "Failed to create encoder"),
         mkMem (m_job m) (m_trace m) (Some (mkEncoder wd ht fps cs None)) (m_decoder m)
               (m_lib m ++ [create None]) (m_fs m) (m_files m) (m_log m))
    | None, Some h =>
        (session_result eng,
         mkMem (m_job m) (m_trace m) (Some (mkEncoder wd ht fps cs (Some h))) (m_decoder m)
               (m_lib m ++ [create (Some h); f2v2f_encode_file (Some h) inp out]
                      ++ error_calls eng)
               fs' (m_files m) (m_log m))
    | Some h, _ =>
        (session_result eng,
         mkMem (m_job m) (m_trace m) (Some (mkEncoder wd ht fps cs (Some h))) (m_decoder m)
               (m_lib m ++ [f2v2f_encode_file (Some h) inp out] ++ error_calls eng)
               fs' (m_files m) (m_log m))
    end.
Proof.
  intros Hcell. destruct m as [j tr enc dec lib fs files log]. cbn [m_encoder] in Hcell.
  subst enc.
  unfold Encoder_encode, Encoder_create_handle, engine_run, _check_error, session_result,
    error_calls, bind, get_encoder, put_encoder, get_fs, put_fs, lib_call, raise, ret.
  cbv zeta.
  destruct oh as [h|]; [|destruct (eng_create eng) as [h|]];
    cbn [m_job m_trace m_encoder m_decoder m_lib m_fs m_files m_log enc_handle enc_width
         enc_height enc_fps enc_chunk_size fst snd];
    try reflexivity;
    destruct (eng_output eng) as [f|];
    cbn [m_job m_trace m_encoder m_decoder m_lib m_fs m_files m_log];
    destruct (Z.eqb (eng_status eng) ErrorCode.SUCCESS);
    try (rewrite <- ?app_assoc, ?app_nil_r; reflexivity);
    destruct (eng_last_error eng) as [decoded|];
    cbn [m_job m_trace m_encoder m_decoder m_lib m_fs m_files m_log default];
    destruct (select_error (eng_status eng) _) as [cls msg];
    cbn [fst snd]; rewrite <- ?app_assoc; reflexivity.
Qed.

(** X13. One [Encoder] object used for two files, without progress
    callback. The handle is created by the first [encode] and used again
    by the second, also when the first session ended in an error; when
    the engine hands out no handle the object keeps none and the next
    [encode] asks again. [__del__] frees the handle once if one was
    obtained and makes no call otherwise. *)
Theorem encoder_creates_its_handle_once (eng1 eng2 : Engine) (wd ht fps cs : Z)
    (i1 o1 i2 o2 : string) (m : Mem) :
  m_encoder m = Some (Encoder_init wd ht fps cs) ->
  let create := f2v2f_encode_create (wd mod 2 ^ 32) (ht mod 2 ^ 32) (fps mod 2 ^ 32)
                                    (cs mod 2 ^ 64) in
  let m2 := snd (Encoder_encode eng2 i2 o2 None (snd (Encoder_encode eng1 i1 o1 None m))) in
  match eng_create eng1, eng_create eng2 with
  | Some h, _ =>
      m_lib m2 = (m_lib m ++ [create (Some h); f2v2f_encode_file (Some h) i1 o1]
                  ++ error_calls eng1
                  ++ [f2v2f_encode_file (Some h) i2 o2] ++ error_calls eng2)%list
      /\ frees (m_encoder m2) None = [f2v2f_encode_free h]
  | None, Some h =>
      m_lib m2 = (m_lib m ++ [create None; create (Some h); f2v2f_encode_file (Some h) i2 o2]
                  ++ error_calls eng2)%list
      /\ frees (m_encoder m2) None = [f2v2f_encode_free h]
  | None, None =>
      m_lib m2 = (m_lib m ++ [create None; create None])%list
      /\ frees (m_encoder m2) None = []
  end.
Proof.
  intros Hcell. cbv zeta. unfold Encoder_init in Hcell.
  rewrite (encoder_plain_session eng1 i1 o1 wd ht fps cs None m Hcell). cbv zeta.
  destruct (eng_create eng1) as [h|]; cbn [snd].
  - rewrite (encoder_plain_session eng2 i2 o2 wd ht fps cs (Some h)) by reflexivity.
    cbv zeta. cbn [snd m_lib m_encoder frees enc_handle].
    split; [|reflexivity]. rewrite <- !app_assoc. reflexivity.
  - rewrite (encoder_plain_session eng2 i2 o2 wd ht fps cs None) by reflexivity.
    cbv zeta. destruct (eng_create eng2) as [h|]; cbn [snd m_lib m_encoder frees enc_handle];
      (split; [|reflexivity]); rewrite <- !app_assoc; reflexivity.
Qed.

Lemma encoder_creates_its_handle_once_witness :
  let m := snd (put_encoder (Some (Encoder_init 1280 720 30 4096))
                            (worker_start (et_job report_task) report_world)) in
  m_lib (snd (Encoder_encode quiet_engine "b.bin" "b.mp4" None
                (snd (Encoder_encode (silent_engine 3) "a.bin" "a.mp4" None m))))
  = [f2v2f_encode_create 1280 720 30 4096 (Some 1);
     f2v2f_encode_file (Some 1) "a.bin" "a.mp4"; f2v2f_get_last_error;
     f2v2f_encode_file (Some 1) "b.bin" "b.mp4"].
Proof.
  cbv zeta.
  exact (proj1 (encoder_creates_its_handle_once (silent_engine 3) quiet_engine
                  1280 720 30 4096 "a.bin" "a.mp4" "b.bin" "b.mp4"
                  (snd (put_encoder (Some (Encoder_init 1280 720 30 4096))
                                    (worker_start (et_job report_task) report_world)))
                  eq_refl)).
Defined.

(** ** The error string of the engine *)

(** X14. [_check_error] and the engine's error string. On success it
    makes no call and changes nothing. On any other code it asks for the
    last error once and hands the string back to the engine exactly when
    it received one (never a [NULL] pointer, and also when the string
    does not decode); nothing but the list of library calls changes. A
    string that is empty or does not decode counts as no message: the
    exception raised is the one raised without message. *)
Theorem check_error_frees_the_message (eng : Engine) (error_code : Z) (m : Mem) :
  _check_error eng ErrorCode.SUCCESS m = (Ret tt, m)
  /\ (error_code <> ErrorCode.SUCCESS ->
      snd (_check_error eng error_code m)
      = mkMem (m_job m) (m_trace m) (m_encoder m) (m_decoder m)
              (m_lib m ++ f2v2f_get_last_error
                          :: match eng_last_error eng with
                             | Some _ => [f2v2f_free_string]
                             | None => []
                             end)
              (m_fs m) (m_files m) (m_log m)
      /\ (eng_last_error eng = Some None \/ eng_last_error eng = Some (Some "") ->
          fst (_check_error eng error_code m)
          = Raise (Exn (fst (select_error error_code None))
                       (snd (select_error error_code None))))).
Proof.
  split; [reflexivity|]. intros Hne. split.
  - unfold _check_error.
    destruct (Z.eqb_spec error_code ErrorCode.SUCCESS) as [->|_]; [contradiction|].
    destruct m as [j tr enc dec lib fs files log].
    unfold bind, lib_call, ret, raise. simpl.
    destruct (eng_last_error eng) as [decoded|]; simpl;
      destruct (select_error error_code _) as [cls msg]; simpl;
      rewrite <- ?app_assoc; reflexivity.
  - intros Hmsg. rewrite check_error_raises by exact Hne.
    destruct Hmsg as [-> | ->]; reflexivity.
Qed.

(** ** The two ends of the progress scale *)

Lemma percent_scaled_full (t : Z) :
  0 < t < 2 ^ 64 -> percent_scaled t t = 100 * 2 ^ 1074.
Proof.
  intros [Ht0 Ht]. destruct t as [|t|t]; try lia.
  destruct (percent_stages t t ltac:(lia) Ht) as (x & Hdiv & Hr & Hmul).
  unfold percent_scaled. rewrite Hdiv.
  assert (HB : 0 < 2 ^ 1074) by (apply Z.pow_pos_nonneg; lia).
  assert (Hx : sc x = 2 ^ 1074).
  { change (2 ^ 1074) with (sc (S754_finite false 4503599627370496 (-52))).
    apply Z.le_antisymm.
    - apply (rounds_mono (Zpos t) (Zpos t) 1 1); [lia|lia|lia|exact Hr|exact rounds_one].
    - apply (rounds_mono 1 1 (Zpos t) (Zpos t)); [lia|lia|lia|exact rounds_one|exact Hr]. }
  rewrite Hx in Hmul.
  change (100 * 2 ^ 1074) with (sc (S754_finite false 7036874417766400 (-46))).
  apply Z.le_antisymm.
  - apply (rounds_mono (100 * 2 ^ 1074) (2 ^ 1074) (100 * 2 ^ 1074) (2 ^ 1074));
      [exact HB|exact HB|lia|exact Hmul|exact rounds_hundred].
  - apply (rounds_mono (100 * 2 ^ 1074) (2 ^ 1074) (100 * 2 ^ 1074) (2 ^ 1074));
      [exact HB|exact HB|lia|exact rounds_hundred|exact Hmul].
Qed.

(** The whole input gives exactly 100 percent. *)
Lemma percent_full (t : Z) : 0 < t < 2 ^ 64 -> percent t t = Some 100.
Proof.
  intros Ht. rewrite percent_scaled_ok by lia. rewrite percent_scaled_full by exact Ht.
  f_equal; apply Z.div_mul; pose proof (Z.pow_pos_nonneg 2 1074); lia.
Qed.

(** ** A session that reports to the end *)

Lemma chainb_leb_lower (x : Z) (l : list Z) :
  chainb Z.leb (x :: l) = true -> forall y, In y l -> x <= y.
Proof.
  revert x. induction l as [|a l IH]; intros x Hc y Hy; [destruct Hy|].
  rewrite chainb_cons in Hc. apply andb_prop in Hc. destruct Hc as [Hxa Hc].
  apply Z.leb_le in Hxa. destruct Hy as [<-|Hy]; [exact Hxa|].
  specialize (IH a Hc y Hy). lia.
Qed.

(** The reports that do not reach the callback assign nothing. *)
Lemma assigned_values_decoded (ts : Z) (calls : list (Z * Z * option (option string))) :
  assigned_values ts calls = assigned_values ts (List.filter decodes calls).
Proof.
  induction calls as [|c calls IH]; [reflexivity|].
  rewrite assigned_values_cons. cbn [List.filter].
  destruct (decodes c) eqn:Hd.
  - rewrite assigned_values_cons, IH. reflexivity.
  - unfold assigned. rewrite Hd. exact IH.
Qed.

Lemma assigned_values_last (ts : Z) (calls : list (Z * Z * option (option string))) :
  0 < ts < 2 ^ 64 ->
  (forall c, In c calls -> decodes c = true /\ 0 <= fst (fst c) <= ts) ->
  List.last (List.map (fun call => fst (fst call)) calls) 0 = ts ->
  List.last (assigned_values ts calls) 0 = 100.
Proof.
  intros Hts. induction calls as [|c calls IH]; intros Hall Hlast.
  - simpl in Hlast. lia.
  - destruct (Hall c (or_introl eq_refl)) as [Hd Hc].
    destruct (percent_range (fst (fst c)) ts Hc Hts) as (p & Hp & _).
    assert (Hass : assigned ts c = Some p).
    { unfold assigned. rewrite Hd.
      replace (Z.ltb 0 ts) with true by (symmetry; apply Z.ltb_lt; lia).
      unfold Py.c_uint64. rewrite Z.mod_small by lia. exact Hp. }
    rewrite assigned_values_cons, Hass.
    destruct calls as [|c' calls].
    + simpl in Hlast. simpl. rewrite Hlast in Hp. rewrite percent_full in Hp by exact Hts.
      congruence.
    + change (List.map (fun call => fst (fst call)) (c :: c' :: calls))
        with (fst (fst c) :: List.map (fun call => fst (fst call)) (c' :: calls)) in Hlast.
      rewrite last_cons in Hlast.
      assert (Hrest : List.last (assigned_values ts (c' :: calls)) 0 = 100).
      { apply IH.
        - intros x Hx. apply Hall. right. exact Hx.
        - change (List.map (fun call => fst (fst call)) (c' :: calls))
            with (fst (fst c') :: List.map (fun call => fst (fst call)) calls) in Hlast |- *.
          rewrite last_cons in Hlast |- *. exact Hlast. }
      destruct (Hall c' (or_intror (or_introl eq_refl))) as [Hd' Hc'].
      destruct (percent_range (fst (fst c')) ts Hc' Hts) as (p' & Hp' & _).
      assert (Hass' : assigned ts c' = Some p').
      { unfold assigned. rewrite Hd'.
        replace (Z.ltb 0 ts) with true by (symmetry; apply Z.ltb_lt; lia).
        unfold Py.c_uint64. rewrite Z.mod_small by lia. exact Hp'. }
      rewrite assigned_values_cons, Hass' in Hrest |- *.
      rewrite !last_cons. rewrite last_cons in Hrest. exact Hrest.
Qed.

Lemma reported_last_is_100 (ts : Z) (calls : list (Z * Z * option (option string))) :
  well_reported ts calls = true -> fully_reported ts calls = true ->
  List.last (assigned_values ts calls) 0 = 100.
Proof.
  unfold well_reported, fully_reported. intros Hw Hf.
  apply andb_prop in Hw. destruct Hw as [Hw Hall].
  apply andb_prop in Hw. destruct Hw as [Hlt Hchain]. apply Z.ltb_lt in Hlt.
  apply andb_prop in Hf. destruct Hf as [Hpos Hlast].
  apply Z.ltb_lt in Hpos. apply Z.eqb_eq in Hlast.
  rewrite assigned_values_decoded.
  apply assigned_values_last; [lia| |exact Hlast].
  intros c Hc. apply List.filter_In in Hc. destruct Hc as [Hc Hd].
  split; [exact Hd|]. split.
  - apply (chainb_leb_lower 0 _ Hchain).
    exact (List.in_map (fun call : Z * Z * option (option string) => fst (fst call))
                       calls c Hc).
  - rewrite List.forallb_forall in Hall. apply Z.leb_le. apply Hall. exact Hc.
Qed.

Lemma callback_jobs_not_completed (j : Job) (vals : list Z) :
  status j = RUNNING ->
  forallb (fun j' => implb (is_completed j') (Z.eqb (progress j') 100))
          (List.map (fun p => with_progress p j) vals) = true.
Proof.
  intros Hs. apply List.forallb_forall. intros j' Hj'.
  apply List.in_map_iff in Hj'. destruct Hj' as (p & <- & _).
  unfold is_completed. cbn [status with_progress]. rewrite Hs. reflexivity.
Qed.

Lemma worker_trace_completed_at_100 j0 input_path output_path output_name create_msg
    missing_msg env w :
  status j0 = PENDING -> progress j0 = 0 ->
  output_kept env = true ->
  List.last (assigned_values (input_size input_path w) (eng_progress (env_engine env))) 0
  = 100 ->
  completed_at_100 (worker_trace j0 input_path output_path output_name create_msg
                                 missing_msg env w) = true.
Proof.
  intros Hs0 Hp0 Hkept Hlast. unfold worker_trace, completed_at_100.
  destruct (input_found input_path env w) as [f|] eqn:Hfound.
  2:{ unfold failed, is_completed. simpl. rewrite Hs0. reflexivity. }
  assert (Hsize : input_size input_path w = st_size f).
  { unfold input_found in Hfound. unfold input_size.
    destruct (env_input_lost env); [discriminate|]. rewrite Hfound. reflexivity. }
  rewrite Hsize in Hlast.
  destruct (eng_create (env_engine env)) as [h|].
  2:{ unfold failed, is_completed. simpl. rewrite Hs0. reflexivity. }
  set (jt := with_total_size (st_size f) (with_status RUNNING j0)).
  set (vals := callback_values jt (eng_progress (env_engine env))).
  assert (Hvals : vals = assigned_values (st_size f) (eng_progress (env_engine env)))
    by reflexivity.
  pose proof (callback_jobs_final jt vals) as Hjl. cbv zeta in Hjl.
  destruct Hjl as [Hjls Hjlp].
  change (status jt) with RUNNING in Hjls.
  change (progress jt) with (progress j0) in Hjlp. rewrite Hp0 in Hjlp.
  set (jl := List.last (List.map (fun p => with_progress p jt) vals) jt) in *.
  rewrite Hvals, Hlast in Hjlp.
  cbv zeta. rewrite !List.forallb_app.
  rewrite (callback_jobs_not_completed jt vals eq_refl).
  assert (Hhead : forallb (fun j => implb (is_completed j) (Z.eqb (progress j) 100))
                          [j0; with_status RUNNING j0; jt] = true).
  { unfold is_completed. simpl. rewrite Hs0. reflexivity. }
  rewrite Hhead. cbn [andb].
  destruct (negb (Z.eqb (eng_status (env_engine env)) ErrorCode.SUCCESS));
    [unfold failed, is_completed; reflexivity|].
  destruct (negb (bool_decide (is_Some (fs_after_engine output_path env w !! output_path))));
    [unfold failed, is_completed; reflexivity|].
  rewrite Hkept. rewrite app_nil_r. unfold is_completed. simpl. rewrite Hjlp. reflexivity.
Qed.

(** X16. When the engine reports byte counts that never decrease, never
    exceed the size of the (non-empty) input, and the last report that
    reaches the callback (its message is [NULL] or decodes) carries that
    size, and the output file stays in place, the history of the job is
    the orderly one: the status moves only forward, the progress never
    decreases, and the progress is 100 in every value that shows
    Completed, that report having brought it to exactly 100 before the
    status changes. *)
Theorem history_is_orderly_when_fully_reported (t : EncodeTask) (dt : DecodeTask)
    (env : Env) (w : World) :
  status (et_job t) = PENDING -> progress (et_job t) = 0 ->
  status (dt_job dt) = PENDING -> progress (dt_job dt) = 0 ->
  output_kept env = true ->
  (well_reported (input_size (et_input_path t) w) (eng_progress (env_engine env)) = true ->
   fully_reported (input_size (et_input_path t) w) (eng_progress (env_engine env)) = true ->
   orderly (m_trace (run_encode t env w)) = true)
  /\ (well_reported (input_size (dt_input_path dt) w) (eng_progress (env_engine env)) = true ->
      fully_reported (input_size (dt_input_path dt) w) (eng_progress (env_engine env)) = true ->
      orderly (m_trace (run_decode dt env w)) = true).
Proof.
  intros Hes Hep Hds Hdp Hkept. split; intros Hwell Hfull; unfold orderly.
  - destruct (encode_run_summary t env w) as (Htr & _ & _). rewrite Htr.
    destruct (worker_trace_life_cycle (et_job t) (et_input_path t) (et_output_path t)
                (et_output_name t) "Failed to create encoder"
                "Encoder did not create output file: " env w Hes Hep)
      as (Hfwd & _ & _ & _ & Hmono).
    rewrite (Hfwd Hkept), (Hmono Hwell). cbn [andb].
    apply worker_trace_completed_at_100; try assumption.
    apply reported_last_is_100; assumption.
  - destruct (decode_run_summary dt env w) as (Htr & _ & _). rewrite Htr.
    destruct (worker_trace_life_cycle (dt_job dt) (dt_input_path dt) (dt_output_path dt)
                (dt_output_name dt) "Failed to create decoder"
                "Decoder did not create output file: " env w Hds Hdp)
      as (Hfwd & _ & _ & _ & Hmono).
    rewrite (Hfwd Hkept), (Hmono Hwell). cbn [andb].
    apply worker_trace_completed_at_100; try assumption.
    apply reported_last_is_100; assumption.
Qed.

Lemma history_is_orderly_when_fully_reported_witness :
  orderly (m_trace (run_encode report_task (calm garbled_engine) report_world)) = true.
Proof.
  destruct (history_is_orderly_when_fully_reported report_task stray_task
              (calm garbled_engine) report_world eq_refl eq_refl eq_refl eq_refl eq_refl)
    as [H _].
  apply H; vm_compute; reflexivity.
Defined.

(** The reports whose message does not decode leave no trace in that
    run. *)
Example garbled_run_history :
  List.map (fun j => (status j, progress j))
           (m_trace (run_encode report_task (calm garbled_engine) report_world))
  = [(PENDING, 0); (RUNNING, 0); (RUNNING, 0); (RUNNING, 28); (RUNNING, 100);
     (COMPLETED, 100); (COMPLETED, 100); (COMPLETED, 100)].
Proof. vm_compute. reflexivity. Qed.

(** When it is the report of the full size whose message does not decode,
    the job shows Completed while its progress is still 28. *)
Example mute_run_history :
  let tr := m_trace (run_encode report_task (calm mute_engine) report_world) in
  List.map (fun j => (status j, progress j)) tr
  = [(PENDING, 0); (RUNNING, 0); (RUNNING, 0); (RUNNING, 28);
     (COMPLETED, 28); (COMPLETED, 100); (COMPLETED, 100)]
  /\ fully_reported 100 (eng_progress mute_engine) = false
  /\ completed_at_100 tr = false.
Proof. vm_compute. repeat split; reflexivity. Qed.

(** ** The scale of the progress callback *)

(** X15. The percentage the progress callback computes, for an input of
    [ts] bytes ([0 < ts < 2^64]): nothing processed gives 0, the whole
    input gives exactly 100, and in between a larger byte count never
    gives a smaller percentage, in spite of the two roundings of the
    floating-point expression. *)
Theorem percent_scale (a b ts : Z) :
  0 <= a <= b -> b <= ts -> 0 < ts < 2 ^ 64 ->
  percent 0 ts = Some 0
  /\ percent ts ts = Some 100
  /\ exists pa pb, percent a ts = Some pa /\ percent b ts = Some pb
                   /\ 0 <= pa <= pb /\ pb <= 100.
Proof.
  intros Hab Hb Hts.
  split; [apply percent_zero; lia|]. split; [apply percent_full; exact Hts|].
  destruct (percent_mono a b ts Hab Hb Hts) as (pa & pb & Ha & Hpb & Hle).
  destruct (percent_range a ts ltac:(lia) Hts) as (pa' & Ha' & Hra).
  destruct (percent_range b ts ltac:(lia) Hts) as (pb' & Hb' & Hrb).
  exists pa, pb. rewrite Ha in Ha'. rewrite Hpb in Hb'.
  injection Ha' as <-. injection Hb' as <-.
  split; [exact Ha|]. split; [exact Hpb|]. lia.
Qed.

Lemma percent_scale_witness :
  percent 0 3 = Some 0 /\ percent 3 3 = Some 100
  /\ exists pa pb, percent 1 3 = Some pa /\ percent 2 3 = Some pb
                   /\ 0 <= pa <= pb /\ pb <= 100.
Proof. apply (percent_scale 1 2 3); lia. Defined.

(** ** Finding the native library *)

(** X17. The loader binds the library of the first entry of [lib_paths]
    that exists and loads: an entry that does not exist, or that exists
    but fails to load, is passed over, and the entries after the first
    usable one are not considered. When no entry is usable the import
    fails with a message that lists every path searched. *)
Theorem loader_takes_first_usable (before after : list Candidate) (c : Candidate)
    (lib : Z) (lib_paths : list Candidate) :
  (forallb (fun c' => negb (usable c')) before = true ->
   cand_exists c = true -> cand_loads c = Some lib ->
   load_library (before ++ c :: after) = inl lib)
  /\ (forallb (fun c' => negb (usable c')) lib_paths = true ->
      load_library lib_paths
      = inr ("Could not find f2v2f library. Searched:" ++ newline
             ++ String.concat newline (List.map cand_path lib_paths)))
  /\ (load_library lib_paths = inl lib ->
      exists pre c' post, lib_paths = (pre ++ c' :: post)%list
                          /\ forallb (fun x => negb (usable x)) pre = true
                          /\ cand_exists c' = true /\ cand_loads c' = Some lib).
Proof.
  assert (Hskip : forall pre rest,
            forallb (fun c' => negb (usable c')) pre = true ->
            find_library (pre ++ rest) = find_library rest).
  { induction pre as [|x pre IH]; intros rest Hall; [reflexivity|].
    cbn [forallb] in Hall. apply andb_prop in Hall. destruct Hall as [Hx Hall].
    cbn [List.app find_library]. unfold usable in Hx.
    destruct (cand_exists x); [|apply IH; exact Hall].
    destruct (cand_loads x) as [l|]; [|apply IH; exact Hall].
    rewrite bool_decide_eq_true_2 in Hx by (eexists; reflexivity). discriminate. }
  split; [|split].
  - intros Hall He Hl. unfold load_library. rewrite (Hskip before (c :: after) Hall).
    cbn [find_library]. rewrite He, Hl. reflexivity.
  - intros Hall. unfold load_library.
    rewrite <- (app_nil_r lib_paths) at 1. rewrite (Hskip lib_paths [] Hall). reflexivity.
  - unfold load_library.
    destruct (find_library lib_paths) as [l|] eqn:Hfind; [|discriminate].
    intros [= ->]. revert Hfind. induction lib_paths as [|x rest IH]; [discriminate|].
    cbn [find_library].
    destruct (cand_exists x) eqn:He.
    + destruct (cand_loads x) as [l|] eqn:Hl.
      * intros [= ->]. exists [], x, rest. repeat split; assumption.
      * intros Hrest. destruct (IH Hrest) as (pre & c' & post & -> & Hall & He' & Hl').
        exists (x :: pre), c', post. split; [reflexivity|].
        split; [|split; assumption].
        cbn [forallb]. unfold usable at 1. rewrite He, Hl, Hall.
        rewrite bool_decide_eq_false_2 by (intros [? ?]; discriminate). reflexivity.
    + intros Hrest. destruct (IH Hrest) as (pre & c' & post & -> & Hall & He' & Hl').
      exists (x :: pre), c', post. split; [reflexivity|].
      split; [|split; assumption].
      cbn [forallb]. unfold usable at 1. rewrite He, Hall. reflexivity.
Qed.

Lemma loader_takes_first_usable_witness :
  load_library [mkCandidate "lib/target/release/libf2v2f.so" false None;
                mkCandidate "lib/target/debug/libf2v2f.so" true None;
                mkCandidate "/usr/local/lib/libf2v2f.so" true (Some 7);
                mkCandidate "/usr/lib/libf2v2f.so" true (Some 8)]
  = inl 7.
Proof.
  apply (proj1 (loader_takes_first_usable
                  [mkCandidate "lib/target/release/libf2v2f.so" false None;
                   mkCandidate "lib/target/debug/libf2v2f.so" true None]
                  [mkCandidate "/usr/lib/libf2v2f.so" true (Some 8)]
                  (mkCandidate "/usr/local/lib/libf2v2f.so" true (Some 7)) 7 []));
    reflexivity.
Defined.

(** ** The status endpoint after the run *)

Lemma worker_trace_static j0 input_path output_path output_name create_msg missing_msg env w :
  result_url j0 = None ->
  let j := List.last (worker_trace j0 input_path output_path output_name create_msg
                                   missing_msg env w) j0 in
  job_id j = job_id j0 /\ operation j = operation j0
  /\ result_url j = if reaches_registry input_path output_path env w
                    then Some ("/api/download/" ++ output_name) else None.
Proof.
  intros Hr. unfold worker_trace, reaches_registry. cbv zeta.
  destruct (input_found input_path env w) as [f|]; [|repeat split; exact Hr].
  destruct (eng_create (env_engine env)) as [h|]; [|repeat split; exact Hr].
  set (jt := with_total_size (st_size f) (with_status RUNNING j0)).
  destruct (callback_jobs_last jt (callback_values jt (eng_progress (env_engine env))))
    as [p Hlast].
  rewrite !last_app_default. rewrite Hlast.
  destruct (Z.eqb (eng_status (env_engine env)) ErrorCode.SUCCESS); cbn [negb andb];
    [|repeat split; exact Hr].
  destruct (bool_decide (is_Some (fs_after_engine output_path env w !! output_path)));
    cbn [negb andb]; [|repeat split; exact Hr].
  destruct (output_kept env); repeat split; reflexivity.
Qed.

Lemma or_else_nonempty (x : option string) (d : string) : d <> "" -> Py.or_else x d <> "".
Proof.
  intros Hd. unfold Py.or_else. destruct x as [s|]; [|exact Hd].
  destruct (String.eqb_spec s ""); assumption.
Qed.

Lemma select_error_nonempty (error_code : Z) (error_msg : option string) :
  snd (select_error error_code error_msg) <> "".
Proof.
  unfold select_error, error_map, dict_get.
  repeat match goal with
         | |- context [Z.eqb ?k error_code] =>
             destruct (Z.eqb k error_code);
             [cbn [snd]; apply or_else_nonempty; discriminate|]
         end.
  cbn [snd]. apply or_else_nonempty. discriminate.
Qed.

Lemma failure_message_nonempty input_path output_path create_msg missing_msg env w c1 r1 c2 r2 :
  create_msg = String c1 r1 -> missing_msg = String c2 r2 ->
  failure_message input_path output_path create_msg missing_msg env w <> "".
Proof.
  intros -> ->. unfold failure_message, no_such_file.
  destruct (input_found input_path env w); [|discriminate].
  destruct (eng_create (env_engine env)); [|discriminate].
  destruct (negb (Z.eqb (eng_status (env_engine env)) ErrorCode.SUCCESS));
    [apply select_error_nonempty|].
  destruct (negb (bool_decide _)); discriminate.
Qed.

Lemma status_body_of (j : Job) (ok : bool) (output_name msg : string) (url : option string) :
  ended_as j ok output_name msg -> msg <> "" ->
  result_url j = url ->
  (url = None \/ url = Some ("/api/download/" ++ output_name)) ->
  status_body j =
    ([("job_id", JStr (job_id j)); ("operation", JStr (operation j));
      ("status", JStr (if ok then "completed" else "failed")); ("progress", JInt (progress j))]
     ++ (if ok then [] else [("error", JStr msg)])
     ++ match url with
        | Some u => [("result_url", JStr u)]
        | None => []
        end)%list.
Proof.
  unfold ended_as, status_body. intros Hend Hmsg Hurl Hcases.
  destruct ok.
  - destruct Hend as (-> & _ & Hr & ->). rewrite Hr in Hurl. subst url. rewrite Hr.
    reflexivity.
  - destruct Hend as (-> & ->). rewrite Hurl.
    assert (Ht : Py.truthy (Some msg) = true).
    { unfold Py.truthy. destruct (String.eqb_spec msg ""); [contradiction|reflexivity]. }
    rewrite Ht. destruct Hcases as [-> | ->]; reflexivity.
Qed.

Lemma finished_status j0 input_path output_path output_name create_msg missing_msg env w
    (jobs : gmap string Job) c1 r1 c2 r2 :
  error_message j0 = None -> result_url j0 = None ->
  create_msg = String c1 r1 -> missing_msg = String c2 r2 ->
  let j := List.last (worker_trace j0 input_path output_path output_name create_msg
                                   missing_msg env w) j0 in
  let ok := run_succeeds input_path output_path env w in
  exists p,
    (<[job_id j := j]> jobs) !! job_id j0 = Some j
    /\ status_body j
       = finished_body (job_id j0) (operation j0) ok
                       (reaches_registry input_path output_path env w) p
                       (failure_message input_path output_path create_msg missing_msg env w)
                       output_name
    /\ (ok = true -> p = 100).
Proof.
  intros He Hr Hc Hm. cbv zeta.
  pose proof (worker_trace_end j0 input_path output_path output_name create_msg missing_msg
                env w He Hr) as Hend.
  pose proof (worker_trace_static j0 input_path output_path output_name create_msg
                missing_msg env w Hr) as Hstatic.
  cbv zeta in Hstatic. destruct Hstatic as (Hid & Hop & Hurl).
  set (j := List.last (worker_trace j0 input_path output_path output_name create_msg
                                    missing_msg env w) j0) in *.
  exists (progress j). split; [rewrite Hid; apply lookup_insert_eq|]. split.
  - rewrite (status_body_of j _ _ _ _ Hend
               (failure_message_nonempty _ _ _ _ env w c1 r1 c2 r2 Hc Hm) Hurl).
    + unfold finished_body. rewrite Hid, Hop.
      destruct (reaches_registry input_path output_path env w); reflexivity.
    + destruct (reaches_registry input_path output_path env w); [right|left]; reflexivity.
  - intros Hok. unfold ended_as in Hend. rewrite Hok in Hend. apply Hend.
Qed.

Lemma encode_file_job secure_filename uuid_of seen req w resp w' t :
  encode_file secure_filename uuid_of seen req w = (resp, w', Some t) ->
  et_job t = new_job (job_id (et_job t)) "encode" (et_input_path t) (et_output_path t).
Proof.
  unfold encode_file.
  destruct (multi_get (req_files req) "file") as [file|]; [|discriminate].
  destruct (String.eqb (up_filename file) ""); [discriminate|].
  simpl. intros [= _ _ <-]. reflexivity.
Qed.

Lemma decode_video_job secure_filename uuid_of seen db_fault req w resp w' t :
  decode_video secure_filename uuid_of seen db_fault req w = (resp, w', Some t) ->
  dt_job t = new_job (job_id (dt_job t)) "decode" (dt_input_path t) (dt_output_path t).
Proof.
  unfold decode_video.
  destruct (multi_get (req_files req) "file") as [file|]; [|discriminate].
  destruct (String.eqb (up_filename file) ""); [discriminate|].
  simpl. intros [= _ _ <-]. reflexivity.
Qed.

(** X18. Once the worker of a submitted job has returned, the status
    endpoint answers 200 for its id with status ["completed"], progress
    100 and the result url when the run got through, and with status
    ["failed"] and an ["error"] entry otherwise: the message of a failed
    job is never empty, so the entry is always there. A job that failed
    only at the closing log statement shows its result url as well. *)
Theorem finished_job_is_reported (secure_filename : string -> string)
    (uuid_of : nat -> string) (seen : JobStatus) (db_fault : bool) (req : Request)
    (w : World) (env : Env) :
  (forall resp w' t,
     encode_file secure_filename uuid_of seen req w = (resp, w', Some t) ->
     let msg := failure_message (et_input_path t) (et_output_path t)
                  "Failed to create encoder" "Encoder did not create output file: " env w' in
     let ok := run_succeeds (et_input_path t) (et_output_path t) env w' in
     msg <> "" /\
     exists p,
       (ok = true -> p = 100)
       /\ get_status (job_id (et_job t)) (worker_done (run_encode t env w') w')
          = mkJsonResponse 200
              (JObj (finished_body (job_id (et_job t)) "encode" ok
                       (reaches_registry (et_input_path t) (et_output_path t) env w') p msg
                       (et_output_name t))))
  /\ (forall resp w' t,
        decode_video secure_filename uuid_of seen db_fault req w = (resp, w', Some t) ->
        let msg := failure_message (dt_input_path t) (dt_output_path t)
                     "Failed to create decoder" "Decoder did not create output file: " env w' in
        let ok := run_succeeds (dt_input_path t) (dt_output_path t) env w' in
        msg <> "" /\
        exists p,
          (ok = true -> p = 100)
          /\ get_status (job_id (dt_job t)) (worker_done (run_decode t env w') w')
             = mkJsonResponse 200
                 (JObj (finished_body (job_id (dt_job t)) "decode" ok
                          (reaches_registry (dt_input_path t) (dt_output_path t) env w') p msg
                          (dt_output_name t)))).
Proof.
  split; intros resp w' t Hstart; cbv zeta;
    (split; [eapply failure_message_nonempty; reflexivity|]).
  - pose proof (encode_file_job _ _ _ _ _ _ _ _ Hstart) as Hjob.
    destruct (encode_run_summary t env w') as (Htr & _ & Hlast).
    destruct (finished_status (et_job t) (et_input_path t) (et_output_path t)
                (et_output_name t) "Failed to create encoder"
                "Encoder did not create output file: " env w' (w_jobs w') _ _ _ _
                ltac:(rewrite Hjob; reflexivity) ltac:(rewrite Hjob; reflexivity)
                eq_refl eq_refl) as (p & Hlook & Hbody & Hp).
    exists p. split; [exact Hp|].
    unfold get_status. cbn [worker_done w_jobs]. rewrite Hlast, Htr, Hlook, Hbody.
    rewrite Hjob at 2. reflexivity.
  - pose proof (decode_video_job _ _ _ _ _ _ _ _ _ Hstart) as Hjob.
    destruct (decode_run_summary t env w') as (Htr & _ & Hlast).
    destruct (finished_status (dt_job t) (dt_input_path t) (dt_output_path t)
                (dt_output_name t) "Failed to create decoder"
                "Decoder did not create output file: " env w' (w_jobs w') _ _ _ _
                ltac:(rewrite Hjob; reflexivity) ltac:(rewrite Hjob; reflexivity)
                eq_refl eq_refl) as (p & Hlook & Hbody & Hp).
    exists p. split; [exact Hp|].
    unfold get_status. cbn [worker_done w_jobs]. rewrite Hlast, Htr, Hlook, Hbody.
    rewrite Hjob at 2. reflexivity.
Qed.

Lemma finished_job_is_reported_witness :
  exists p,
    get_status "uuid2"
      (worker_done (run_encode report_task (calm (silent_engine 3)) report_world)
                   report_world)
    = mkJsonResponse 200
        (JObj [("job_id", JStr "uuid2"); ("operation", JStr "encode");
               ("status", JStr "failed"); ("progress", JInt p);
               ("error", JStr "Encoding failed")]).
Proof.
  destruct (finished_job_is_reported secure_filename_ascii uuid_sample PENDING false report_request
              empty_world (calm (silent_engine 3))) as [H _].
  destruct (H (fst (fst report_submission)) report_world report_task eq_refl)
    as (_ & p & _ & Hs).
  exists p. exact Hs.
Defined.

Lemma cleanup_removes_expired_outputs_witness :
  let w := worker_done (run_encode report_task (calm quiet_engine) report_world)
                       report_world in
  let now := binary_normalize Py.prec Py.emax 200000 0 false in
  let mtime := fun _ : string => binary_normalize Py.prec Py.emax 100000 0 false in
  w_fs w !! "outputs/uuid1_report.mp4" = Some (mkFile 555 "9f2c")
  /\ w_fs (snd (cleanup_old_files now mtime w)) !! "outputs/uuid1_report.mp4" = None
  /\ fst (cleanup_old_files now mtime w)
     = mkJsonResponse 200 (JObj [("deleted_files", JInt 1)])
  /\ List.length (w_files (snd (cleanup_old_files now mtime w))) = 1%nat.
Proof.
  cbv zeta.
  destruct (cleanup_removes_expired_outputs
              (binary_normalize Py.prec Py.emax 200000 0 false)
              (fun _ : string => binary_normalize Py.prec Py.emax 100000 0 false)
              (worker_done (run_encode report_task (calm quiet_engine) report_world)
                           report_world)) as (Hfs & Hresp & Hfiles & _).
  split; [vm_compute; reflexivity|].
  split; [rewrite Hfs; vm_compute; reflexivity|].
  split; [rewrite Hresp; vm_compute; reflexivity|].
  rewrite Hfiles. vm_compute. reflexivity.
Defined.

